(** * Solana trading bot: decision engine, self-tuning controller, pair scanner

    A shallow embedding of

    - [backend/trading/decision_module.py]  (class [DecisionModule]),
    - [backend/ai_analysis/ai_auto_optimizer.py]  (class [AIAutoOptimizer]),
    - [backend/trading/new_pair_scanner.py]  (class [NewPairScanner]),

    followed by the properties established about them.

    Modelling conventions.

    - Python [float] values (prices, amounts, timestamps, ratios) are
      exact rationals [Q]: comparisons and arithmetic are the ideal ones,
      rounding, infinities and NaN are outside the model.  Division follows
      Python: a zero divisor raises [ZeroDivisionError].
    - [dict]s keyed by a mint address are [gmap string _]; the creator
      cache (a Python [set]) is a [gset string].
    - Coroutines are run to completion one after the other; what the
      outside world answers (HTTP bodies, RPC replies, the clock, the
      random generator) is an explicit argument of the function using it.
    - An exception caught by a [try/except] that only logs is reported in
      the result of the function, next to the state it leaves behind.
    - Appending a line to a log file always succeeds; the file is the list
      of the entries written to it. *)

From Stdlib Require Import QArith Qminmax Lqa ZArith Bool List.
From Stdlib.Strings Require Import Byte.
From stdpp Require Import gmap strings.
Import ListNotations.

Open Scope Q_scope.

(** ** Python primitives *)

Module Py.

(** The exceptions the modelled code can raise and catch. *)
Inductive exn : Type :=
| ZeroDivisionError
| KeyError (key : string)
| AttributeError (attr : string)
| IndexError
| ValueError.

Definition Qlt_bool (x y : Q) : bool := negb (Qle_bool y x).

(** [x / y] on floats. *)
Definition truediv (x y : Q) : option Q :=
  if Qeq_bool y 0 then None else Some (x / y).

(** [max(a, b)] and [min(a, b)]: the first argument wins ties. *)
Definition max (a b : Q) : Q := if Qlt_bool a b then b else a.
Definition min (a b : Q) : Q := if Qlt_bool b a then b else a.

(** Truthiness of a float and of a string. *)
Definition truthy (x : Q) : bool := negb (Qeq_bool x 0).
Definition nonempty (s : string) : bool :=
  match s with EmptyString => false | _ => true end.

(** [int(s)] for a string of decimal digits, the form in which the quote
    API sends amounts; any other string is a [ValueError] here (Python
    also accepts signs, surrounding spaces and underscores).  The engine
    model takes [int] as a parameter; this instance serves the worked
    examples. *)
Definition digit (c : Ascii.ascii) : option Z :=
  let n := Z.of_N (Ascii.N_of_ascii c) in
  if ((48 <=? n) && (n <=? 57))%Z then Some (n - 48)%Z else None.

Fixpoint digits (s : string) (acc : Z) : option Z :=
  match s with
  | EmptyString => Some acc
  | String c rest =>
      match digit c with
      | Some d => digits rest (10 * acc + d)%Z
      | None => None
      end
  end.

Definition int_of_digits (s : string) : option Z :=
  match s with
  | EmptyString => None
  | _ => digits s 0%Z
  end.

End Py.

(** ** The decision engine ([decision_module.py]) *)

Module Engine.

(** An entry of [held_tokens].  The key ['max_price'] is absent until the
    first evaluation that gets past the take-profit test. *)
Record position : Type := Position {
  buy_price : Q;
  buy_amount : Q;
  creator_wallets : list string;
  buy_timestamp : Q;
  max_price : option Q
}.

(** A line of [simulation_trades.log] / [real_trades.log]. *)
Record trade : Type := Trade {
  token : string;
  price : Q;
  action : string;
  timestamp : Q;
  forced : bool
}.

(** A line of [completed_trades.log]. *)
Record completed_trade : Type := CompletedTrade {
  ct_token : string;
  ct_buy_price : Q;
  ct_sell_price : Q;
  ct_buy_timestamp : Q;
  ct_sell_timestamp : Q;
  ct_duration_seconds : Q;
  ct_profit_per_token : Q;
  ct_profit_multiplier : Q;
  ct_creator_wallets : list string
}.

(** What [_check_token_honeypot_and_taxes] returns.  [taxes] is the dict
    under ["taxes"]: only its ["buy"] and ["sell"] entries are read. *)
Record tax_info : Type := Taxes { tax_buy : option Q; tax_sell : option Q }.

Record honeypot_info : Type := HoneypotInfo {
  is_honeypot : bool;
  taxes : tax_info;
  marketcap : Q;
  antiBot : bool
}.

Record cache_entry : Type := CacheEntry {
  ce_timestamp : Q;
  ce_data : honeypot_info
}.

(** The attributes of a [DecisionModule] and the files it appends to.
    [successful_creator_cache] is read and updated by the class but not
    created by [__init__]: [None] is the attribute being absent.
    [realtime_analyzer] holds the analyzer's set of watched tokens once
    [set_realtime_analyzer] has run. *)
Record t : Type := Make {
  buy_amount_sol : Q;
  sell_multiplier : Q;
  trailing_stop_percent : Q;
  simulation_mode : bool;
  simulation_results : list trade;
  held_tokens : gmap string position;
  capital : Q;
  available_capital : Q;
  honeypot_cache : gmap string cache_entry;
  successful_creator_cache : option (gset string);
  realtime_analyzer : option (gset string);
  has_gemini_analyzer : bool;
  simulation_trades_log : list trade;
  real_trades_log : list trade;
  completed_trades_log : list completed_trade;
  creator_cache_file : option (gset string)
}.

Definition with_held (h : gmap string position) (dm : t) : t :=
  Make (buy_amount_sol dm) (sell_multiplier dm) (trailing_stop_percent dm)
    (simulation_mode dm) (simulation_results dm) h (capital dm)
    (available_capital dm) (honeypot_cache dm) (successful_creator_cache dm)
    (realtime_analyzer dm) (has_gemini_analyzer dm) (simulation_trades_log dm)
    (real_trades_log dm) (completed_trades_log dm) (creator_cache_file dm).

Definition with_honeypot_cache (c : gmap string cache_entry) (dm : t) : t :=
  Make (buy_amount_sol dm) (sell_multiplier dm) (trailing_stop_percent dm)
    (simulation_mode dm) (simulation_results dm) (held_tokens dm) (capital dm)
    (available_capital dm) c (successful_creator_cache dm)
    (realtime_analyzer dm) (has_gemini_analyzer dm) (simulation_trades_log dm)
    (real_trades_log dm) (completed_trades_log dm) (creator_cache_file dm).

Definition with_creator_cache (c : option (gset string)) (dm : t) : t :=
  Make (buy_amount_sol dm) (sell_multiplier dm) (trailing_stop_percent dm)
    (simulation_mode dm) (simulation_results dm) (held_tokens dm) (capital dm)
    (available_capital dm) (honeypot_cache dm) c
    (realtime_analyzer dm) (has_gemini_analyzer dm) (simulation_trades_log dm)
    (real_trades_log dm) (completed_trades_log dm) (creator_cache_file dm).

Definition with_realtime_analyzer (w : option (gset string)) (dm : t) : t :=
  Make (buy_amount_sol dm) (sell_multiplier dm) (trailing_stop_percent dm)
    (simulation_mode dm) (simulation_results dm) (held_tokens dm) (capital dm)
    (available_capital dm) (honeypot_cache dm) (successful_creator_cache dm)
    w (has_gemini_analyzer dm) (simulation_trades_log dm)
    (real_trades_log dm) (completed_trades_log dm) (creator_cache_file dm).

Definition with_completed_log (l : list completed_trade) (dm : t) : t :=
  Make (buy_amount_sol dm) (sell_multiplier dm) (trailing_stop_percent dm)
    (simulation_mode dm) (simulation_results dm) (held_tokens dm) (capital dm)
    (available_capital dm) (honeypot_cache dm) (successful_creator_cache dm)
    (realtime_analyzer dm) (has_gemini_analyzer dm) (simulation_trades_log dm)
    (real_trades_log dm) l (creator_cache_file dm).

Definition with_creator_cache_file (f : option (gset string)) (dm : t) : t :=
  Make (buy_amount_sol dm) (sell_multiplier dm) (trailing_stop_percent dm)
    (simulation_mode dm) (simulation_results dm) (held_tokens dm) (capital dm)
    (available_capital dm) (honeypot_cache dm) (successful_creator_cache dm)
    (realtime_analyzer dm) (has_gemini_analyzer dm) (simulation_trades_log dm)
    (real_trades_log dm) (completed_trades_log dm) f.

Definition with_params (buy sell : Q) (dm : t) : t :=
  Make buy sell (trailing_stop_percent dm)
    (simulation_mode dm) (simulation_results dm) (held_tokens dm) (capital dm)
    (available_capital dm) (honeypot_cache dm) (successful_creator_cache dm)
    (realtime_analyzer dm) (has_gemini_analyzer dm) (simulation_trades_log dm)
    (real_trades_log dm) (completed_trades_log dm) (creator_cache_file dm).

(** [log_trade], [record_simulation_trade], [record_real_trade]. *)
Definition log_trade (entry : trade) (simulation : bool) (dm : t) : t :=
  Make (buy_amount_sol dm) (sell_multiplier dm) (trailing_stop_percent dm)
    (simulation_mode dm) (simulation_results dm) (held_tokens dm) (capital dm)
    (available_capital dm) (honeypot_cache dm) (successful_creator_cache dm)
    (realtime_analyzer dm) (has_gemini_analyzer dm)
    (if simulation then simulation_trades_log dm ++ [entry]
     else simulation_trades_log dm)
    (if simulation then real_trades_log dm
     else real_trades_log dm ++ [entry])
    (completed_trades_log dm) (creator_cache_file dm).

Definition record_simulation_trade (entry : trade) (dm : t) : t :=
  log_trade entry true
    (Make (buy_amount_sol dm) (sell_multiplier dm) (trailing_stop_percent dm)
       (simulation_mode dm) (simulation_results dm ++ [entry])
       (held_tokens dm) (capital dm)
       (available_capital dm) (honeypot_cache dm) (successful_creator_cache dm)
       (realtime_analyzer dm) (has_gemini_analyzer dm)
       (simulation_trades_log dm) (real_trades_log dm)
       (completed_trades_log dm) (creator_cache_file dm)).

Definition record_real_trade (entry : trade) (dm : t) : t :=
  log_trade entry false dm.

(** [set_initial_capital] and [get_available_capital]. *)
Definition set_initial_capital (amount : Q) (dm : t) : t :=
  Make (buy_amount_sol dm) (sell_multiplier dm) (trailing_stop_percent dm)
    (simulation_mode dm) (simulation_results dm) (held_tokens dm) amount
    amount (honeypot_cache dm) (successful_creator_cache dm)
    (realtime_analyzer dm) (has_gemini_analyzer dm) (simulation_trades_log dm)
    (real_trades_log dm) (completed_trades_log dm) (creator_cache_file dm).

Definition get_available_capital (dm : t) : Q := available_capital dm.

(** [enable_real_time_simulation]. *)
Definition enable_real_time_simulation (dm : t) : t :=
  Make (buy_amount_sol dm) (sell_multiplier dm) (trailing_stop_percent dm)
    true [] (held_tokens dm) (capital dm)
    (available_capital dm) (honeypot_cache dm) (successful_creator_cache dm)
    (realtime_analyzer dm) (has_gemini_analyzer dm) (simulation_trades_log dm)
    (real_trades_log dm) (completed_trades_log dm) (creator_cache_file dm).

(** [realtime_analyzer.start_monitoring_token] / [stop_monitoring_token],
    guarded by [hasattr(self, 'realtime_analyzer') and ...]. *)
Definition start_monitoring_token (tok : string) (dm : t) : t :=
  match realtime_analyzer dm with
  | Some w => with_realtime_analyzer (Some ({[tok]} ∪ w)) dm
  | None => dm
  end.

Definition stop_monitoring_token (tok : string) (dm : t) : t :=
  match realtime_analyzer dm with
  | Some w => with_realtime_analyzer (Some (w ∖ {[tok]})) dm
  | None => dm
  end.

(** *** [set_param]

    [hasattr(self, key)] holds for the attributes below and for the
    methods of the class.  The model types the five float attributes; for
    the other attributes and the methods, [setattr] would replace an
    object by a float, which the typed state cannot express: [Untyped].
    (Attributes inherited from [object] are not listed.) *)
Definition other_attributes : list string :=
  ["bot_manager"; "simulation_mode"; "simulation_results"; "held_tokens";
   "ia_hooks"; "honeypot_cache"; "order_executor"; "gemini_analyzer";
   "set_realtime_analyzer"; "set_param"; "sell_all_tokens"; "log_trade";
   "enable_real_time_simulation"; "record_simulation_trade";
   "record_real_trade"; "get_simulation_profit_loss"; "set_gemini_analyzer";
   "set_initial_capital"; "get_available_capital";
   "process_new_token_candidate"; "_check_token_honeypot_and_taxes";
   "_check_token_liquidity"; "_check_token_sellable";
   "_detect_creator_wallets"; "evaluate_held_tokens_for_sale";
   "_creator_wallet_selling"; "_log_completed_trade"; "_execute_sale"]%string.

Inductive set_param_result : Type :=
| Updated (dm : t)        (* [setattr] done, info logged *)
| UnknownParam (dm : t)   (* warning logged, nothing written *)
| Untyped.

Definition set_param (key : string) (value : Q) (dm : t) : set_param_result :=
  if String.eqb key "buy_amount_sol" then
    Updated (with_params value (sell_multiplier dm) dm)
  else if String.eqb key "sell_multiplier" then
    Updated (with_params (buy_amount_sol dm) value dm)
  else if String.eqb key "trailing_stop_percent" then
    Updated (Make (buy_amount_sol dm) (sell_multiplier dm) value
      (simulation_mode dm) (simulation_results dm) (held_tokens dm)
      (capital dm) (available_capital dm) (honeypot_cache dm)
      (successful_creator_cache dm) (realtime_analyzer dm)
      (has_gemini_analyzer dm) (simulation_trades_log dm)
      (real_trades_log dm) (completed_trades_log dm) (creator_cache_file dm))
  else if String.eqb key "capital" then
    Updated (Make (buy_amount_sol dm) (sell_multiplier dm)
      (trailing_stop_percent dm)
      (simulation_mode dm) (simulation_results dm) (held_tokens dm)
      value (available_capital dm) (honeypot_cache dm)
      (successful_creator_cache dm) (realtime_analyzer dm)
      (has_gemini_analyzer dm) (simulation_trades_log dm)
      (real_trades_log dm) (completed_trades_log dm) (creator_cache_file dm))
  else if String.eqb key "available_capital" then
    Updated (Make (buy_amount_sol dm) (sell_multiplier dm)
      (trailing_stop_percent dm)
      (simulation_mode dm) (simulation_results dm) (held_tokens dm)
      (capital dm) value (honeypot_cache dm)
      (successful_creator_cache dm) (realtime_analyzer dm)
      (has_gemini_analyzer dm) (simulation_trades_log dm)
      (real_trades_log dm) (completed_trades_log dm) (creator_cache_file dm))
  else if existsb (String.eqb key) other_attributes then Untyped
  else if String.eqb key "realtime_analyzer" then
    match realtime_analyzer dm with
    | Some _ => Untyped
    | None => UnknownParam dm
    end
  else if String.eqb key "successful_creator_cache" then
    match successful_creator_cache dm with
    | Some _ => Untyped
    | None => UnknownParam dm
    end
  else UnknownParam dm.

(** *** Selling: [_log_completed_trade], [_execute_sale] *)

(** The dict returned by [order_executor.execute_sell]. *)
Record sell_data : Type := SellData {
  success : bool;
  sell_price_sol : option Q
}.

Definition _log_completed_trade (tok : string) (sell_price now : Q) (dm : t) : t :=
  match held_tokens dm !! tok with
  | None => dm
  | Some buy_info =>
      let b := buy_price buy_info in
      with_completed_log
        (completed_trades_log dm ++
         [CompletedTrade tok b sell_price (buy_timestamp buy_info) now
            (now - buy_timestamp buy_info) (sell_price - b)
            (if Py.Qlt_bool 0 b then sell_price / b else 0)
            (creator_wallets buy_info)])
        dm
  end.

(** The outcome of [_execute_sale]: the state it leaves, the value it
    returns, and the exception its [except] clause logged, if any.
    [reply] is what [execute_sell] answers in real mode ([None] for a
    falsy answer).  The [ia_hooks] list is empty in this repository and
    is not modelled. *)
Definition _execute_sale (tok : string) (now : Q) (reply : option sell_data)
    (dm : t) : t * option Q * option Py.exn :=
  if simulation_mode dm then
    match held_tokens dm !! tok with
    | None => (dm, None, Some (Py.KeyError tok))
    | Some pos =>
        let current_price := buy_price pos * sell_multiplier dm in
        let simulated_sell_entry := Trade tok current_price "sell" now false in
        let dm1 := record_simulation_trade simulated_sell_entry dm in
        (with_held (delete tok (held_tokens dm1)) dm1, Some current_price, None)
    end
  else
    match held_tokens dm !! tok with
    | None => (dm, None, Some (Py.KeyError tok))
    | Some pos =>
        match reply with
        | Some (SellData true reported) =>
            let sell_price :=
              match reported with
              | Some q => q
              | None => buy_price pos
              end in
            let dm1 := _log_completed_trade tok sell_price now dm in
            let dm2 := record_real_trade (Trade tok sell_price "sell" now false) dm1 in
            let dm3 := stop_monitoring_token tok dm2 in
            (with_held (delete tok (held_tokens dm3)) dm3, Some sell_price, None)
        | _ => (dm, None, None)
        end
    end.

(** *** Exit evaluation: [evaluate_held_tokens_for_sale] *)

Inductive sell_reason : Type := TakeProfit | TrailingStop | DumpSignal.

(** Modelled from the spec: [_save_creator_cache] is called by the class
    but defined nowhere under the sources; the specification says the
    cache is persisted as a whole. *)
Definition _save_creator_cache (dm : t) : t :=
  with_creator_cache_file (successful_creator_cache dm) dm.

(** The [for creator in creators] loop of the take-profit branch.  The
    background task handed to the Gemini analyzer is not modelled. *)
Fixpoint learn_creators (creators : list string) (dm : t) : t * option Py.exn :=
  match creators with
  | [] => (dm, None)
  | creator :: rest =>
      match successful_creator_cache dm with
      | None => (dm, Some (Py.AttributeError "successful_creator_cache"))
      | Some cache =>
          if decide (creator ∈ cache) then learn_creators rest dm
          else
            learn_creators rest
              (_save_creator_cache
                 (with_creator_cache (Some ({[creator]} ∪ cache)) dm))
      end
  end.

(** [_creator_wallet_selling]: [sells w] is what [check_wallet(w)]
    returns (it catches its own exceptions). *)
Definition _creator_wallet_selling (sells : string -> bool)
    (wallets : list string) : bool :=
  match wallets with
  | [] => false
  | _ => existsb sells wallets
  end.

Record eval_env : Type := EvalEnv {
  now : Q;                         (* [time.time()] *)
  sell_reply : option sell_data;   (* answer of [execute_sell] *)
  wallet_sells : string -> bool    (* answers of [check_wallet] *)
}.

(** What one call of [evaluate_held_tokens_for_sale] did: the state left
    behind, the exit rule under which [_execute_sale] was called (if any),
    what that call returned, and the exception logged by an [except]
    clause (if any). *)
Record eval_result : Type := EvalResult {
  after : t;
  trigger : option sell_reason;
  sale : option Q;
  caught : option Py.exn
}.

Definition with_max_price (m : Q) (pos : position) : position :=
  Position (buy_price pos) (buy_amount pos) (creator_wallets pos)
    (buy_timestamp pos) (Some m).

(** The running maximum of a position: the value under ['max_price'],
    which the trailing-stop block initialises to the buy price when the
    key is absent. *)
Definition max_price_seen (pos : position) : Q :=
  match max_price pos with
  | Some m => m
  | None => buy_price pos
  end.

(** The value held under ['max_price'] once the trailing-stop block has
    initialised and updated it for the price [p]. *)
Definition updated_max_price (pos : position) (p : Q) : Q :=
  if Py.Qlt_bool (max_price_seen pos) p then p else max_price_seen pos.

Definition evaluate_held_tokens_for_sale (tok : string) (current_price : Q)
    (whale_selling : bool) (env : eval_env) (dm : t) : eval_result :=
  match held_tokens dm !! tok with
  | None => EvalResult dm None None None
  | Some pos =>
      match Py.truediv current_price (buy_price pos) with
      | None => EvalResult dm None None (Some Py.ZeroDivisionError)
      | Some profit_multiplier =>
          if Qle_bool (sell_multiplier dm) profit_multiplier then
            (* take profit *)
            let '(dm1, sold, err) := _execute_sale tok (now env) (sell_reply env) dm in
            if simulation_mode dm1 then
              match held_tokens dm1 !! tok with
              | None => EvalResult dm1 (Some TakeProfit) sold (Some (Py.KeyError tok))
              | Some pos1 =>
                  let trade_duration := now env - buy_timestamp pos1 in
                  if Py.Qlt_bool trade_duration 3600 then
                    let '(dm2, err2) := learn_creators (creator_wallets pos1) dm1 in
                    EvalResult dm2 (Some TakeProfit) sold err2
                  else EvalResult dm1 (Some TakeProfit) sold None
              end
            else EvalResult dm1 (Some TakeProfit) sold err
          else
            (* trailing stop *)
            let max_price := updated_max_price pos current_price in
            let dm1 :=
              with_held (<[tok := with_max_price max_price pos]> (held_tokens dm)) dm in
            if Py.Qlt_bool current_price (max_price * (1 - trailing_stop_percent dm)) then
              let '(dm2, sold, err) := _execute_sale tok (now env) (sell_reply env) dm1 in
              EvalResult dm2 (Some TrailingStop) sold err
            else if whale_selling
                    || _creator_wallet_selling (wallet_sells env) (creator_wallets pos) then
              let '(dm2, sold, err) := _execute_sale tok (now env) (sell_reply env) dm1 in
              EvalResult dm2 (Some DumpSignal) sold err
            else EvalResult dm1 None None None
      end
  end.

(** A sequence of calls of the evaluator, as made by the price monitor. *)
Record eval_call : Type := EvalCall {
  ec_token : string;
  ec_price : Q;
  ec_whale_selling : bool;
  ec_env : eval_env
}.

Definition evaluate_call (dm : t) (c : eval_call) : t :=
  after (evaluate_held_tokens_for_sale (ec_token c) (ec_price c)
           (ec_whale_selling c) (ec_env c) dm).

Definition evaluations (calls : list eval_call) (dm : t) : t :=
  fold_left evaluate_call calls dm.

(** *** The safety checks of the entry path *)

(** The JSON object answered by the safety oracle, as far as it is read:
    [honeypotResult], [isHoneypot], [antiBot], [antiBotDetected] by their
    truthiness, [taxes] and the two spellings of the market cap by their
    presence and value. *)
Record oracle_json : Type := OracleJson {
  honeypotResult : bool;
  isHoneypot : bool;
  oj_taxes : option tax_info;
  oj_marketcap : option Q;
  oj_marketCap : option Q;
  oj_antiBot : bool;
  oj_antiBotDetected : bool
}.

(** The HTTP exchange with the oracle: the request raises, or a status
    comes back together with what [resp.json()] would give ([None] when
    that call raises). *)
Inductive oracle_reply : Type :=
| OracleRaises
| OracleStatus (status : Z) (body : option oracle_json).

(** The exchange with the quote API: an exception anywhere in the block,
    or a JSON object and its ["outAmount"] entry, if any. *)
Inductive quote_reply : Type :=
| QuoteRaises
| QuoteJson (outAmount : option string).

Definition default_honeypot_info : honeypot_info :=
  HoneypotInfo false (Taxes None None) 0 false.

Definition honeypot_info_of_json (data : oracle_json) : honeypot_info :=
  HoneypotInfo
    (honeypotResult data || isHoneypot data)
    (match oj_taxes data with Some tx => tx | None => Taxes None None end)
    (match oj_marketcap data with
     | Some m => m
     | None => match oj_marketCap data with Some m => m | None => 0 end
     end)
    (oj_antiBot data || oj_antiBotDetected data).

Definition _check_token_honeypot_and_taxes (tok : string) (now : Q)
    (reply : oracle_reply) (dm : t) : honeypot_info * t :=
  let fetch :=
    let result :=
      match reply with
      | OracleStatus 200%Z (Some data) => honeypot_info_of_json data
      | _ => default_honeypot_info
      end in
    (result, with_honeypot_cache
               (<[tok := CacheEntry now result]> (honeypot_cache dm)) dm) in
  match honeypot_cache dm !! tok with
  | Some cache_entry =>
      if Py.Qlt_bool (now - ce_timestamp cache_entry) 300
      then (ce_data cache_entry, dm)
      else fetch
  | None => fetch
  end.

Section Checks.

(** [int(s)] on a string; [None] when it raises [ValueError]. *)
Variable py_int : string -> option Z.

Definition _check_token_liquidity (reply : quote_reply) : bool :=
  match reply with
  | QuoteRaises => false
  | QuoteJson out =>
      match py_int (match out with Some s => s | None => "0"%string end) with
      | Some n => (0 <? n)%Z
      | None => false
      end
  end.

Definition _check_token_sellable (reply : quote_reply) : bool :=
  match reply with
  | QuoteRaises => false
  | QuoteJson out =>
      match out with
      | Some s => negb (String.eqb s "0")
      | None => false
      end
  end.

(** *** Entry: [process_new_token_candidate] *)

Record candidate_env : Type := CandidateEnv {
  clock : Q;                        (* [time.time()] *)
  start_time : option Q;            (* [bot_manager.start_time] *)
  detected_creators : list string;  (* [_detect_creator_wallets] *)
  oracle : oracle_reply;
  liquidity_quote : quote_reply;
  sell_quote : quote_reply;
  balance_ok : bool;                (* [wallet_status["balance_ok"]] *)
  balance_sol : Q;                  (* [wallet_status["balance_sol"]] *)
  buy_success : bool                (* truthiness of [execute_buy(...)] *)
}.

Inductive rejection : Type :=
| UntrustedCreator | InsufficientBalance | InsufficientCapital
| AlreadyHeld | Honeypot | HighTaxes | MarketcapTooHigh | AntiBot
| NoLiquidity | NotSellable.

Inductive admission : Type :=
| SimulatedBuy
| TrustedBuy (bought : bool)
| Bought
| BuyFailed
| Rejected (why : rejection)
| Raised (e : Py.exn).

Definition is_exploration_phase (env : candidate_env) : bool :=
  match start_time env with
  | Some s => if Py.truthy s then Py.Qlt_bool (clock env - s) 3600 else false
  | None => false
  end.

Definition high_taxes (tx : tax_info) : bool :=
  Py.Qlt_bool 0.15 (match tax_buy tx with Some q => q | None => 0 end)
  || Py.Qlt_bool 0.15 (match tax_sell tx with Some q => q | None => 0 end).

(** The tests on the three check results, in the order of the source;
    [None] when all pass. *)
Definition safety_filters (info : honeypot_info) (has_liquidity is_sellable : bool)
    : option rejection :=
  if is_honeypot info then Some Honeypot
  else if high_taxes (taxes info) then Some HighTaxes
  else if Py.truthy (marketcap info) && Py.Qlt_bool 50000 (marketcap info)
       then Some MarketcapTooHigh
  else if antiBot info then Some AntiBot
  else if negb has_liquidity then Some NoLiquidity
  else if negb is_sellable then Some NotSellable
  else None.

Definition new_position (current_price : Q) (creators : list string)
    (now : Q) (dm : t) : position :=
  Position current_price (buy_amount_sol dm) creators now None.

Definition process_new_token_candidate (tok : string) (current_price : Q)
    (env : candidate_env) (dm : t) : t * admission :=
  if simulation_mode dm then
    let dm1 := record_simulation_trade
                 (Trade tok current_price "buy" (clock env) false) dm in
    let dm2 := with_held
                 (<[tok := new_position current_price [] (clock env) dm1]>
                    (held_tokens dm1)) dm1 in
    (start_monitoring_token tok dm2, SimulatedBuy)
  else
    let creator_wallets := detected_creators env in
    if negb (is_exploration_phase env) then
      match creator_wallets, successful_creator_cache dm with
      | [], _ => (dm, Rejected UntrustedCreator)
      | _ :: _, None => (dm, Raised (Py.AttributeError "successful_creator_cache"))
      | _ :: _, Some cache =>
          if existsb (fun creator => bool_decide (creator ∈ cache)) creator_wallets then
            if buy_success env then
              let dm1 := with_held
                  (<[tok := new_position current_price creator_wallets (clock env) dm]>
                     (held_tokens dm)) dm in
              (start_monitoring_token tok dm1, TrustedBuy true)
            else (dm, TrustedBuy false)
          else (dm, Rejected UntrustedCreator)
      end
    else
      let '(honeypot_info, dm1) :=
        _check_token_honeypot_and_taxes tok (clock env) (oracle env) dm in
      let has_liquidity := _check_token_liquidity (liquidity_quote env) in
      let is_sellable := _check_token_sellable (sell_quote env) in
      let montant_total := buy_amount_sol dm1 + 0.001 in
      if negb (balance_ok env) || Py.Qlt_bool (balance_sol env) montant_total then
        (dm1, Rejected InsufficientBalance)
      else if Py.Qlt_bool (available_capital dm1) (buy_amount_sol dm1) then
        (dm1, Rejected InsufficientCapital)
      else if bool_decide (is_Some (held_tokens dm1 !! tok)) then
        (dm1, Rejected AlreadyHeld)
      else
        match safety_filters honeypot_info has_liquidity is_sellable with
        | Some why => (dm1, Rejected why)
        | None =>
            if buy_success env then
              let dm2 := with_held
                  (<[tok := new_position current_price creator_wallets (clock env) dm1]>
                     (held_tokens dm1)) dm1 in
              let dm3 := start_monitoring_token tok dm2 in
              (record_real_trade (Trade tok current_price "buy" (clock env) false) dm3,
               Bought)
            else (dm1, BuyFailed)
        end.

(** *** Forced liquidation: the loop body of [sell_all_tokens]

    [sell_all_tokens] runs this body for each key of [held_tokens];
    [loop_time] is the event-loop clock read for the journal line. *)
Definition forced_sell (tok : string) (now loop_time : Q)
    (reply : option sell_data) (dm : t) : t :=
  let '(dm1, sell_price, _) := _execute_sale tok now reply dm in
  let fallback :=
    match held_tokens dm1 !! tok with
    | Some pos => buy_price pos
    | None => 0
    end in
  record_real_trade
    (Trade tok
       (match sell_price with
        | Some q => if Py.truthy q then q else fallback
        | None => fallback
        end)
       "sell" loop_time true)
    dm1.

(** *** [sell_all_tokens]

    The loop over [list(self.held_tokens.keys())]: [keys] is that list,
    and [answers tok] gives the two clock readings and the answer of
    [execute_sell] for the turn of [tok]. *)
Record forced_env : Type := ForcedEnv {
  fe_now : Q;
  fe_loop_time : Q;
  fe_reply : option sell_data
}.

Definition sell_all_tokens (keys : list string) (answers : string -> forced_env)
    (dm : t) : t :=
  fold_left
    (fun dm tok =>
       forced_sell tok (fe_now (answers tok)) (fe_loop_time (answers tok))
         (fe_reply (answers tok)) dm)
    keys dm.

(** *** [get_simulation_profit_loss] *)
Fixpoint profit_loop (entries : list trade) (profit : Q)
    (buy_prices : gmap string Q) : Q :=
  match entries with
  | [] => profit
  | entry :: rest =>
      if String.eqb (action entry) "buy" then
        profit_loop rest profit (<[token entry := price entry]> buy_prices)
      else if String.eqb (action entry) "sell" then
        match buy_prices !! token entry with
        | Some b => profit_loop rest (profit + (price entry - b)) buy_prices
        | None => profit_loop rest profit buy_prices
        end
      else profit_loop rest profit buy_prices
  end.

Definition get_simulation_profit_loss (dm : t) : Q :=
  profit_loop (simulation_results dm) 0.0 ∅.

(** *** Runs of the engine

    What the rest of the program asks of the engine while it trades: a
    candidate from a scanner, a price update from the monitor, the
    forced sale of one token. *)
Inductive event : Type :=
| Candidate (tok : string) (current_price : Q) (env : candidate_env)
| Evaluation (c : eval_call)
| ForcedSell (tok : string) (now loop_time : Q) (reply : option sell_data).

Definition step (dm : t) (e : event) : t :=
  match e with
  | Candidate tok current_price env =>
      fst (process_new_token_candidate tok current_price env dm)
  | Evaluation c => evaluate_call dm c
  | ForcedSell tok now loop_time reply => forced_sell tok now loop_time reply dm
  end.

Definition run (events : list event) (dm : t) : t :=
  fold_left step events dm.

End Checks.

End Engine.

(** ** The self-tuning controller ([ai_auto_optimizer.py]) *)

Module Optimizer.

(** The dict stored in [best_params] and in [hall_of_fame]. *)
Record params : Type := Params {
  p_buy_amount_sol : Q;
  p_sell_multiplier : Q
}.

(** An entry of [param_history]. *)
Record snapshot : Type := Snapshot {
  h_profit : Q;
  h_buy_amount_sol : Q;
  h_sell_multiplier : Q;
  h_winrate : Q;
  h_drawdown : Q;
  h_volatility : Q;
  h_timestamp : Q
}.

(** The [old_params] / [new_params] dicts of a decision: some decisions
    only carry ["buy_amount_sol"]. *)
Record param_view : Type := View {
  v_buy_amount_sol : Q;
  v_sell_multiplier : option Q
}.

(** A line written by [_log_decision]; the free-text reason is left out. *)
Record decision : Type := Decision {
  d_timestamp : Q;
  d_action : string;
  d_old_params : param_view;
  d_new_params : param_view
}.

Record profile : Type := Profile {
  name : string;
  buy_factor : Q;
  sell_add : Q
}.

Definition strategy_profiles : list profile :=
  [ Profile "conservateur" 0.8 0.1;
    Profile "agressif" 1.2 (-0.05);
    Profile "equilibre" 1.0 0.0 ].   (* the names are only logged; accents dropped *)

(** The attributes of an [AIAutoOptimizer].  [best_profit] starts at
    [float('-inf')], which is [None]; [param_file] is the content of
    [ai_optimizer_params.json] once written. *)
Record t : Type := Make {
  max_drawdown : Q;
  last_profit : Q;
  loss_streak : nat;
  win_streak : nat;
  best_params : option params;
  best_profit : option Q;
  freeze : bool;
  rollback_count : nat;
  param_history : list snapshot;
  current_profile : nat;
  hall_of_fame : list params;
  winrate : Q;
  drawdown : Q;
  sim_profit : Q;
  avg_profit : Q;
  volatility : Q;
  param_file : option (option params * option Q)
}.

(** [x > best] and [x < best * k] when [best] may be minus infinity
    ([k] positive). *)
Definition gt_ext (x : Q) (best : option Q) : bool :=
  match best with
  | None => true
  | Some b => Py.Qlt_bool b x
  end.

Definition lt_scaled (x : Q) (best : option Q) (k : Q) : bool :=
  match best with
  | None => false
  | Some b => Py.Qlt_bool x (b * k)
  end.

(** *** Aggregates over the simulation journal *)

(** The common loop of [_compute_profit], [_compute_stats] and
    [_compute_drawdown]: the per-trade profits of the sells whose token
    has a recorded buy, in order. *)
Fixpoint trade_profits (trades : list Engine.trade)
    (buy_prices : gmap string Q) : list Q :=
  match trades with
  | [] => []
  | entry :: rest =>
      if String.eqb (Engine.action entry) "buy" then
        trade_profits rest (<[Engine.token entry := Engine.price entry]> buy_prices)
      else if String.eqb (Engine.action entry) "sell" then
        match buy_prices !! Engine.token entry with
        | Some b => (Engine.price entry - b) :: trade_profits rest buy_prices
        | None => trade_profits rest buy_prices
        end
      else trade_profits rest buy_prices
  end.

Definition sum (l : list Q) : Q := fold_left Qplus l 0.

Definition _compute_profit (trades : list Engine.trade) : Q :=
  sum (trade_profits trades ∅).

Definition count_wins (profits : list Q) : nat :=
  length (filter (fun p => Py.Qlt_bool 0 p = true) profits).

Definition of_nat (n : nat) : Q := inject_Z (Z.of_nat n).

Section Stats.

(** [x ** 0.5]. *)
Variable pow_half : Q -> Q.

Definition _compute_stats (trades : list Engine.trade) : Q * Q * Q :=
  let profits := trade_profits trades ∅ in
  let wins := count_wins profits in
  let losses := (length profits - wins)%nat in
  let total := (wins + losses)%nat in
  let winrate := if (0 <? total)%nat then of_nat wins / of_nat total else 0 in
  let avg_profit :=
    match profits with
    | [] => 0
    | _ => sum profits / of_nat (length profits)
    end in
  let volatility :=
    match profits with
    | [] => 0
    | _ => pow_half
             (sum (map (fun p => (p - avg_profit) * (p - avg_profit)) profits)
              / of_nat (length profits))
    end in
  (winrate, avg_profit, volatility).

End Stats.

Fixpoint drawdown_loop (profits : list Q) (equity peak max_dd : Q) : Q :=
  match profits with
  | [] => max_dd
  | profit :: rest =>
      let equity := equity + profit in
      let peak := Py.max peak equity in
      let dd := if Py.Qlt_bool 0 peak then (peak - equity) / peak else 0 in
      drawdown_loop rest equity peak (Py.max max_dd dd)
  end.

Definition _compute_drawdown (trades : list Engine.trade) : Q :=
  drawdown_loop (trade_profits trades ∅) 0 0 0.

(** *** One tick: [analyze_and_adjust]

    The tick works on the engine (whose [buy_amount_sol] and
    [sell_multiplier] it assigns directly), on its own attributes, and
    appends to the decision journal. *)
Record tick_state : Type := TickState {
  engine : Engine.t;
  optimizer : t;
  decisions : list decision
}.

(** The draws of [random.random()], [random.random()],
    [random.uniform(0.95, 1.05)] and the clock. *)
Record tick_env : Type := TickEnv {
  draw_profile : Q;
  draw_mutation : Q;
  draw_uniform : Q;
  tick_time : Q
}.

Definition buy_of (st : tick_state) : Q := Engine.buy_amount_sol (engine st).
Definition sell_of (st : tick_state) : Q := Engine.sell_multiplier (engine st).

Definition full_view (st : tick_state) : param_view :=
  View (buy_of st) (Some (sell_of st)).
Definition buy_view (st : tick_state) : param_view :=
  View (buy_of st) None.

Definition assign (buy sell : Q) (st : tick_state) : tick_state :=
  TickState (Engine.with_params buy sell (engine st)) (optimizer st) (decisions st).

Definition _log_decision (now : Q) (action : string) (old_params new_params : param_view)
    (st : tick_state) : tick_state :=
  TickState (engine st) (optimizer st)
    (decisions st ++ [Decision now action old_params new_params]).

Definition with_profile (i : nat) (o : t) : t :=
  Make (max_drawdown o) (last_profit o) (loss_streak o) (win_streak o)
    (best_params o) (best_profit o) (freeze o) (rollback_count o)
    (param_history o) i (hall_of_fame o) (winrate o) (drawdown o)
    (sim_profit o) (avg_profit o) (volatility o) (param_file o).

Definition with_freeze (b : bool) (o : t) : t :=
  Make (max_drawdown o) (last_profit o) (loss_streak o) (win_streak o)
    (best_params o) (best_profit o) b (rollback_count o)
    (param_history o) (current_profile o) (hall_of_fame o) (winrate o)
    (drawdown o) (sim_profit o) (avg_profit o) (volatility o) (param_file o).

Definition params_eqb (a b : params) : bool :=
  Qeq_bool (p_buy_amount_sol a) (p_buy_amount_sol b)
  && Qeq_bool (p_sell_multiplier a) (p_sell_multiplier b).

(** Exploration multi-profils: the block under [random.random() < 0.15]. *)
Definition profile_rotation (env : tick_env) (st : tick_state) : tick_state :=
  if Py.Qlt_bool (draw_profile env) 0.15 then
    let next := ((current_profile (optimizer st) + 1) mod length strategy_profiles)%nat in
    let prof := nth next strategy_profiles (Profile "" 1 0) in
    let old_params := full_view st in
    let new_buy_amount := Py.max 0.01 (buy_of st * buy_factor prof) in
    let new_sell_multiplier := Py.min 2.5 (Py.max 1.0 (sell_of st + sell_add prof)) in
    let st1 := TickState (Engine.with_params new_buy_amount new_sell_multiplier (engine st))
                 (with_profile next (optimizer st)) (decisions st) in
    _log_decision (tick_time env) "switch_profile" old_params
      (View new_buy_amount (Some new_sell_multiplier)) st1
  else st.

(** Ajustement dynamique classique: the [if / elif / elif] chain. *)
Definition classic_adjustment (env : tick_env) (st : tick_state) : tick_state :=
  let o := optimizer st in
  if Py.Qlt_bool 0.2 (drawdown o) then
    let old_params := full_view st in
    let st1 := assign (Py.max 0.01 (buy_of st * 0.8)) (sell_of st) st in
    let st2 := assign (buy_of st1) (Py.min 2.5 (sell_of st1 + 0.1)) st1 in
    _log_decision (tick_time env) "reduce_risk" old_params (full_view st2) st2
  else if Py.Qlt_bool (winrate o) 0.4 then
    let old_params := buy_view st in
    let st1 := assign (Py.max 0.01 (buy_of st * 0.9)) (sell_of st) st in
    _log_decision (tick_time env) "adjust_buy_amount" old_params (buy_view st1) st1
  else if Py.Qlt_bool 0.7 (winrate o) && Py.Qlt_bool 0 (avg_profit o) then
    let old_params := buy_view st in
    let st1 := assign (Py.min 2.0 (buy_of st * 1.1)) (sell_of st) st in
    _log_decision (tick_time env) "increase_risk" old_params (buy_view st1) st1
  else st.

(** Auto-tuning: the block under [random.random() < 0.1]. *)
Definition random_mutation (env : tick_env) (st : tick_state) : tick_state :=
  if Py.Qlt_bool (draw_mutation env) 0.1 then
    let old_buy := buy_of st in
    let new_buy := Py.max 0.01 (old_buy * draw_uniform env) in
    let st1 := assign new_buy (sell_of st) st in
    _log_decision (tick_time env) "auto_tune" (View old_buy None) (View new_buy None) st1
  else st.

(** The three blocks guarded by [if not self.freeze]. *)
Definition mutations (env : tick_env) (st : tick_state) : tick_state :=
  if freeze (optimizer st) then st
  else random_mutation env (classic_adjustment env (profile_rotation env st)).

(** The first [if] of [_check_and_apply_rollback]. *)
Definition rollback (env : tick_env) (st : tick_state) : tick_state :=
  let o := optimizer st in
  match best_params o with
  | Some best =>
      if lt_scaled (sim_profit o) (best_profit o) 0.5 && negb (freeze o) then
        let old_params := full_view st in
        let st1 := assign (p_buy_amount_sol best) (p_sell_multiplier best) st in
        let o1 := Make (max_drawdown o) (last_profit o) (loss_streak o) (win_streak o)
                    (best_params o) (best_profit o) (freeze o) (S (rollback_count o))
                    (param_history o) (current_profile o) (hall_of_fame o) (winrate o)
                    (drawdown o) (sim_profit o) (avg_profit o) (volatility o)
                    (param_file o) in
        _log_decision (tick_time env) "rollback_to_best" old_params
          (View (p_buy_amount_sol best) (Some (p_sell_multiplier best)))
          (TickState (engine st1) o1 (decisions st1))
      else st
  | None => st
  end.

(** The streak counters of [_check_and_apply_rollback]. *)
Definition update_streaks (o : t) : t :=
  let '(loss, win) :=
    if Py.Qlt_bool (sim_profit o) (last_profit o) then (S (loss_streak o), O)
    else if Py.Qlt_bool (last_profit o) (sim_profit o) then (O, S (win_streak o))
    else (loss_streak o, win_streak o) in
  Make (max_drawdown o) (last_profit o) loss win
    (best_params o) (best_profit o) (freeze o) (rollback_count o)
    (param_history o) (current_profile o) (hall_of_fame o) (winrate o)
    (drawdown o) (sim_profit o) (avg_profit o) (volatility o) (param_file o).

(** The recovery block under [loss_streak >= 3 and not self.freeze]. *)
Definition recovery (env : tick_env) (st : tick_state) : tick_state :=
  let o := optimizer st in
  if (3 <=? loss_streak o)%nat && negb (freeze o) then
    let old_params := full_view st in
    let st1 := assign (Py.max 0.01 (buy_of st * 0.7)) (sell_of st) st in
    let st2 := assign (buy_of st1) (Py.min 2.5 (sell_of st1 + 0.2)) st1 in
    _log_decision (tick_time env) "recovery_mode" old_params (full_view st2) st2
  else st.

Definition set_last_profit (o : t) : t :=
  Make (max_drawdown o) (sim_profit o) (loss_streak o) (win_streak o)
    (best_params o) (best_profit o) (freeze o) (rollback_count o)
    (param_history o) (current_profile o) (hall_of_fame o) (winrate o)
    (drawdown o) (sim_profit o) (avg_profit o) (volatility o) (param_file o).

(** [_check_and_apply_rollback]; the notification of [hooks] (an empty
    list in this repository) is not modelled. *)
Definition _check_and_apply_rollback (env : tick_env) (st : tick_state) : tick_state :=
  let st1 := rollback env st in
  let st2 := TickState (engine st1) (update_streaks (optimizer st1)) (decisions st1) in
  let st3 := recovery env st2 in
  TickState (engine st3) (set_last_profit (optimizer st3)) (decisions st3).

Section Tick.

Variable pow_half : Q -> Q.

(** The head of [analyze_and_adjust]: aggregates, best parameters, hall
    of fame (its sort key ['profit'] is absent from every entry, so the
    stable sort keeps the order), history. *)
Definition observe (env : tick_env) (st : tick_state) : tick_state :=
  let o := optimizer st in
  let sim_trades := Engine.simulation_trades_log (engine st) in
  let sim_profit := _compute_profit sim_trades in
  let '(winrate, avg_profit, volatility) := _compute_stats pow_half sim_trades in
  let drawdown := _compute_drawdown sim_trades in
  let max_drawdown := Py.max (max_drawdown o) drawdown in
  let improved := gt_ext sim_profit (best_profit o) in
  let current := Params (buy_of st) (sell_of st) in
  let best_params := if improved then Some current else best_params o in
  let best_profit := if improved then Some sim_profit else best_profit o in
  let hall :=
    if improved then
      if existsb (params_eqb current) (hall_of_fame o) then hall_of_fame o
      else firstn 5 (hall_of_fame o ++ [current])
    else hall_of_fame o in
  let file := if improved then Some (best_params, best_profit) else param_file o in
  let history :=
    param_history o ++
    [Snapshot sim_profit (buy_of st) (sell_of st) winrate drawdown volatility
       (tick_time env)] in
  TickState (engine st)
    (Make max_drawdown (last_profit o) (loss_streak o) (win_streak o)
       best_params best_profit (freeze o) (rollback_count o) history
       (current_profile o) hall winrate drawdown sim_profit avg_profit
       volatility file)
    (decisions st).

(** The two freeze tests, in sequence. *)
Definition update_freeze (st : tick_state) : tick_state :=
  let o := optimizer st in
  let o1 :=
    if negb (freeze o) && Py.Qlt_bool 0.7 (winrate o)
       && Py.Qlt_bool (drawdown o) 0.1 && Py.Qlt_bool 0.5 (sim_profit o)
    then with_freeze true o else o in
  let o2 :=
    if freeze o1 && (Py.Qlt_bool (winrate o1) 0.6
                     || Py.Qlt_bool 0.15 (drawdown o1)
                     || lt_scaled (sim_profit o1) (best_profit o1) 0.8)
    then with_freeze false o1 else o1 in
  TickState (engine st) o2 (decisions st).

Definition analyze_and_adjust (env : tick_env) (st : tick_state) : tick_state :=
  _check_and_apply_rollback env
    (mutations env (update_freeze (observe env st))).

End Tick.

End Optimizer.

(** ** The pair discovery pipeline ([new_pair_scanner.py]) *)

Module Scanner.

Definition RAYDIUM_LP_V4 : string := "675kPX9MHTjS2zt1qfr1NYHuzeLXfQM9H24wFSUt1Mp8".
Definition SOL_MINT : string := "So11111111111111111111111111111111111111112".

(** [b'\xd8\x1c\x8e#\x84\x96\xe9\x9b'] *)
Definition initialize2_discriminant : list byte :=
  [xd8; x1c; x8e; x23; x84; x96; xe9; x9b].

(** [needle in hay] on strings. *)
Fixpoint contains (needle hay : string) : bool :=
  String.prefix needle hay
  || match hay with
     | EmptyString => false
     | String _ rest => contains needle rest
     end.

(** [data.startswith(prefix)] on bytes. *)
Fixpoint startswith (data prefix : list byte) : bool :=
  match prefix, data with
  | [], _ => true
  | p :: prefix', d :: data' => Byte.eqb p d && startswith data' prefix'
  | _ :: _, [] => false
  end.

(** *** The listener: one pass of the [async for message in ws] loop *)

Inductive raw_logs : Type :=
| LogsList (lines : list string)
| LogsStr (text : string)
| LogsOther.          (* key absent, or neither a list nor a string *)

Record notification_value : Type := Value {
  signature : option string;
  logs : raw_logs
}.

(** A decoded message: its ["method"] and its [params.result.value]
    ([None] when that is not a dict). *)
Record message : Type := Message {
  method : option string;
  value : option notification_value
}.

Section Listener.

(** [str.splitlines]. *)
Variable splitlines : string -> list string.

Definition log_lines (raw : raw_logs) : list string :=
  match raw with
  | LogsList lines => lines
  | LogsStr text => splitlines text
  | LogsOther => []
  end.

Definition mentions_initialize_account (lines : list string) : bool :=
  existsb (contains "Instruction: InitializeAccount") lines.

(** The signature handed to [process_new_pool] by
    [asyncio.create_task], if any. *)
Definition on_message (msg : message) : option string :=
  match value msg with
  | None => None
  | Some v =>
      match method msg with
      | Some m =>
          if String.eqb m "logsNotification" then
            if mentions_initialize_account (log_lines (logs v)) then
              match signature v with
              | Some sig => if Py.nonempty sig then Some sig else None
              | None => None
              end
            else None
          else None
      | None => None
      end
  end.

End Listener.

(** *** Mint extraction: [process_new_pool] *)

(** A top-level instruction: its program, its base58 [data] ([None] when
    the attribute is missing) and its account list. *)
Record instruction : Type := Instruction {
  program_id : string;
  data : option string;
  accounts : list string
}.

Record transaction : Type := Transaction {
  account_keys : list string;
  instructions : list instruction
}.

(** What [client.get_transaction] does: raise [SolanaRpcException],
    answer nothing usable, or answer a transaction. *)
Inductive fetch_reply : Type :=
| FetchRaises
| FetchEmpty
| FetchTransaction (tx : transaction).

Inductive scan_result : Type :=
| Forward (new_token_mint : string)
| SkippedNonSol
| NoPoolInstruction
| ScanRaised (e : Py.exn).

Section Extraction.

(** [Signature.from_string] succeeds; [base58.b58decode] ([None] when
    it raises). *)
Variable signature_ok : string -> bool.
Variable b58decode : string -> option (list byte).

Fixpoint scan_instructions (ixs : list instruction) : scan_result :=
  match ixs with
  | [] => NoPoolInstruction
  | ix :: rest =>
      match data ix with
      | None => ScanRaised (Py.AttributeError "data")
      | Some encoded =>
          match b58decode encoded with
          | None => ScanRaised Py.ValueError
          | Some ix_data_bytes =>
              if String.eqb (program_id ix) RAYDIUM_LP_V4
                 && startswith ix_data_bytes initialize2_discriminant then
                match accounts ix !! 8%nat, accounts ix !! 9%nat with
                | Some token0_mint, Some token1_mint =>
                    if String.eqb token0_mint SOL_MINT then Forward token1_mint
                    else if String.eqb token1_mint SOL_MINT then Forward token0_mint
                    else SkippedNonSol
                | _, _ => ScanRaised Py.IndexError
                end
              else scan_instructions rest
          end
      end
  end.

(** The call [process_new_token_candidate(mint, current_price)] made by
    [process_new_pool], if any. *)
Definition forwarded (sig : string) (reply : fetch_reply) : option (string * Q) :=
  if signature_ok sig then
    match reply with
    | FetchTransaction tx =>
        if existsb (fun acc => String.eqb acc RAYDIUM_LP_V4) (account_keys tx) then
          match scan_instructions (instructions tx) with
          | Forward new_token_mint => Some (new_token_mint, 0.0)
          | _ => None
          end
        else None
    | _ => None
    end
  else None.

Variable py_int : string -> option Z.

Definition process_new_pool (sig : string) (reply : fetch_reply)
    (env : Engine.candidate_env) (dm : Engine.t) : Engine.t :=
  match forwarded sig reply with
  | Some (mint, current_price) =>
      fst (Engine.process_new_token_candidate py_int mint current_price env dm)
  | None => dm
  end.

End Extraction.

End Scanner.

(** ** The execution gateway ([trading/order_executor.py]) *)

Module Executor.

(** The attributes of an [OrderExecutor] that its methods test. *)
Record t : Type := Make {
  simulate : bool;
  has_payer : bool;          (* [self.payer] is set *)
  has_async_client : bool    (* [self.async_client] is set *)
}.

(** How [_buy_on_jupiter] ends: with the signature of a confirmed
    transaction, with [NotImplementedError], or with another exception. *)
Inductive jupiter_buy : Type :=
| BuyConfirmed (txid : string)
| BuyNotImplemented
| BuyRaises (message : string).

(** The dict returned by [execute_buy]. *)
Record buy_result : Type := BuyResult {
  br_success : bool;
  br_latency_ms : option Q;
  br_txid : option string;
  br_message : string
}.

Definition not_configured : string :=
  "OrderExecutor not configured for real trading (missing payer or async_client).".

Definition execute_buy (ex : t) (latency : Q) (jupiter : jupiter_buy) : buy_result :=
  if simulate ex then BuyResult true (Some latency) None "Simulated buy"
  else if negb (has_payer ex) || negb (has_async_client ex) then
    BuyResult false None None not_configured
  else
    match jupiter with
    | BuyConfirmed txid => BuyResult true (Some latency) (Some txid) "Buy via Jupiter"
    | BuyNotImplemented => BuyResult true (Some latency) None "Fallback simulated buy"
    | BuyRaises message => BuyResult false None None message
    end.

(** [bool(d)] for the dict of [execute_buy]: it always has its four keys,
    and a non-empty dict is true. *)
Definition buy_result_truthy (r : buy_result) : bool := true.

(** How [_sell_on_jupiter] ends. *)
Inductive jupiter_sell : Type :=
| SellConfirmed (txid : string) (sell_price_sol : Q)
| SellNotImplemented
| SellRaises (message : string).

(** The dict returned by [execute_sell], as far as [_execute_sale] reads
    it: ["success"] and ["sell_price_sol"] when present. *)
Definition execute_sell (ex : t) (jupiter : jupiter_sell) : Engine.sell_data :=
  if simulate ex then Engine.SellData true (Some 0)
  else if negb (has_payer ex) || negb (has_async_client ex) then
    Engine.SellData false None
  else
    match jupiter with
    | SellConfirmed txid sell_price_sol => Engine.SellData true (Some sell_price_sol)
    | SellNotImplemented => Engine.SellData true None
    | SellRaises message => Engine.SellData false None
    end.

(** The dict returned by [get_wallet_status], as far as the engine reads
    it; [balance] is what [get_trustwallet_balance] returns (0.0 when the
    RPC call fails). *)
Record wallet_status : Type := WalletStatus {
  ws_balance_sol : Q;
  ws_balance_ok : bool
}.

Definition get_wallet_status (ex : t) (balance : Q) : wallet_status :=
  if simulate ex || negb (has_payer ex) || negb (has_async_client ex) then
    WalletStatus 0 false
  else WalletStatus balance (Py.Qlt_bool 0.01 balance).

(** What the engine sees of the outside world for one candidate when its
    [order_executor] is [ex]. *)
Definition candidate_env (ex : t) (latency : Q) (jupiter : jupiter_buy) (balance : Q)
    (clock : Q) (start_time : option Q) (creators : list string)
    (oracle : Engine.oracle_reply) (liquidity_quote sell_quote : Engine.quote_reply)
    : Engine.candidate_env :=
  let status := get_wallet_status ex balance in
  Engine.CandidateEnv clock start_time creators oracle liquidity_quote sell_quote
    (ws_balance_ok status) (ws_balance_sol status)
    (buy_result_truthy (execute_buy ex latency jupiter)).

(** What the engine sees for one evaluation when its [order_executor] is
    [ex]: the dict of [execute_sell] is never empty. *)
Definition eval_env (ex : t) (jupiter : jupiter_sell) (now : Q)
    (wallet_sells : string -> bool) : Engine.eval_env :=
  Engine.EvalEnv now (Some (execute_sell ex jupiter)) wallet_sells.

End Executor.

(** ** Worked inputs *)

Module Examples.

(** An engine as [BotManager] builds it (buy amount 0.1, take-profit
    multiple 2.0, trailing stop 0.15), in real mode, with one unit of
    capital configured. *)
Definition real_engine : Engine.t :=
  Engine.set_initial_capital 1
    (Engine.Make 0.1 2.0 0.15 false [] ∅ 0 0 ∅ None None false [] [] [] None).

Definition simulated_engine : Engine.t :=
  Engine.Make 0.1 2.0 0.15 true [] ∅ 0 0 ∅ None None false [] [] [] None.

(** A candidate seen ten seconds after start, for which the quote API
    answers both quotes, the wallet holds 5 SOL and the buy goes through,
    while the safety oracle cannot be reached. *)
Definition oracle_down : Engine.candidate_env :=
  Engine.CandidateEnv 1010 (Some 1000) ["creator"%string]
    Engine.OracleRaises
    (Engine.QuoteJson (Some "123456"%string))
    (Engine.QuoteJson (Some "98765"%string))
    true 5 true.

(** A position bought by a real engine at price 1 with a known creator,
    as left in place when the engine is switched to simulation by
    [enable_real_time_simulation]. *)
Definition held_position : Engine.position :=
  Engine.Position 1 0.1 ["creator"%string] 1000 None.

Definition switched_engine : Engine.t :=
  Engine.enable_real_time_simulation
    (Engine.with_held {["MINT"%string := held_position]}
       (Engine.with_creator_cache (Some ∅) real_engine)).

Definition quiet : Engine.eval_env :=
  Engine.EvalEnv 1100 None (fun _ => false).


(** The optimizer as [__init__] leaves it when no parameter file exists. *)
Definition fresh_optimizer : Optimizer.t :=
  Optimizer.Make 0 0 0 0 None None false 0 [] 2 [] 0 0 0 0 0 None.

(** The same after one profile rotation (profile 0, "conservateur"). *)
Definition rotated_optimizer : Optimizer.t :=
  Optimizer.with_profile 0 fresh_optimizer.

(** An engine at the upper end of the buy range. *)
Definition engine_at_two : Engine.t :=
  Engine.with_params 2.0 2.0 simulated_engine.

Definition lucky_draws : Optimizer.tick_env :=
  Optimizer.TickEnv 0.1 0.5 1 5000.

(** A simulation journal with one winning and one losing trade: the
    equity peaks at 1 and falls to 0.5, a drawdown of one half. *)
Definition mixed_journal : list Engine.trade :=
  [ Engine.Trade "A" 1 "buy" 10 false;
    Engine.Trade "A" 2 "sell" 20 false;
    Engine.Trade "B" 1 "buy" 30 false;
    Engine.Trade "B" 0.5 "sell" 40 false ]%string.

Definition engine_with_journal : Engine.t :=
  Engine.Make 0.1 2.0 0.15 true [] ∅ 0 0 ∅ None None false
    mixed_journal [] [] None.

(** A stand-in for [x ** 0.5] where a tick has to be run: rationals have
    no square root function, and the volatility it feeds is only logged
    and stored, never tested. *)
Definition pow_half (x : Q) : Q := x.


(** A simulated position bought at 1 whose price has peaked at 1.8. *)
Definition peaked_position : Engine.position :=
  Engine.Position 1 0.1 [] 1000 (Some 1.8).

Definition peaked_engine : Engine.t :=
  Engine.with_held {["MINT"%string := peaked_position]} simulated_engine.

(** A position as the pair scanner has it bought: at price zero. *)
Definition free_position : Engine.position :=
  Engine.Position 0.0 0.1 [] 1000 None.

Definition engine_with_free_position : Engine.t :=
  Engine.with_held {["MINT"%string := free_position]} simulated_engine.

(** A pool-creation transaction pairing SOL with a new mint, and a
    decoder that knows the one payload occurring in it. *)
Definition pool_creation : Scanner.transaction :=
  Scanner.Transaction
    ["payer"; Scanner.RAYDIUM_LP_V4]%string
    [Scanner.Instruction Scanner.RAYDIUM_LP_V4 (Some "payload"%string)
       ["a0"; "a1"; "a2"; "a3"; "a4"; "a5"; "a6"; "a7";
        Scanner.SOL_MINT; "NEWMINT"; "a10"]%string].

Definition decode (encoded : string) : option (list byte) :=
  if String.eqb encoded "payload"
  then Some (Scanner.initialize2_discriminant ++ [x01; x02])
  else None.

(** A candidate of the exploration phase for which the oracle reports a
    honeypot, everything else being in order. *)
Definition honeypot_candidate : Engine.candidate_env :=
  Engine.CandidateEnv 1010 (Some 1000) ["creator"%string]
    (Engine.OracleStatus 200
       (Some (Engine.OracleJson true true None None None false false)))
    (Engine.QuoteJson (Some "123456"%string))
    (Engine.QuoteJson (Some "98765"%string))
    true 5 true.

(** A real engine holding one position. *)
Definition holding_engine : Engine.t :=
  Engine.with_held {["MINT"%string := held_position]} real_engine.

(** A real engine that has learnt one creator. *)
Definition trusting_engine : Engine.t :=
  Engine.with_creator_cache (Some {["creator"%string]}) real_engine.

(** A simulating engine with a real-time analyzer that watches nothing
    yet. *)
Definition watched_engine : Engine.t :=
  Engine.with_realtime_analyzer (Some ∅) simulated_engine.

(** A journal with one completed trade, a win. *)
Definition winning_journal : list Engine.trade :=
  [ Engine.Trade "A" 1 "buy" 10 false;
    Engine.Trade "A" 2 "sell" 20 false ]%string.

Definition winning_engine : Engine.t :=
  Engine.Make 0.1 2.0 0.15 true [] ∅ 0 0 ∅ None None false
    winning_journal [] [] None.

(** A gateway set up for real trading, and one without a payer. *)
Definition working_gateway : Executor.t := Executor.Make false true true.

Definition idle_gateway : Executor.t := Executor.Make false false true.

(** The pool-creation transaction preceded by an instruction without
    data. *)
Definition garbled_transaction : Scanner.transaction :=
  Scanner.Transaction
    (Scanner.account_keys pool_creation)
    (Scanner.Instruction "other"%string None [] :: Scanner.instructions pool_creation).

End Examples.

(** * Properties *)

(** ** Arithmetic of the Python primitives *)

Lemma Qlt_bool_iff (x y : Q) : Py.Qlt_bool x y = true <-> x < y.
Proof.
  unfold Py.Qlt_bool. rewrite negb_true_iff.
  split; intros H.
  - apply Qnot_le_lt. intros Hle. apply Qle_bool_iff in Hle. congruence.
  - destruct (Qle_bool y x) eqn:E; [|reflexivity].
    apply Qle_bool_iff in E. exfalso. apply (Qlt_not_le _ _ H E).
Qed.

Lemma Qlt_bool_false_iff (x y : Q) : Py.Qlt_bool x y = false <-> y <= x.
Proof.
  unfold Py.Qlt_bool. rewrite negb_false_iff. apply Qle_bool_iff.
Qed.

Lemma Qle_bool_false_iff (x y : Q) : Qle_bool x y = false <-> y < x.
Proof.
  rewrite <- Qlt_bool_iff. unfold Py.Qlt_bool.
  destruct (Qle_bool x y); simpl; split; congruence.
Qed.

Lemma truediv_defined (x y : Q) : ~ y == 0 -> Py.truediv x y = Some (x / y).
Proof.
  intros H. unfold Py.truediv.
  destruct (Qeq_bool y 0) eqn:E; [|reflexivity].
  apply Qeq_bool_iff in E. contradiction.
Qed.

Lemma truediv_zero (x y : Q) : y == 0 -> Py.truediv x y = None.
Proof.
  intros H. unfold Py.truediv. apply Qeq_bool_iff in H. now rewrite H.
Qed.

Lemma py_max_ge_l (a b : Q) : a <= Py.max a b.
Proof.
  unfold Py.max. destruct (Py.Qlt_bool a b) eqn:E.
  - apply Qlt_bool_iff in E. lra.
  - lra.
Qed.

Lemma py_max_ge_r (a b : Q) : b <= Py.max a b.
Proof.
  unfold Py.max. destruct (Py.Qlt_bool a b) eqn:E.
  - lra.
  - apply Qlt_bool_false_iff in E. lra.
Qed.

Lemma py_max_le (a b c : Q) : a <= c -> b <= c -> Py.max a b <= c.
Proof. unfold Py.max. destruct (Py.Qlt_bool a b); auto. Qed.

Lemma py_min_le_l (a b : Q) : Py.min a b <= a.
Proof.
  unfold Py.min. destruct (Py.Qlt_bool b a) eqn:E.
  - apply Qlt_bool_iff in E. lra.
  - lra.
Qed.

Lemma py_min_le_r (a b : Q) : Py.min a b <= b.
Proof.
  unfold Py.min. destruct (Py.Qlt_bool b a) eqn:E.
  - lra.
  - apply Qlt_bool_false_iff in E. lra.
Qed.

Lemma py_min_ge (a b c : Q) : c <= a -> c <= b -> c <= Py.min a b.
Proof. unfold Py.min. destruct (Py.Qlt_bool b a); auto. Qed.

Lemma updated_max_price_is_max (pos : Engine.position) (p : Q) :
  Engine.updated_max_price pos p == Qmax (Engine.max_price_seen pos) p.
Proof.
  unfold Engine.updated_max_price.
  destruct (Py.Qlt_bool (Engine.max_price_seen pos) p) eqn:E.
  - apply Qlt_bool_iff in E. symmetry. apply Q.max_r. lra.
  - apply Qlt_bool_false_iff in E. symmetry. apply Q.max_l. lra.
Qed.

(** ** The sale procedure *)

(** The attributes a sale never writes. *)
Definition settings_kept (dm dm' : Engine.t) : Prop :=
  Engine.buy_amount_sol dm' = Engine.buy_amount_sol dm
  /\ Engine.sell_multiplier dm' = Engine.sell_multiplier dm
  /\ Engine.trailing_stop_percent dm' = Engine.trailing_stop_percent dm
  /\ Engine.simulation_mode dm' = Engine.simulation_mode dm
  /\ Engine.capital dm' = Engine.capital dm
  /\ Engine.available_capital dm' = Engine.available_capital dm
  /\ Engine.successful_creator_cache dm' = Engine.successful_creator_cache dm
  /\ Engine.creator_cache_file dm' = Engine.creator_cache_file dm.

Lemma settings_kept_refl dm : settings_kept dm dm.
Proof. repeat split. Qed.

Lemma settings_kept_trans dm1 dm2 dm3 :
  settings_kept dm1 dm2 -> settings_kept dm2 dm3 -> settings_kept dm1 dm3.
Proof.
  unfold settings_kept. intros H1 H2.
  destruct H1 as (?&?&?&?&?&?&?&?), H2 as (?&?&?&?&?&?&?&?).
  repeat split; congruence.
Qed.

Lemma execute_sale_simulated tok now reply dm pos :
  Engine.simulation_mode dm = true ->
  Engine.held_tokens dm !! tok = Some pos ->
  Engine._execute_sale tok now reply dm =
    (let entry := Engine.Trade tok (Engine.buy_price pos * Engine.sell_multiplier dm)
                    "sell" now false in
     let dm1 := Engine.record_simulation_trade entry dm in
     (Engine.with_held (delete tok (Engine.held_tokens dm1)) dm1,
      Some (Engine.buy_price pos * Engine.sell_multiplier dm), None)).
Proof.
  intros Hsim Hheld. unfold Engine._execute_sale. now rewrite Hsim, Hheld.
Qed.

Lemma execute_sale_settings tok now reply dm :
  settings_kept dm (Engine._execute_sale tok now reply dm).1.1.
Proof.
  unfold Engine._execute_sale.
  destruct (Engine.simulation_mode dm) eqn:Hsim;
    destruct (Engine.held_tokens dm !! tok) as [pos|] eqn:Hheld;
    try apply settings_kept_refl.
  - cbn. repeat split; assumption.
  - destruct reply as [[[] reported]|]; try apply settings_kept_refl.
    cbn. unfold Engine._log_completed_trade. rewrite Hheld.
    unfold Engine.stop_monitoring_token. cbn.
    destruct (Engine.realtime_analyzer dm); cbn; repeat split; assumption.
Qed.

Lemma execute_sale_held tok now reply dm :
  let dm' := (Engine._execute_sale tok now reply dm).1.1 in
  Engine.held_tokens dm' = Engine.held_tokens dm
  \/ Engine.held_tokens dm' = delete tok (Engine.held_tokens dm).
Proof.
  unfold Engine._execute_sale.
  destruct (Engine.simulation_mode dm) eqn:Hsim;
    destruct (Engine.held_tokens dm !! tok) as [pos|] eqn:Hheld;
    try (left; reflexivity).
  - right. reflexivity.
  - destruct reply as [[[] reported]|]; try (left; reflexivity).
    right. cbn. unfold Engine._log_completed_trade. rewrite Hheld.
    unfold Engine.stop_monitoring_token. cbn.
    destruct (Engine.realtime_analyzer dm); reflexivity.
Qed.

(** The journal of the engine's mode gained exactly the line [e]. *)
Definition journal_gained (dm dm' : Engine.t) (e : Engine.trade) : Prop :=
  if Engine.simulation_mode dm then
    Engine.simulation_results dm' = Engine.simulation_results dm ++ [e]
    /\ Engine.simulation_trades_log dm' = Engine.simulation_trades_log dm ++ [e]
    /\ Engine.real_trades_log dm' = Engine.real_trades_log dm
  else
    Engine.real_trades_log dm' = Engine.real_trades_log dm ++ [e]
    /\ Engine.simulation_results dm' = Engine.simulation_results dm
    /\ Engine.simulation_trades_log dm' = Engine.simulation_trades_log dm.

Definition journals_kept (dm dm' : Engine.t) : Prop :=
  Engine.simulation_results dm' = Engine.simulation_results dm
  /\ Engine.simulation_trades_log dm' = Engine.simulation_trades_log dm
  /\ Engine.real_trades_log dm' = Engine.real_trades_log dm
  /\ Engine.completed_trades_log dm' = Engine.completed_trades_log dm.

Lemma execute_sale_outcome tok now reply dm pos :
  Engine.held_tokens dm !! tok = Some pos ->
  match Engine._execute_sale tok now reply dm with
  | (dm', Some q, _) =>
      Engine.held_tokens dm' = delete tok (Engine.held_tokens dm)
      /\ journal_gained dm dm' (Engine.Trade tok q "sell" now false)
  | (dm', None, _) => dm' = dm
  end.
Proof.
  intros Hheld. unfold Engine._execute_sale, journal_gained. rewrite Hheld.
  destruct (Engine.simulation_mode dm) eqn:Hsim.
  - cbn. repeat split.
  - destruct reply as [[[] reported]|]; try reflexivity.
    cbn. unfold Engine._log_completed_trade. rewrite Hheld.
    unfold Engine.stop_monitoring_token. cbn.
    destruct (Engine.realtime_analyzer dm); cbn; repeat split.
Qed.

Definition same_purchase (pos pos' : Engine.position) : Prop :=
  Engine.buy_price pos' = Engine.buy_price pos
  /\ Engine.buy_amount pos' = Engine.buy_amount pos
  /\ Engine.creator_wallets pos' = Engine.creator_wallets pos
  /\ Engine.buy_timestamp pos' = Engine.buy_timestamp pos.

(** The real sale did not go through: [execute_sell] answered nothing
    truthy, or a dict whose ["success"] is false. *)
Definition sale_refused (reply : option Engine.sell_data) : Prop :=
  match reply with
  | Some (Engine.SellData true _) => False
  | _ => True
  end.

(** A sale asked of [_execute_sale] goes through: the engine simulates,
    or [execute_sell] answers a dict whose ["success"] is true. *)
Definition sale_goes_through (reply : option Engine.sell_data) (dm : Engine.t) : Prop :=
  Engine.simulation_mode dm = true
  \/ exists reported, reply = Some (Engine.SellData true reported).

(** What a call of [_execute_sale] for a held token does, by the value it
    returns. *)
Lemma execute_sale_cases tok now reply dm pos :
  Engine.held_tokens dm !! tok = Some pos ->
  let s := Engine._execute_sale tok now reply dm in
  (sale_goes_through reply dm -> exists q, s.1.2 = Some q)
  /\ (Engine.simulation_mode dm = false -> sale_refused reply -> s.1.2 = None)
  /\ (forall q, s.1.2 = Some q ->
        Engine.held_tokens s.1.1 !! tok = None
        /\ journal_gained dm s.1.1 (Engine.Trade tok q "sell" now false))
  /\ (s.1.2 = None -> s.1.1 = dm).
Proof.
  intros Hheld. cbv zeta.
  pose proof (execute_sale_outcome tok now reply dm pos Hheld) as Hout.
  split; [|split; [|split]].
  - intros [Hsim|[reported ->]]; unfold Engine._execute_sale; rewrite Hheld.
    + rewrite Hsim. cbn. eauto.
    + destruct (Engine.simulation_mode dm); cbn; eauto.
  - intros Hsim Href. unfold Engine._execute_sale. rewrite Hsim, Hheld.
    destruct reply as [[[] reported]|]; [destruct Href|reflexivity|reflexivity].
  - intros q Hq.
    destruct (Engine._execute_sale tok now reply dm) as [[dm' sold] err].
    cbn in Hq |- *. subst sold. destruct Hout as [Hd Hj].
    split; [rewrite Hd; apply lookup_delete_eq|exact Hj].
  - intros Hq.
    destruct (Engine._execute_sale tok now reply dm) as [[dm' sold] err].
    cbn in Hq |- *. subst sold. exact Hout.
Qed.

(** ** Exit evaluation *)

(** Which rule fires, as a decision list over the three tests. *)
Lemma evaluate_trigger tok p whale env dm pos :
  Engine.held_tokens dm !! tok = Some pos ->
  ~ Engine.buy_price pos == 0 ->
  Engine.trigger (Engine.evaluate_held_tokens_for_sale tok p whale env dm) =
    if Qle_bool (Engine.sell_multiplier dm) (p / Engine.buy_price pos)
    then Some Engine.TakeProfit
    else if Py.Qlt_bool p (Engine.updated_max_price pos p
                           * (1 - Engine.trailing_stop_percent dm))
    then Some Engine.TrailingStop
    else if whale || Engine._creator_wallet_selling (Engine.wallet_sells env)
                       (Engine.creator_wallets pos)
    then Some Engine.DumpSignal
    else None.
Proof.
  intros Hheld Hb. unfold Engine.evaluate_held_tokens_for_sale.
  rewrite Hheld, (truediv_defined _ _ Hb).
  destruct (Qle_bool _ _).
  - destruct (Engine._execute_sale _ _ _ _) as [[dm1 sold] err].
    destruct (Engine.simulation_mode dm1); [|reflexivity].
    destruct (Engine.held_tokens dm1 !! tok); [|reflexivity].
    destruct (Py.Qlt_bool _ _); [|reflexivity].
    now destruct (Engine.learn_creators _ _).
  - destruct (Py.Qlt_bool _ _).
    + now destruct (Engine._execute_sale _ _ _ _) as [[dm1 sold] err].
    + destruct (_ || _); [|reflexivity].
      now destruct (Engine._execute_sale _ _ _ _) as [[dm1 sold] err].
Qed.

Lemma learn_creators_held creators dm :
  Engine.held_tokens (Engine.learn_creators creators dm).1 = Engine.held_tokens dm.
Proof.
  revert dm. induction creators as [|c rest IH]; intros dm; [reflexivity|].
  cbn. destruct (Engine.successful_creator_cache dm) as [cache|]; [|reflexivity].
  destruct (decide (c ∈ cache)); [apply IH|].
  rewrite IH. reflexivity.
Qed.

Lemma learn_creators_capital creators dm :
  Engine.available_capital (Engine.learn_creators creators dm).1
  = Engine.available_capital dm.
Proof.
  revert dm. induction creators as [|c rest IH]; intros dm; [reflexivity|].
  cbn. destruct (Engine.successful_creator_cache dm) as [cache|]; [|reflexivity].
  destruct (decide (c ∈ cache)); [apply IH|].
  rewrite IH. reflexivity.
Qed.

(** What an evaluation of [tok] at price [p] can do to [held_tokens]:
    nothing, delete [tok], or record the running maximum of [tok] and
    then possibly delete it. *)
Lemma evaluate_held tok p whale env dm :
  let h := Engine.held_tokens dm in
  let h' := Engine.held_tokens
              (Engine.after (Engine.evaluate_held_tokens_for_sale tok p whale env dm)) in
  h' = h \/ h' = delete tok h
  \/ exists pos,
       h !! tok = Some pos /\ ~ Engine.buy_price pos == 0
       /\ let h1 := <[tok := Engine.with_max_price (Engine.updated_max_price pos p) pos]> h in
          h' = h1 \/ h' = delete tok h1.
Proof.
  cbv zeta. unfold Engine.evaluate_held_tokens_for_sale.
  destruct (Engine.held_tokens dm !! tok) as [pos|] eqn:Hheld; [|left; reflexivity].
  unfold Py.truediv.
  destruct (Qeq_bool (Engine.buy_price pos) 0) eqn:Hz; [left; reflexivity|].
  assert (Hb : ~ Engine.buy_price pos == 0).
  { intros H. apply Qeq_bool_iff in H. congruence. }
  destruct (Qle_bool _ _).
  - pose proof (execute_sale_held tok (Engine.now env) (Engine.sell_reply env) dm) as Hs.
    cbv zeta in Hs.
    destruct (Engine._execute_sale _ _ _ _) as [[dm1 sold] err]. cbn in Hs.
    assert (Hgoal : Engine.held_tokens dm1 = Engine.held_tokens dm
                    \/ Engine.held_tokens dm1 = delete tok (Engine.held_tokens dm)
                    \/ False) by tauto.
    destruct (Engine.simulation_mode dm1); [|cbn; tauto].
    destruct (Engine.held_tokens dm1 !! tok) as [pos1|]; [|cbn; tauto].
    destruct (Py.Qlt_bool _ _); [|cbn; tauto].
    pose proof (learn_creators_held (Engine.creator_wallets pos1) dm1) as Hl.
    destruct (Engine.learn_creators _ _) as [dm2 err2]. cbn in Hl |- *.
    rewrite Hl. tauto.
  - right. right. exists pos. split; [reflexivity|]. split; [exact Hb|].
    set (dm1 := Engine.with_held _ dm).
    pose proof (execute_sale_held tok (Engine.now env) (Engine.sell_reply env) dm1) as Hs.
    cbv zeta in Hs.
    destruct (Py.Qlt_bool _ _).
    + destruct (Engine._execute_sale _ _ _ _) as [[dm2 sold] err]. exact Hs.
    + destruct (_ || _); [|left; reflexivity].
      destruct (Engine._execute_sale _ _ _ _) as [[dm2 sold] err]. exact Hs.
Qed.

Lemma evaluate_other_token tok tok' p whale env dm :
  tok' <> tok ->
  Engine.held_tokens
    (Engine.after (Engine.evaluate_held_tokens_for_sale tok p whale env dm)) !! tok'
  = Engine.held_tokens dm !! tok'.
Proof.
  intros Hne.
  destruct (evaluate_held tok p whale env dm) as [H|[H|(pos & _ & _ & [H|H])]];
    rewrite H; clear H.
  - reflexivity.
  - apply lookup_delete_ne. congruence.
  - apply lookup_insert_ne. congruence.
  - rewrite lookup_delete_ne by congruence. apply lookup_insert_ne. congruence.
Qed.

Lemma evaluate_zero_buy_price tok p whale env dm pos :
  Engine.held_tokens dm !! tok = Some pos ->
  Engine.buy_price pos == 0 ->
  Engine.evaluate_held_tokens_for_sale tok p whale env dm
  = Engine.EvalResult dm None None (Some Py.ZeroDivisionError).
Proof.
  intros Hheld Hz. unfold Engine.evaluate_held_tokens_for_sale.
  now rewrite Hheld, (truediv_zero _ _ Hz).
Qed.

(** The take-profit branch: the evaluation leaves what [_execute_sale]
    leaves and reports what it returns.  (In simulation mode the position
    is gone by then, so that the creator-learning block is not reached.) *)
Lemma evaluate_take_profit tok p whale env dm pos :
  Engine.held_tokens dm !! tok = Some pos ->
  ~ Engine.buy_price pos == 0 ->
  Qle_bool (Engine.sell_multiplier dm) (p / Engine.buy_price pos) = true ->
  let s := Engine._execute_sale tok (Engine.now env) (Engine.sell_reply env) dm in
  let r := Engine.evaluate_held_tokens_for_sale tok p whale env dm in
  Engine.after r = s.1.1 /\ Engine.sale r = s.1.2.
Proof.
  intros Hheld Hb Etp. cbv zeta.
  unfold Engine.evaluate_held_tokens_for_sale.
  rewrite Hheld, (truediv_defined _ _ Hb), Etp.
  destruct (Engine.simulation_mode dm) eqn:Hsim.
  - rewrite (execute_sale_simulated _ _ _ _ _ Hsim Hheld). cbn.
    rewrite Hsim, lookup_delete_eq. split; reflexivity.
  - pose proof (execute_sale_settings tok (Engine.now env) (Engine.sell_reply env) dm)
      as (_&_&_&Hmode&_).
    destruct (Engine._execute_sale _ _ _ _) as [[dm1 sold] err]. cbn [fst snd] in *.
    rewrite Hmode, Hsim. split; reflexivity.
Qed.

(** Below the take-profit multiple: the running maximum is stored first,
    and the sale is asked for when the trailing stop or a dump signal
    fires. *)
Lemma evaluate_below_take_profit tok p whale env dm pos :
  Engine.held_tokens dm !! tok = Some pos ->
  ~ Engine.buy_price pos == 0 ->
  Qle_bool (Engine.sell_multiplier dm) (p / Engine.buy_price pos) = false ->
  let pos1 := Engine.with_max_price (Engine.updated_max_price pos p) pos in
  let dm1 := Engine.with_held (<[tok := pos1]> (Engine.held_tokens dm)) dm in
  let s := Engine._execute_sale tok (Engine.now env) (Engine.sell_reply env) dm1 in
  let r := Engine.evaluate_held_tokens_for_sale tok p whale env dm in
  if Py.Qlt_bool p (Engine.updated_max_price pos p
                    * (1 - Engine.trailing_stop_percent dm))
     || (whale || Engine._creator_wallet_selling (Engine.wallet_sells env)
                    (Engine.creator_wallets pos))
  then Engine.after r = s.1.1 /\ Engine.sale r = s.1.2
  else Engine.after r = dm1 /\ Engine.sale r = None.
Proof.
  intros Hheld Hb Etp. cbv zeta.
  unfold Engine.evaluate_held_tokens_for_sale.
  rewrite Hheld, (truediv_defined _ _ Hb), Etp.
  change (Engine.trailing_stop_percent
            (Engine.with_held
               (<[tok := Engine.with_max_price (Engine.updated_max_price pos p) pos]>
                  (Engine.held_tokens dm)) dm))
    with (Engine.trailing_stop_percent dm).
  destruct (Py.Qlt_bool _ _); cbn [orb].
  - destruct (Engine._execute_sale _ _ _ _) as [[dm2 sold] err]. split; reflexivity.
  - destruct (_ || _).
    + destruct (Engine._execute_sale _ _ _ _) as [[dm2 sold] err]. split; reflexivity.
    + split; reflexivity.
Qed.

(** C2, as the code has it.  On a price update [p] for a held position
    whose buy price is zero, the quotient [p / buy_price] raises and
    nothing else happens.  When the buy price is not zero, the sale is
    asked for under the take-profit rule exactly when
    [p / buy_price >= sell_multiplier];
    otherwise under the trailing-stop rule exactly when
    [p < m * (1 - trailing_stop_percent)], where [m] is the larger of [p]
    and the stored maximum of the position; otherwise under the dump
    (creator-sell) rule exactly when a whale or a creator wallet is
    selling.  When the sale goes through (always in simulation mode, and in
    real mode when the gateway reports success) a rule fires exactly when
    the evaluation returns a sale and exactly when the position is gone,
    and each sale returned removes the position and writes one sell line
    to the journal of the engine's mode.  A sale the gateway refuses, like
    an update on which no rule fires, leaves the journals as they were and
    the position held: unchanged when the take-profit rule fired, so that
    [p] does not enter the stored maximum, and with [m] stored otherwise. *)
Theorem exit_policy tok p whale env dm pos :
  Engine.held_tokens dm !! tok = Some pos ->
  let r := Engine.evaluate_held_tokens_for_sale tok p whale env dm in
  let dm' := Engine.after r in
  let take_profit := Engine.sell_multiplier dm <= p / Engine.buy_price pos in
  let trailing_stop :=
    p < Qmax (Engine.max_price_seen pos) p * (1 - Engine.trailing_stop_percent dm) in
  let creator_sell :=
    whale || Engine._creator_wallet_selling (Engine.wallet_sells env)
               (Engine.creator_wallets pos) = true in
  let some_rule := take_profit \/ trailing_stop \/ creator_sell in
  (Engine.buy_price pos == 0 ->
   r = Engine.EvalResult dm None None (Some Py.ZeroDivisionError))
  /\ (~ Engine.buy_price pos == 0 ->
      (Engine.trigger r = Some Engine.TakeProfit <-> take_profit)
    /\ (Engine.trigger r = Some Engine.TrailingStop <-> ~ take_profit /\ trailing_stop)
    /\ (Engine.trigger r = Some Engine.DumpSignal
        <-> ~ take_profit /\ ~ trailing_stop /\ creator_sell)
    /\ (sale_goes_through (Engine.sell_reply env) dm ->
        (some_rule <-> exists q, Engine.sale r = Some q)
        /\ (some_rule <-> Engine.held_tokens dm' !! tok = None))
    /\ (forall q, Engine.sale r = Some q ->
          some_rule
          /\ Engine.held_tokens dm' !! tok = None
          /\ journal_gained dm dm' (Engine.Trade tok q "sell" (Engine.now env) false))
    /\ (Engine.simulation_mode dm = false -> sale_refused (Engine.sell_reply env) ->
        Engine.sale r = None)
    /\ (Engine.sale r = None ->
        journals_kept dm dm'
        /\ (take_profit -> Engine.held_tokens dm' !! tok = Some pos)
        /\ (~ take_profit ->
            exists pos', Engine.held_tokens dm' !! tok = Some pos'
                         /\ same_purchase pos pos'
                         /\ Engine.max_price_seen pos'
                            == Qmax (Engine.max_price_seen pos) p))).
Proof.
  intros Hheld. cbv zeta.
  split; [intros Hz; now apply (evaluate_zero_buy_price tok p whale env dm pos)|].
  intros Hb.
  pose proof (evaluate_trigger tok p whale env dm pos Hheld Hb) as Htrig.
  pose proof (updated_max_price_is_max pos p) as Hmax.
  destruct (Qle_bool (Engine.sell_multiplier dm) (p / Engine.buy_price pos)) eqn:Etp.
  - (* the take-profit rule *)
    destruct (evaluate_take_profit tok p whale env dm pos Hheld Hb Etp) as [Hafter Hsale].
    destruct (execute_sale_cases tok (Engine.now env) (Engine.sell_reply env) dm pos Hheld)
      as (Hgo & Hrefused & Hsold & Hkept).
    rewrite Hafter, Hsale, Htrig. clear Hafter Hsale Htrig.
    apply Qle_bool_iff in Etp.
    split; [tauto|]. split; [split; [discriminate|tauto]|].
    split; [split; [discriminate|tauto]|].
    split; [|split; [|split]].
    + intros Hthrough. destruct (Hgo Hthrough) as [q Hq].
      split; (split; [intros _|tauto]); [eauto|exact (proj1 (Hsold q Hq))].
    + intros q Hq. split; [tauto|exact (Hsold q Hq)].
    + exact Hrefused.
    + intros Hnone. rewrite (Hkept Hnone).
      split; [repeat split|]. split; [intros _; exact Hheld|tauto].
  - (* below the take-profit multiple *)
    pose proof (evaluate_below_take_profit tok p whale env dm pos Hheld Hb Etp) as Hcase.
    cbv zeta in Hcase.
    apply Qle_bool_false_iff in Etp.
    assert (Hntp : ~ Engine.sell_multiplier dm <= p / Engine.buy_price pos)
      by (apply Qlt_not_le; exact Etp).
    set (pos1 := Engine.with_max_price (Engine.updated_max_price pos p) pos) in *.
    set (dm1 := Engine.with_held (<[tok := pos1]> (Engine.held_tokens dm)) dm) in *.
    assert (Hheld1 : Engine.held_tokens dm1 !! tok = Some pos1) by apply lookup_insert_eq.
    destruct (execute_sale_cases tok (Engine.now env) (Engine.sell_reply env) dm1 pos1
                Hheld1) as (Hgo & Hrefused & Hsold & Hkept).
    assert (Hstored : exists pos', Engine.held_tokens dm1 !! tok = Some pos'
                                   /\ same_purchase pos pos'
                                   /\ Engine.max_price_seen pos'
                                      == Qmax (Engine.max_price_seen pos) p).
    { exists pos1. split; [exact Hheld1|]. split; [repeat split|exact Hmax]. }
    assert (Htrail : Py.Qlt_bool p (Engine.updated_max_price pos p
                                    * (1 - Engine.trailing_stop_percent dm)) = true
                     <-> p < Qmax (Engine.max_price_seen pos) p
                             * (1 - Engine.trailing_stop_percent dm)).
    { rewrite Qlt_bool_iff, Hmax. reflexivity. }
    destruct (Py.Qlt_bool p _) eqn:Ets.
    + (* the trailing stop *)
      assert (Hts : p < Qmax (Engine.max_price_seen pos) p
                        * (1 - Engine.trailing_stop_percent dm))
        by (apply Htrail; reflexivity).
      cbn [orb] in Hcase. destruct Hcase as [Hafter Hsale].
      rewrite Hafter, Hsale, Htrig. clear Hafter Hsale Htrig.
      split; [split; [discriminate|tauto]|]. split; [tauto|].
      split; [split; [discriminate|tauto]|].
      split; [|split; [|split]].
      * intros Hthrough. destruct (Hgo Hthrough) as [q Hq].
        split; (split; [intros _|tauto]); [eauto|exact (proj1 (Hsold q Hq))].
      * intros q Hq. split; [tauto|exact (Hsold q Hq)].
      * exact Hrefused.
      * intros Hnone. rewrite (Hkept Hnone).
        split; [repeat split|]. split; [tauto|intros _; exact Hstored].
    + assert (Hnts : ~ p < Qmax (Engine.max_price_seen pos) p
                           * (1 - Engine.trailing_stop_percent dm)).
      { intros H. apply Htrail in H. discriminate. }
      cbn [orb] in Hcase.
      destruct (whale || Engine._creator_wallet_selling (Engine.wallet_sells env)
                           (Engine.creator_wallets pos)) eqn:Ecs.
      * (* the dump signal *)
        destruct Hcase as [Hafter Hsale].
        rewrite Hafter, Hsale, Htrig. clear Hafter Hsale Htrig.
        split; [split; [discriminate|tauto]|].
        split; [split; [discriminate|tauto]|]. split; [tauto|].
        split; [|split; [|split]].
        -- intros Hthrough. destruct (Hgo Hthrough) as [q Hq].
           split; (split; [intros _|tauto]); [eauto|exact (proj1 (Hsold q Hq))].
        -- intros q Hq. split; [tauto|exact (Hsold q Hq)].
        -- exact Hrefused.
        -- intros Hnone. rewrite (Hkept Hnone).
           split; [repeat split|]. split; [tauto|intros _; exact Hstored].
      * (* no rule *)
        destruct Hcase as [Hafter Hsale].
        rewrite Hafter, Hsale, Htrig. clear Hafter Hsale Htrig.
        assert (Hnone : ~ (Engine.sell_multiplier dm <= p / Engine.buy_price pos
                           \/ p < Qmax (Engine.max_price_seen pos) p
                                  * (1 - Engine.trailing_stop_percent dm)
                           \/ false = true)).
        { intros [H|[H|H]]; [tauto|tauto|discriminate]. }
        split; [split; [discriminate|tauto]|].
        split; [split; [discriminate|tauto]|].
        split; [split; [discriminate|intros (_ & _ & H); discriminate]|].
        split; [|split; [|split]].
        -- intros _. split; (split; [tauto|]).
           ++ intros [q Hq]. discriminate.
           ++ intros H. rewrite Hheld1 in H. discriminate.
        -- intros q Hq. discriminate.
        -- reflexivity.
        -- intros _. split; [repeat split|]. split; [tauto|intros _; exact Hstored].
Qed.

(** C2 fails as stated, with [max_price_seen] the highest price observed
    since the buy: a price at which the take-profit sale was refused does
    not enter the stored maximum.  A real engine holds a position bought at
    1 (take-profit multiple 2, trailing stop 0.15).  At price 3 the take
    profit fires and the gateway refuses the sale; the position is left as
    it was.  At price 1.9, below 3 * 0.85 and below the take-profit
    multiple, no sale is asked for, although the gateway would now accept
    it. *)
Lemma refused_take_profit_hides_the_peak :
  let refusing := Engine.EvalEnv 1100 (Some (Engine.SellData false None))
                    (fun _ => false) in
  let accepting := Engine.EvalEnv 1200 (Some (Engine.SellData true (Some 1.9)))
                     (fun _ => false) in
  let first := Engine.evaluate_held_tokens_for_sale "MINT" 3 false refusing
                 Examples.holding_engine in
  let second := Engine.evaluate_held_tokens_for_sale "MINT" 1.9 false accepting
                  (Engine.after first) in
  let observed_max := Qmax (Qmax (Engine.buy_price Examples.held_position) 3) 1.9 in
  Engine.trigger first = Some Engine.TakeProfit
  /\ Engine.sale first = None
  /\ Engine.after first = Examples.holding_engine
  /\ ~ Engine.sell_multiplier Examples.holding_engine
       <= 1.9 / Engine.buy_price Examples.held_position
  /\ 1.9 < observed_max * (1 - Engine.trailing_stop_percent Examples.holding_engine)
  /\ sale_goes_through (Engine.sell_reply accepting) (Engine.after first)
  /\ Engine.trigger second = None
  /\ Engine.sale second = None
  /\ is_Some (Engine.held_tokens (Engine.after second) !! "MINT").
Proof.
  cbv zeta.
  assert (H1 : Engine.after
                 (Engine.evaluate_held_tokens_for_sale "MINT" 3 false
                    (Engine.EvalEnv 1100 (Some (Engine.SellData false None))
                       (fun _ => false)) Examples.holding_engine)
               = Examples.holding_engine) by (vm_compute; reflexivity).
  split; [vm_compute; reflexivity|]. split; [vm_compute; reflexivity|].
  split; [exact H1|]. split; [vm_compute; intros H; apply H; reflexivity|].
  split; [vm_compute; reflexivity|].
  split; [right; eexists; reflexivity|].
  rewrite H1.
  split; [vm_compute; reflexivity|]. split; [vm_compute; reflexivity|].
  vm_compute. eauto.
Qed.

(** ** Entry *)

Definition position_taken (a : Engine.admission) : Prop :=
  a = Engine.SimulatedBuy \/ a = Engine.TrustedBuy true \/ a = Engine.Bought.

Lemma start_monitoring_held tok dm :
  Engine.held_tokens (Engine.start_monitoring_token tok dm) = Engine.held_tokens dm.
Proof. unfold Engine.start_monitoring_token. now destruct (Engine.realtime_analyzer dm). Qed.

Lemma start_monitoring_capital tok dm :
  Engine.available_capital (Engine.start_monitoring_token tok dm)
  = Engine.available_capital dm.
Proof. unfold Engine.start_monitoring_token. now destruct (Engine.realtime_analyzer dm). Qed.

Lemma check_honeypot_held tok now reply dm :
  Engine.held_tokens (Engine._check_token_honeypot_and_taxes tok now reply dm).2
  = Engine.held_tokens dm.
Proof.
  unfold Engine._check_token_honeypot_and_taxes.
  destruct (Engine.honeypot_cache dm !! tok) as [e|]; [|reflexivity].
  now destruct (Py.Qlt_bool _ _).
Qed.

Lemma check_honeypot_capital tok now reply dm :
  Engine.available_capital (Engine._check_token_honeypot_and_taxes tok now reply dm).2
  = Engine.available_capital dm
  /\ Engine.buy_amount_sol (Engine._check_token_honeypot_and_taxes tok now reply dm).2
     = Engine.buy_amount_sol dm.
Proof.
  unfold Engine._check_token_honeypot_and_taxes.
  destruct (Engine.honeypot_cache dm !! tok) as [e|]; [|now split].
  now destruct (Py.Qlt_bool _ _).
Qed.

(** What a candidate can do to [held_tokens]: nothing, or install a fresh
    position for it, bought at the price it came with and without a
    ['max_price'] yet. *)
Lemma candidate_held py_int tok price env dm :
  let r := Engine.process_new_token_candidate py_int tok price env dm in
  (position_taken r.2
   /\ exists pos, Engine.held_tokens r.1 = <[tok := pos]> (Engine.held_tokens dm)
                  /\ Engine.buy_price pos = price /\ Engine.max_price pos = None)
  \/ (~ position_taken r.2 /\ Engine.held_tokens r.1 = Engine.held_tokens dm).
Proof.
  cbv zeta. unfold Engine.process_new_token_candidate, position_taken.
  destruct (Engine.simulation_mode dm).
  { left. split; [tauto|]. cbn. rewrite start_monitoring_held. cbn. eauto. }
  destruct (negb (Engine.is_exploration_phase env)).
  { destruct (Engine.detected_creators env) as [|c cs] eqn:Hc.
    - right. cbn. split; [intros [H|[H|H]]; discriminate | reflexivity].
    - destruct (Engine.successful_creator_cache dm) as [cache|].
      + destruct (existsb _ _).
        * destruct (Engine.buy_success env).
          -- left. split; [tauto|]. cbn. rewrite start_monitoring_held. cbn. eauto.
          -- right. cbn. split; [intros [H|[H|H]]; discriminate | reflexivity].
        * right. cbn. split; [intros [H|[H|H]]; discriminate | reflexivity].
      + right. cbn. split; [intros [H|[H|H]]; discriminate | reflexivity]. }
  pose proof (check_honeypot_held tok (Engine.clock env) (Engine.oracle env) dm) as Hh.
  destruct (Engine._check_token_honeypot_and_taxes _ _ _ _) as [info dm1]. cbn in Hh.
  destruct (_ || _).
  { right. cbn. split; [intros [H|[H|H]]; discriminate | exact Hh]. }
  destruct (Py.Qlt_bool _ _).
  { right. cbn. split; [intros [H|[H|H]]; discriminate | exact Hh]. }
  destruct (bool_decide _).
  { right. cbn. split; [intros [H|[H|H]]; discriminate | exact Hh]. }
  destruct (Engine.safety_filters _ _ _).
  { right. cbn. split; [intros [H|[H|H]]; discriminate | exact Hh]. }
  destruct (Engine.buy_success env).
  - left. split; [tauto|]. cbn. rewrite start_monitoring_held. cbn. rewrite Hh. eauto.
  - right. cbn. split; [intros [H|[H|H]]; discriminate | exact Hh].
Qed.

Lemma forwarded_price_zero signature_ok b58decode sig reply mint price :
  Scanner.forwarded signature_ok b58decode sig reply = Some (mint, price) ->
  price = 0.0.
Proof.
  unfold Scanner.forwarded.
  destruct (signature_ok sig); [|discriminate].
  destruct reply as [| |tx]; try discriminate.
  destruct (existsb _ _); [|discriminate].
  destruct (Scanner.scan_instructions _ _); try discriminate.
  intros H. now inversion H.
Qed.

Lemma evaluations_zero_buy_price calls tok dm pos :
  Engine.held_tokens dm !! tok = Some pos ->
  Engine.buy_price pos == 0 ->
  Engine.held_tokens (Engine.evaluations calls dm) !! tok = Some pos.
Proof.
  revert dm. induction calls as [|c calls IH]; intros dm Hheld Hz; [exact Hheld|].
  cbn. apply IH; [|exact Hz].
  unfold Engine.evaluate_call.
  destruct (String.eqb_spec (Engine.ec_token c) tok) as [->|Hne].
  - now rewrite (evaluate_zero_buy_price _ _ _ _ _ _ Hheld Hz).
  - rewrite evaluate_other_token by congruence. exact Hheld.
Qed.

(** C9.  A position whose buy price is zero is never sold by the
    evaluator: the pair scanner forwards every candidate with
    [current_price = 0.0]; a candidate bought at that price is held with
    [buy_price = 0]; on such a position each evaluation raises
    [ZeroDivisionError] at the profit-multiplier division, which is caught,
    so that no exit rule fires, no sale is made and the state is unchanged;
    hence the position survives every sequence of evaluations. *)
Theorem zero_buy_price_never_sold :
  (forall signature_ok b58decode sig reply mint price,
      Scanner.forwarded signature_ok b58decode sig reply = Some (mint, price) ->
      price = 0.0)
  /\ (forall py_int tok env dm,
        let r := Engine.process_new_token_candidate py_int tok 0.0 env dm in
        position_taken r.2 ->
        exists pos, Engine.held_tokens r.1 !! tok = Some pos
                    /\ Engine.buy_price pos = 0.0)
  /\ (forall tok p whale env dm pos,
        Engine.held_tokens dm !! tok = Some pos ->
        Engine.buy_price pos == 0 ->
        Engine.evaluate_held_tokens_for_sale tok p whale env dm
        = Engine.EvalResult dm None None (Some Py.ZeroDivisionError))
  /\ (forall calls tok dm pos,
        Engine.held_tokens dm !! tok = Some pos ->
        Engine.buy_price pos == 0 ->
        Engine.held_tokens (Engine.evaluations calls dm) !! tok = Some pos).
Proof.
  split; [exact forwarded_price_zero|].
  split; [|split; [exact evaluate_zero_buy_price | exact evaluations_zero_buy_price]].
  intros py_int tok env dm r Hadm.
  destruct (candidate_held py_int tok 0.0 env dm) as [[_ (pos & Hh & Hb & _)]|[Hn _]].
  - exists pos. subst r. rewrite Hh, lookup_insert_eq. now split.
  - contradiction.
Qed.

(** ** The running maximum of a position *)

(** Every held position has its running maximum at or above its buy price. *)
Definition tracked (dm : Engine.t) : Prop :=
  forall tok pos,
    Engine.held_tokens dm !! tok = Some pos ->
    Engine.buy_price pos <= Engine.max_price_seen pos.

Lemma updated_max_price_ge pos p :
  Engine.max_price_seen pos <= Engine.updated_max_price pos p.
Proof.
  unfold Engine.updated_max_price.
  destruct (Py.Qlt_bool _ _) eqn:E; [apply Qlt_bool_iff in E|]; lra.
Qed.

Lemma forced_sell_held tok now loop_time reply dm :
  let h' := Engine.held_tokens (Engine.forced_sell tok now loop_time reply dm) in
  h' = Engine.held_tokens dm \/ h' = delete tok (Engine.held_tokens dm).
Proof.
  cbv zeta. unfold Engine.forced_sell.
  pose proof (execute_sale_held tok now reply dm) as Hs. cbv zeta in Hs.
  destruct (Engine._execute_sale _ _ _ _) as [[dm1 sold] err]. exact Hs.
Qed.

Lemma tracked_delete tok dm dm' :
  tracked dm ->
  Engine.held_tokens dm' = delete tok (Engine.held_tokens dm) ->
  tracked dm'.
Proof.
  intros Ht Hh tok' pos'. rewrite Hh. intros Hl.
  apply lookup_delete_Some in Hl as [_ Hl]. exact (Ht _ _ Hl).
Qed.

Lemma tracked_same dm dm' :
  tracked dm -> Engine.held_tokens dm' = Engine.held_tokens dm -> tracked dm'.
Proof. intros Ht Hh tok' pos'. rewrite Hh. apply Ht. Qed.

Lemma tracked_insert tok pos dm dm' :
  tracked dm ->
  Engine.buy_price pos <= Engine.max_price_seen pos ->
  Engine.held_tokens dm' = <[tok := pos]> (Engine.held_tokens dm) ->
  tracked dm'.
Proof.
  intros Ht Hp Hh tok' pos'. rewrite Hh. intros Hl.
  apply lookup_insert_Some in Hl as [[_ <-]|[_ Hl]]; [exact Hp | exact (Ht _ _ Hl)].
Qed.

Lemma tracked_step py_int dm e :
  tracked dm -> tracked (Engine.step py_int dm e).
Proof.
  intros Ht. destruct e as [tok price env|[tok p whale env]|tok now loop_time reply]; cbn.
  - destruct (candidate_held py_int tok price env dm)
      as [[_ (pos & Hh & Hb & Hm)]|[_ Hh]].
    + apply (tracked_insert tok pos dm); [exact Ht| |exact Hh].
      unfold Engine.max_price_seen. rewrite Hm. lra.
    + exact (tracked_same _ _ Ht Hh).
  - unfold Engine.evaluate_call. cbn.
    destruct (evaluate_held tok p whale env dm) as [H|[H|(pos & Hl & _ & H)]].
    + exact (tracked_same _ _ Ht H).
    + exact (tracked_delete _ _ _ Ht H).
    + pose proof (Ht _ _ Hl) as Hp.
      pose proof (updated_max_price_ge pos p) as Hu.
      set (dm1 := Engine.with_held
                    (<[tok := Engine.with_max_price (Engine.updated_max_price pos p) pos]>
                       (Engine.held_tokens dm)) dm).
      assert (Ht1 : tracked dm1).
      { apply (tracked_insert tok
                 (Engine.with_max_price (Engine.updated_max_price pos p) pos) dm);
          [exact Ht|cbn; lra|reflexivity]. }
      destruct H as [H|H].
      * exact (tracked_same dm1 _ Ht1 H).
      * exact (tracked_delete tok dm1 _ Ht1 H).
  - destruct (forced_sell_held tok now loop_time reply dm) as [H|H].
    + exact (tracked_same _ _ Ht H).
    + exact (tracked_delete _ _ _ Ht H).
Qed.

Lemma evaluate_call_monotone dm c tok pos' :
  Engine.held_tokens (Engine.evaluate_call dm c) !! tok = Some pos' ->
  exists pos,
    Engine.held_tokens dm !! tok = Some pos
    /\ Engine.buy_price pos' = Engine.buy_price pos
    /\ Engine.max_price_seen pos <= Engine.max_price_seen pos'.
Proof.
  destruct c as [tk p whale env]. unfold Engine.evaluate_call. cbn.
  destruct (evaluate_held tk p whale env dm) as [H|[H|(pos & Hl & _ & H)]].
  - rewrite H. intros Hl. exists pos'. repeat split; [exact Hl|lra].
  - rewrite H. intros Hl. apply lookup_delete_Some in Hl as [_ Hl].
    exists pos'. repeat split; [exact Hl|lra].
  - assert (Hins : <[tk := Engine.with_max_price (Engine.updated_max_price pos p) pos]>
                     (Engine.held_tokens dm) !! tok = Some pos' ->
                   exists pos0,
                     Engine.held_tokens dm !! tok = Some pos0
                     /\ Engine.buy_price pos' = Engine.buy_price pos0
                     /\ Engine.max_price_seen pos0 <= Engine.max_price_seen pos').
    { intros Hi. apply lookup_insert_Some in Hi as [[<- <-]|[_ Hi]].
      - exists pos. repeat split; [exact Hl|]. cbn. apply updated_max_price_ge.
      - exists pos'. repeat split; [exact Hi|lra]. }
    destruct H as [H|H]; rewrite H; [exact Hins|].
    intros Hd. apply lookup_delete_Some in Hd as [_ Hd]. exact (Hins Hd).
Qed.

(** C6.  The running maximum of a held position never decreases across
    evaluations, whatever the prices fed to them, and is at or above the
    buy price at every point of a run (candidates, evaluations, forced
    sales) that starts with no position, or with positions for which this
    holds. *)
Theorem max_price_seen_monotone :
  (forall calls dm tok pos',
      Engine.held_tokens (Engine.evaluations calls dm) !! tok = Some pos' ->
      exists pos,
        Engine.held_tokens dm !! tok = Some pos
        /\ Engine.buy_price pos' = Engine.buy_price pos
        /\ Engine.max_price_seen pos <= Engine.max_price_seen pos')
  /\ (forall dm, Engine.held_tokens dm = ∅ -> tracked dm)
  /\ (forall py_int events dm, tracked dm -> tracked (Engine.run py_int events dm)).
Proof.
  split; [|split].
  - intros calls. induction calls as [|c calls IH]; intros dm tok pos' H.
    + exists pos'. repeat split; [exact H|lra].
    + cbn in H. destruct (IH _ _ _ H) as (pos1 & H1 & Hb1 & Hm1).
      destruct (evaluate_call_monotone _ _ _ _ H1) as (pos & H0 & Hb0 & Hm0).
      exists pos. repeat split; [exact H0|congruence|lra].
  - intros dm He tok pos. rewrite He, lookup_empty. discriminate.
  - intros py_int events. induction events as [|e events IH]; intros dm Ht; [exact Ht|].
    cbn. apply IH. apply tracked_step. exact Ht.
Qed.

(** ** Sales in simulation mode *)

(** The line a simulated sale of [tok] writes. *)
Definition simulated_sell_entry (tok : string) (pos : Engine.position)
    (dm : Engine.t) (now : Q) : Engine.trade :=
  Engine.Trade tok (Engine.buy_price pos * Engine.sell_multiplier dm) "sell" now false.

(** The take-profit branch in simulation mode: the sale removes the
    position, and the lookup that follows it raises [KeyError]. *)
Lemma evaluate_simulated_take_profit tok p whale env dm pos :
  Engine.simulation_mode dm = true ->
  Engine.held_tokens dm !! tok = Some pos ->
  ~ Engine.buy_price pos == 0 ->
  Engine.sell_multiplier dm <= p / Engine.buy_price pos ->
  Engine.evaluate_held_tokens_for_sale tok p whale env dm
  = let dm1 := Engine.record_simulation_trade
                 (simulated_sell_entry tok pos dm (Engine.now env)) dm in
    Engine.EvalResult
      (Engine.with_held (delete tok (Engine.held_tokens dm1)) dm1)
      (Some Engine.TakeProfit)
      (Some (Engine.buy_price pos * Engine.sell_multiplier dm))
      (Some (Py.KeyError tok)).
Proof.
  intros Hsim Hheld Hb Htp. unfold Engine.evaluate_held_tokens_for_sale.
  rewrite Hheld, (truediv_defined _ _ Hb).
  apply Qle_bool_iff in Htp. rewrite Htp.
  rewrite (execute_sale_simulated _ _ _ _ _ Hsim Hheld). cbn.
  rewrite Hsim, lookup_delete_eq. reflexivity.
Qed.

(** C5.  In simulation mode a take-profit sale never reaches the
    creator-learning loop: [_execute_sale] has already deleted the position
    when [held_tokens[token]] is read for the buy timestamp, the read raises
    [KeyError], and the creator cache and its file are left as they were,
    whatever the creator wallets and the duration of the trade. *)
Theorem simulated_take_profit_learns_no_creator tok p whale env dm pos :
  Engine.simulation_mode dm = true ->
  Engine.held_tokens dm !! tok = Some pos ->
  ~ Engine.buy_price pos == 0 ->
  Engine.sell_multiplier dm <= p / Engine.buy_price pos ->
  let r := Engine.evaluate_held_tokens_for_sale tok p whale env dm in
  Engine.trigger r = Some Engine.TakeProfit
  /\ Engine.sale r = Some (Engine.buy_price pos * Engine.sell_multiplier dm)
  /\ Engine.held_tokens (Engine.after r) !! tok = None
  /\ Engine.caught r = Some (Py.KeyError tok)
  /\ Engine.successful_creator_cache (Engine.after r)
     = Engine.successful_creator_cache dm
  /\ Engine.creator_cache_file (Engine.after r) = Engine.creator_cache_file dm.
Proof.
  intros Hsim Hheld Hb Htp. cbv zeta.
  rewrite (evaluate_simulated_take_profit _ _ _ _ _ _ Hsim Hheld Hb Htp). cbn.
  rewrite lookup_delete_eq. repeat split.
Qed.

Lemma evaluate_simulated_sale tok p whale env dm pos reason :
  Engine.simulation_mode dm = true ->
  Engine.held_tokens dm !! tok = Some pos ->
  let r := Engine.evaluate_held_tokens_for_sale tok p whale env dm in
  Engine.trigger r = Some reason ->
  let entry := simulated_sell_entry tok pos dm (Engine.now env) in
  Engine.sale r = Some (Engine.price entry)
  /\ Engine.simulation_results (Engine.after r) = Engine.simulation_results dm ++ [entry]
  /\ Engine.simulation_trades_log (Engine.after r)
     = Engine.simulation_trades_log dm ++ [entry]
  /\ Engine.held_tokens (Engine.after r) !! tok = None.
Proof.
  intros Hsim Hheld. cbv zeta.
  destruct (Qeq_bool (Engine.buy_price pos) 0) eqn:Hz.
  { apply Qeq_bool_iff in Hz.
    rewrite (evaluate_zero_buy_price _ _ _ _ _ _ Hheld Hz). discriminate. }
  assert (Hb : ~ Engine.buy_price pos == 0).
  { intros H. apply Qeq_bool_iff in H. congruence. }
  destruct (Qle_bool (Engine.sell_multiplier dm) (p / Engine.buy_price pos)) eqn:Etp.
  { apply Qle_bool_iff in Etp.
    rewrite (evaluate_simulated_take_profit _ _ _ _ _ _ Hsim Hheld Hb Etp). cbn.
    rewrite lookup_delete_eq. intros _. repeat split. }
  unfold Engine.evaluate_held_tokens_for_sale.
  rewrite Hheld, (truediv_defined _ _ Hb), Etp.
  set (pos1 := Engine.with_max_price (Engine.updated_max_price pos p) pos).
  set (dm1 := Engine.with_held (<[tok := pos1]> (Engine.held_tokens dm)) dm).
  assert (Hsim1 : Engine.simulation_mode dm1 = true) by exact Hsim.
  assert (Hheld1 : Engine.held_tokens dm1 !! tok = Some pos1) by apply lookup_insert_eq.
  pose proof (execute_sale_simulated tok (Engine.now env) (Engine.sell_reply env)
                dm1 pos1 Hsim1 Hheld1) as Hs.
  destruct (Py.Qlt_bool _ _).
  - rewrite Hs. cbn. rewrite lookup_delete_eq. intros _. repeat split.
  - destruct (_ || _); [|discriminate].
    rewrite Hs. cbn. rewrite lookup_delete_eq. intros _. repeat split.
Qed.

(** *** The simulation journal as the controller reads it *)

(** The buy prices that the aggregate loops of the controller
    ([_compute_stats], [_compute_drawdown], [_compute_profit]) hold in
    [buy_prices] once they have read [trades]. *)
Fixpoint recorded_buys (trades : list Engine.trade)
    (buy_prices : gmap string Q) : gmap string Q :=
  match trades with
  | [] => buy_prices
  | entry :: rest =>
      if String.eqb (Engine.action entry) "buy" then
        recorded_buys rest (<[Engine.token entry := Engine.price entry]> buy_prices)
      else recorded_buys rest buy_prices
  end.

(** Every position is backed by the simulation journal: the latest buy
    line of its token is at the position's buy price. *)
Definition journal_backs_positions (dm : Engine.t) : Prop :=
  forall tok pos,
    Engine.held_tokens dm !! tok = Some pos ->
    recorded_buys (Engine.simulation_trades_log dm) ∅ !! tok
    = Some (Engine.buy_price pos).

Lemma recorded_buys_snoc trades entry buy_prices :
  recorded_buys (trades ++ [entry]) buy_prices
  = if String.eqb (Engine.action entry) "buy"
    then <[Engine.token entry := Engine.price entry]> (recorded_buys trades buy_prices)
    else recorded_buys trades buy_prices.
Proof.
  revert buy_prices. induction trades as [|e rest IH]; intros buy_prices; cbn.
  - now destruct (String.eqb _ "buy").
  - destruct (String.eqb (Engine.action e) "buy"); apply IH.
Qed.

Lemma trade_profits_snoc trades entry buy_prices :
  Optimizer.trade_profits (trades ++ [entry]) buy_prices
  = Optimizer.trade_profits trades buy_prices
    ++ Optimizer.trade_profits [entry] (recorded_buys trades buy_prices).
Proof.
  revert buy_prices. induction trades as [|e rest IH]; intros buy_prices.
  - reflexivity.
  - cbn [app Optimizer.trade_profits recorded_buys].
    destruct (String.eqb (Engine.action e) "buy"); [apply IH|].
    destruct (String.eqb (Engine.action e) "sell"); [|apply IH].
    destruct (buy_prices !! Engine.token e); [|apply IH].
    cbn [app]. now rewrite IH.
Qed.

Lemma count_wins_snoc profits profit :
  Optimizer.count_wins (profits ++ [profit])
  = (Optimizer.count_wins profits + (if Py.Qlt_bool 0 profit then 1 else 0))%nat.
Proof.
  unfold Optimizer.count_wins. rewrite filter_app, length_app. f_equal.
  destruct (Py.Qlt_bool 0 profit) eqn:E.
  - now rewrite filter_cons_True by exact E.
  - rewrite filter_cons_False by (rewrite E; discriminate). reflexivity.
Qed.

(** A step that writes no buy line and keeps the buy price of what is
    held keeps the positions backed. *)
Lemma backed_after_sell_step dm dm' :
  journal_backs_positions dm ->
  (Engine.simulation_trades_log dm' = Engine.simulation_trades_log dm
   \/ exists tok q now,
        Engine.simulation_trades_log dm'
        = Engine.simulation_trades_log dm ++ [Engine.Trade tok q "sell" now false]) ->
  (forall tok pos',
      Engine.held_tokens dm' !! tok = Some pos' ->
      exists pos, Engine.held_tokens dm !! tok = Some pos
                  /\ Engine.buy_price pos' = Engine.buy_price pos) ->
  journal_backs_positions dm'.
Proof.
  intros Hb Hlog Hheld tok pos' Hpos'.
  destruct (Hheld tok pos' Hpos') as (pos & Hpos & ->).
  destruct Hlog as [->|(tok0 & q & now & ->)].
  - now apply Hb.
  - rewrite recorded_buys_snoc. cbn. now apply Hb.
Qed.

Lemma evaluate_positions tok p whale env dm tok' pos' :
  Engine.held_tokens
    (Engine.after (Engine.evaluate_held_tokens_for_sale tok p whale env dm)) !! tok'
  = Some pos' ->
  exists pos, Engine.held_tokens dm !! tok' = Some pos
              /\ Engine.buy_price pos' = Engine.buy_price pos.
Proof.
  destruct (evaluate_held tok p whale env dm) as [H|[H|(pos & Hpos & _ & [H|H])]];
    rewrite H; clear H; intros Hl.
  - now exists pos'.
  - apply lookup_delete_Some in Hl as [_ Hl]. now exists pos'.
  - destruct (decide (tok = tok')) as [->|Hne].
    + rewrite lookup_insert_eq in Hl. inversion Hl; subst. now exists pos.
    + rewrite lookup_insert_ne in Hl by exact Hne. now exists pos'.
  - apply lookup_delete_Some in Hl as [Hne Hl].
    rewrite lookup_insert_ne in Hl by exact Hne. now exists pos'.
Qed.

Lemma evaluate_simulated_journal tok p whale env dm :
  Engine.simulation_mode dm = true ->
  let dm' := Engine.after (Engine.evaluate_held_tokens_for_sale tok p whale env dm) in
  Engine.simulation_mode dm' = true
  /\ (Engine.simulation_trades_log dm' = Engine.simulation_trades_log dm
      \/ exists tok0 q now,
           Engine.simulation_trades_log dm'
           = Engine.simulation_trades_log dm ++ [Engine.Trade tok0 q "sell" now false]).
Proof.
  intros Hsim. cbv zeta.
  destruct (Engine.held_tokens dm !! tok) as [pos|] eqn:Hheld.
  2: { unfold Engine.evaluate_held_tokens_for_sale. rewrite Hheld. cbn. tauto. }
  destruct (Engine.trigger (Engine.evaluate_held_tokens_for_sale tok p whale env dm))
    as [reason|] eqn:Htrig.
  - destruct (evaluate_simulated_sale tok p whale env dm pos reason Hsim Hheld Htrig)
      as (_ & _ & Hlog & _).
    split; [|right; eauto].
    revert Htrig. clear Hlog. unfold Engine.evaluate_held_tokens_for_sale.
    rewrite Hheld. destruct (Py.truediv _ _) as [ratio|]; [|discriminate].
    destruct (Qle_bool _ _).
    + rewrite (execute_sale_simulated _ _ _ _ _ Hsim Hheld). cbn.
      rewrite Hsim, lookup_delete_eq. intros _. exact Hsim.
    + set (pos1 := Engine.with_max_price (Engine.updated_max_price pos p) pos).
      set (dm1 := Engine.with_held (<[tok := pos1]> (Engine.held_tokens dm)) dm).
      assert (Hheld1 : Engine.held_tokens dm1 !! tok = Some pos1)
        by apply lookup_insert_eq.
      pose proof (execute_sale_simulated tok (Engine.now env) (Engine.sell_reply env)
                    dm1 pos1 Hsim Hheld1) as Hs.
      destruct (Py.Qlt_bool _ _); [rewrite Hs; intros _; exact Hsim|].
      destruct (_ || _); [rewrite Hs; intros _; exact Hsim|discriminate].
  - revert Htrig. unfold Engine.evaluate_held_tokens_for_sale.
    rewrite Hheld. destruct (Py.truediv _ _) as [ratio|]; [|cbn; tauto].
    destruct (Qle_bool _ _).
    + destruct (Engine._execute_sale _ _ _ _) as [[dm1 sold] err].
      destruct (Engine.simulation_mode dm1); [|discriminate].
      destruct (Engine.held_tokens dm1 !! tok); [|discriminate].
      destruct (Py.Qlt_bool _ _); [|discriminate].
      now destruct (Engine.learn_creators _ _).
    + destruct (Py.Qlt_bool _ _).
      * now destruct (Engine._execute_sale _ _ _ _) as [[dm2 sold] err].
      * destruct (_ || _); [|cbn; tauto].
        now destruct (Engine._execute_sale _ _ _ _) as [[dm2 sold] err].
Qed.

(** Positions stay backed along a run of a simulating engine. *)
Lemma step_backed py_int e dm :
  Engine.simulation_mode dm = true ->
  journal_backs_positions dm ->
  Engine.simulation_mode (Engine.step py_int dm e) = true
  /\ journal_backs_positions (Engine.step py_int dm e).
Proof.
  intros Hsim Hb.
  destruct e as [tok price env|[tok p whale env]|tok now loop_time reply];
    cbn [Engine.step Engine.evaluate_call Engine.ec_token Engine.ec_price
         Engine.ec_whale_selling Engine.ec_env].
  - (* a simulated buy *)
    unfold Engine.process_new_token_candidate. rewrite Hsim. cbn [fst].
    unfold Engine.start_monitoring_token.
    assert (Hcase : forall dm',
               Engine.simulation_mode dm' = true ->
               Engine.simulation_trades_log dm'
               = Engine.simulation_trades_log dm
                 ++ [Engine.Trade tok price "buy" (Engine.clock env) false] ->
               Engine.held_tokens dm'
               = <[tok := Engine.Position price (Engine.buy_amount_sol dm) []
                            (Engine.clock env) None]> (Engine.held_tokens dm) ->
               Engine.simulation_mode dm' = true /\ journal_backs_positions dm').
    { intros dm' Hm Hlog Hheld. split; [exact Hm|].
      intros tok' pos' Hpos'. rewrite Hlog, recorded_buys_snoc. cbn.
      rewrite Hheld in Hpos'.
      destruct (decide (tok = tok')) as [->|Hne].
      - rewrite lookup_insert_eq in Hpos'. inversion Hpos'; subst.
        now rewrite lookup_insert_eq.
      - rewrite lookup_insert_ne in Hpos' by exact Hne.
        rewrite lookup_insert_ne by exact Hne. now apply Hb. }
    cbn. destruct (Engine.realtime_analyzer dm); apply Hcase; try reflexivity;
      exact Hsim.
  - (* an evaluation *)
    destruct (evaluate_simulated_journal tok p whale env dm Hsim) as [Hm Hlog].
    split; [exact Hm|].
    apply (backed_after_sell_step dm); [exact Hb|exact Hlog|].
    intros tok' pos'. apply evaluate_positions.
  - (* a forced sale *)
    unfold Engine.forced_sell, Engine._execute_sale. rewrite Hsim.
    destruct (Engine.held_tokens dm !! tok) as [pos|] eqn:Hheld; cbn.
    + split; [exact Hsim|].
      apply (backed_after_sell_step dm); [exact Hb|right; cbn; eauto|].
      cbn. intros tok' pos' Hl. apply lookup_delete_Some in Hl as [_ Hl].
      now exists pos'.
    + split; [exact Hsim|].
      apply (backed_after_sell_step dm); [exact Hb|left; reflexivity|].
      cbn. intros tok' pos' Hl. now exists pos'.
Qed.

Lemma run_backed py_int events dm :
  Engine.simulation_mode dm = true ->
  journal_backs_positions dm ->
  Engine.simulation_mode (Engine.run py_int events dm) = true
  /\ journal_backs_positions (Engine.run py_int events dm).
Proof.
  unfold Engine.run. revert dm.
  induction events as [|e events IH]; intros dm Hsim Hb; [now split|].
  cbn [fold_left].
  destruct (step_backed py_int e dm Hsim Hb) as [Hsim' Hb']. now apply IH.
Qed.

(** C10, as the code has it.  In simulation mode every sale made by the
    evaluator, whichever rule triggered it (take profit, trailing stop,
    dump signal), is journaled at the synthetic price
    [buy_price * sell_multiplier], whatever the observed price.  When the
    journal backs the position (its latest buy line for the token is at the
    buy price), the controller's aggregates gain exactly one completed
    trade, of profit [buy_price * sell_multiplier - buy_price], and it is
    counted as a win exactly when that profit is positive: with a positive
    buy price, when the multiple is above one, and not at the multiple 1.
    The journal backs every position along any run of a simulating engine
    that starts without positions. *)
Theorem simulated_sale_journaled_at_take_profit_price :
  (forall tok p whale env dm pos reason,
      Engine.simulation_mode dm = true ->
      Engine.held_tokens dm !! tok = Some pos ->
      let r := Engine.evaluate_held_tokens_for_sale tok p whale env dm in
      Engine.trigger r = Some reason ->
      let b := Engine.buy_price pos in
      let entry := Engine.Trade tok (b * Engine.sell_multiplier dm) "sell"
                     (Engine.now env) false in
      let journal := Engine.simulation_trades_log dm in
      let journal' := Engine.simulation_trades_log (Engine.after r) in
      let profit := b * Engine.sell_multiplier dm - b in
      Engine.simulation_results (Engine.after r) = Engine.simulation_results dm ++ [entry]
      /\ journal' = journal ++ [entry]
      /\ (recorded_buys journal ∅ !! tok = Some b ->
          Optimizer.trade_profits journal' ∅
          = Optimizer.trade_profits journal ∅ ++ [profit]
          /\ (0 < profit ->
              Optimizer.count_wins (Optimizer.trade_profits journal' ∅)
              = S (Optimizer.count_wins (Optimizer.trade_profits journal ∅)))
          /\ (profit <= 0 ->
              Optimizer.count_wins (Optimizer.trade_profits journal' ∅)
              = Optimizer.count_wins (Optimizer.trade_profits journal ∅))
          /\ (0 < b -> (0 < profit <-> 1 < Engine.sell_multiplier dm))))
  /\ (forall py_int events dm,
        Engine.simulation_mode dm = true ->
        Engine.held_tokens dm = ∅ ->
        Engine.simulation_mode (Engine.run py_int events dm) = true
        /\ journal_backs_positions (Engine.run py_int events dm)).
Proof.
  split.
  - intros tok p whale env dm pos reason Hsim Hheld r Hfired b entry journal journal'
      profit.
    destruct (evaluate_simulated_sale tok p whale env dm pos reason Hsim Hheld Hfired)
      as (_ & Hres & Hlog & _).
    split; [exact Hres|]. split; [exact Hlog|].
    intros Hbacked.
    assert (Hprofits : Optimizer.trade_profits journal' ∅
                       = Optimizer.trade_profits journal ∅ ++ [profit]).
    { subst journal'. unfold r. rewrite Hlog, trade_profits_snoc.
      cbn. fold journal. now rewrite Hbacked. }
    split; [exact Hprofits|]. rewrite Hprofits, count_wins_snoc.
    split; [|split].
    + intros Hwin. apply Qlt_bool_iff in Hwin. rewrite Hwin. lia.
    + intros Hloss. apply Qlt_bool_false_iff in Hloss. rewrite Hloss. lia.
    + intros Hb. subst profit. split; intros H; nra.
  - intros py_int events dm Hsim Hempty. apply run_backed; [exact Hsim|].
    intros tok pos Hpos. rewrite Hempty, lookup_empty in Hpos. discriminate.
Qed.

(** C10 fails as stated: an exit at the synthetic price is not always
    recorded as a win.  A simulating engine whose take-profit multiple is
    1.0, the lower end of the controller's range, buys at 1; at price 0.8
    the trailing stop fires, the sale is journaled at 1 * 1.0, and the
    controller counts the trade, of profit zero, as a loss. *)
Lemma break_even_exit_is_recorded_as_a_loss :
  let dm := Engine.with_params 0.1 1.0 Examples.simulated_engine in
  let bought := (Engine.process_new_token_candidate Py.int_of_digits "MINT" 1
                   Examples.oracle_down dm).1 in
  let r := Engine.evaluate_held_tokens_for_sale "MINT" 0.8 false Examples.quiet
             bought in
  let journal' := Engine.simulation_trades_log (Engine.after r) in
  Engine.trigger r = Some Engine.TrailingStop
  /\ journal'
     = [Engine.Trade "MINT" 1 "buy" (Engine.clock Examples.oracle_down) false;
        Engine.Trade "MINT" (1 * 1.0) "sell" (Engine.now Examples.quiet) false]
  /\ Optimizer.trade_profits journal' ∅ = [1 * 1.0 - 1]
  /\ Optimizer.count_wins (Optimizer.trade_profits journal' ∅) = 0%nat
  /\ (Optimizer._compute_stats Examples.pow_half journal').1.1 == 0.
Proof. cbv zeta. repeat split; vm_compute; reflexivity. Qed.

(** ** Capital *)

Lemma evaluate_capital tok p whale env dm :
  Engine.available_capital
    (Engine.after (Engine.evaluate_held_tokens_for_sale tok p whale env dm))
  = Engine.available_capital dm.
Proof.
  unfold Engine.evaluate_held_tokens_for_sale.
  destruct (Engine.held_tokens dm !! tok) as [pos|]; [|reflexivity].
  destruct (Py.truediv _ _); [|reflexivity].
  destruct (Qle_bool _ _).
  - pose proof (execute_sale_settings tok (Engine.now env) (Engine.sell_reply env) dm)
      as (_&_&_&_&_&Hc&_).
    destruct (Engine._execute_sale _ _ _ _) as [[dm1 sold] err]. cbn in Hc.
    destruct (Engine.simulation_mode dm1); [|exact Hc].
    destruct (Engine.held_tokens dm1 !! tok) as [pos1|]; [|exact Hc].
    destruct (Py.Qlt_bool _ _); [|exact Hc].
    pose proof (learn_creators_capital (Engine.creator_wallets pos1) dm1) as Hl.
    destruct (Engine.learn_creators _ _) as [dm2 err2]. cbn in Hl |- *. congruence.
  - set (dm1 := Engine.with_held _ dm).
    pose proof (execute_sale_settings tok (Engine.now env) (Engine.sell_reply env) dm1)
      as (_&_&_&_&_&Hc&_).
    destruct (Py.Qlt_bool _ _).
    + destruct (Engine._execute_sale _ _ _ _) as [[dm2 sold] err]. exact Hc.
    + destruct (_ || _); [|reflexivity].
      destruct (Engine._execute_sale _ _ _ _) as [[dm2 sold] err]. exact Hc.
Qed.

Lemma forced_sell_capital tok now loop_time reply dm :
  Engine.available_capital (Engine.forced_sell tok now loop_time reply dm)
  = Engine.available_capital dm.
Proof.
  unfold Engine.forced_sell.
  pose proof (execute_sale_settings tok now reply dm) as (_&_&_&_&_&Hc&_).
  destruct (Engine._execute_sale _ _ _ _) as [[dm1 sold] err]. exact Hc.
Qed.

Lemma candidate_capital py_int tok price env dm :
  Engine.available_capital
    (Engine.process_new_token_candidate py_int tok price env dm).1
  = Engine.available_capital dm.
Proof.
  unfold Engine.process_new_token_candidate.
  destruct (Engine.simulation_mode dm).
  { cbn. now rewrite start_monitoring_capital. }
  destruct (negb (Engine.is_exploration_phase env)).
  { destruct (Engine.detected_creators env) as [|c cs]; [reflexivity|].
    destruct (Engine.successful_creator_cache dm) as [cache|]; [|reflexivity].
    destruct (existsb _ _); [|reflexivity].
    destruct (Engine.buy_success env); [|reflexivity].
    cbn. now rewrite start_monitoring_capital. }
  pose proof (check_honeypot_capital tok (Engine.clock env) (Engine.oracle env) dm)
    as [Hc _].
  destruct (Engine._check_token_honeypot_and_taxes _ _ _ _) as [info dm1]. cbn in Hc.
  destruct (_ || _); [exact Hc|].
  destruct (Py.Qlt_bool _ _); [exact Hc|].
  destruct (bool_decide _); [exact Hc|].
  destruct (Engine.safety_filters _ _ _); [exact Hc|].
  destruct (Engine.buy_success env); [|exact Hc].
  cbn. now rewrite start_monitoring_capital.
Qed.

Lemma run_capital py_int events dm :
  Engine.available_capital (Engine.run py_int events dm) = Engine.available_capital dm.
Proof.
  unfold Engine.run.
  revert dm. induction events as [|e events IH]; intros dm; [reflexivity|].
  cbn [fold_left]. rewrite IH.
  destruct e as [tok price env|[tok p whale env]|tok now loop_time reply]; cbn.
  - apply candidate_capital.
  - apply evaluate_capital.
  - apply forced_sell_capital.
Qed.

Lemma bought_needs_capital py_int tok price env dm :
  (Engine.process_new_token_candidate py_int tok price env dm).2 = Engine.Bought ->
  Engine.buy_amount_sol dm <= Engine.available_capital dm.
Proof.
  unfold Engine.process_new_token_candidate.
  destruct (Engine.simulation_mode dm); [discriminate|].
  destruct (negb (Engine.is_exploration_phase env)).
  { destruct (Engine.detected_creators env) as [|c cs]; [discriminate|].
    destruct (Engine.successful_creator_cache dm) as [cache|]; [|discriminate].
    destruct (existsb _ _); [|discriminate].
    destruct (Engine.buy_success env); discriminate. }
  pose proof (check_honeypot_capital tok (Engine.clock env) (Engine.oracle env) dm)
    as [Hc Hb].
  destruct (Engine._check_token_honeypot_and_taxes _ _ _ _) as [info dm1].
  cbn in Hc, Hb.
  destruct (_ || _); [discriminate|].
  destruct (Py.Qlt_bool _ _) eqn:Ecap; [discriminate|].
  apply Qlt_bool_false_iff in Ecap. intros _. now rewrite <- Hc, <- Hb.
Qed.

(** C1, as the code has it.  [available_capital] is the amount given to
    [set_initial_capital] and nothing else writes it while the engine
    trades: no candidate (bought or not), no evaluation (selling or
    not) and no forced sale changes it.  It only gates the real-mode buys
    that go through the safety checks, which need
    [available_capital >= buy_amount_sol]; and it is non-negative
    throughout a run when the configured amount is. *)
Theorem capital_is_the_configured_amount :
  (forall amount dm,
      Engine.available_capital (Engine.set_initial_capital amount dm) = amount)
  /\ (forall py_int events dm,
        Engine.available_capital (Engine.run py_int events dm)
        = Engine.available_capital dm)
  /\ (forall py_int tok price env dm,
        (Engine.process_new_token_candidate py_int tok price env dm).2 = Engine.Bought ->
        Engine.buy_amount_sol dm <= Engine.available_capital dm)
  /\ (forall py_int amount events dm,
        0 <= amount ->
        0 <= Engine.available_capital
               (Engine.run py_int events (Engine.set_initial_capital amount dm))).
Proof.
  split; [reflexivity|].
  split; [exact run_capital|].
  split; [exact bought_needs_capital|].
  intros py_int amount events dm H. now rewrite run_capital.
Qed.

(** C1 fails as stated: a real-mode buy of 0.1 SOL that passes every check
    is executed and leaves [available_capital] at 1 instead of 0.9. *)
Lemma buy_leaves_capital_untouched :
  let r := Engine.process_new_token_candidate Py.int_of_digits "MINT" 1
             Examples.oracle_down Examples.real_engine in
  r.2 = Engine.Bought
  /\ Engine.buy_amount_sol Examples.real_engine == 0.1
  /\ Engine.available_capital Examples.real_engine == 1
  /\ Engine.available_capital r.1 == 1
  /\ ~ Engine.available_capital r.1
       == Engine.available_capital Examples.real_engine
          - Engine.buy_amount_sol Examples.real_engine.
Proof.
  cbv zeta. split; [vm_compute; reflexivity|].
  repeat split; try (vm_compute; reflexivity).
  vm_compute. discriminate.
Qed.

(** ** The safety probe *)

(** The oracle call failed: the request raised, the status is not 200, or
    the body could not be decoded. *)
Definition oracle_failed (reply : Engine.oracle_reply) : Prop :=
  match reply with
  | Engine.OracleRaises => True
  | Engine.OracleStatus status body => status <> 200%Z \/ body = None
  end.

(** No answer younger than 300 s is cached for [tok]. *)
Definition cache_miss (tok : string) (now : Q) (dm : Engine.t) : Prop :=
  match Engine.honeypot_cache dm !! tok with
  | Some e => 300 <= now - Engine.ce_timestamp e
  | None => True
  end.

Lemma oracle_failure_gives_default tok now reply dm :
  oracle_failed reply ->
  cache_miss tok now dm ->
  (Engine._check_token_honeypot_and_taxes tok now reply dm).1
  = Engine.default_honeypot_info.
Proof.
  intros Hf Hm. unfold Engine._check_token_honeypot_and_taxes, cache_miss in *.
  assert (Hres : match reply with
                 | Engine.OracleStatus 200%Z (Some data) => Engine.honeypot_info_of_json data
                 | _ => Engine.default_honeypot_info
                 end = Engine.default_honeypot_info).
  { destruct reply as [|status body]; [reflexivity|].
    destruct Hf as [Hs| ->].
    - destruct status as [|[]|]; try reflexivity; try (destruct body; reflexivity).
      all: repeat (match goal with
                   | p : positive |- _ => destruct p; try reflexivity;
                                          try (destruct body; reflexivity)
                   end).
      contradiction.
    - destruct status as [|[]|]; try reflexivity.
      all: repeat (match goal with
                   | p : positive |- _ => destruct p; try reflexivity
                   end). }
  destruct (Engine.honeypot_cache dm !! tok) as [e|]; cbn; [|exact Hres].
  apply Qlt_bool_false_iff in Hm. rewrite Hm. exact Hres.
Qed.

Lemma default_info_passes (has_liquidity is_sellable : bool) :
  Engine.safety_filters Engine.default_honeypot_info has_liquidity is_sellable = None
  <-> has_liquidity = true /\ is_sellable = true.
Proof.
  unfold Engine.safety_filters, Engine.default_honeypot_info. cbn.
  destruct has_liquidity, is_sellable; cbn; split; try tauto; try discriminate.
  all: intros [? ?]; discriminate.
Qed.

Lemma no_liquidity_rejected info is_sellable :
  Engine.safety_filters info false is_sellable <> None.
Proof.
  unfold Engine.safety_filters.
  destruct (Engine.is_honeypot info); [discriminate|].
  destruct (Engine.high_taxes _); [discriminate|].
  destruct (_ && _); [discriminate|].
  destruct (Engine.antiBot info); discriminate.
Qed.

Lemma not_sellable_rejected info has_liquidity :
  Engine.safety_filters info has_liquidity false <> None.
Proof.
  unfold Engine.safety_filters.
  destruct (Engine.is_honeypot info); [discriminate|].
  destruct (Engine.high_taxes _); [discriminate|].
  destruct (_ && _); [discriminate|].
  destruct (Engine.antiBot info); [discriminate|].
  destruct has_liquidity; discriminate.
Qed.

(** With the oracle down and everything else in order, the candidate is
    bought. *)
Lemma oracle_failure_buys py_int tok price env dm :
  Engine.simulation_mode dm = false ->
  Engine.is_exploration_phase env = true ->
  oracle_failed (Engine.oracle env) ->
  cache_miss tok (Engine.clock env) dm ->
  Engine._check_token_liquidity py_int (Engine.liquidity_quote env) = true ->
  Engine._check_token_sellable (Engine.sell_quote env) = true ->
  Engine.balance_ok env = true ->
  Engine.buy_amount_sol dm + 0.001 <= Engine.balance_sol env ->
  Engine.buy_amount_sol dm <= Engine.available_capital dm ->
  Engine.held_tokens dm !! tok = None ->
  Engine.buy_success env = true ->
  (Engine.process_new_token_candidate py_int tok price env dm).2 = Engine.Bought.
Proof.
  intros Hsim Hexp Hf Hm Hliq Hsell Hok Hbal Hcap Hheld Hbuy.
  unfold Engine.process_new_token_candidate. rewrite Hsim, Hexp. cbn [negb].
  pose proof (oracle_failure_gives_default tok _ _ dm Hf Hm) as Hd.
  pose proof (check_honeypot_capital tok (Engine.clock env) (Engine.oracle env) dm)
    as [Hc Hb].
  pose proof (check_honeypot_held tok (Engine.clock env) (Engine.oracle env) dm) as Hh.
  destruct (Engine._check_token_honeypot_and_taxes _ _ _ _) as [info dm1].
  cbn in Hd, Hc, Hb, Hh. subst info.
  rewrite Hok, Hb, Hc, Hh, Hliq, Hsell, Hbuy. cbn [negb orb].
  apply Qlt_bool_false_iff in Hbal. rewrite Hbal.
  apply Qlt_bool_false_iff in Hcap. rewrite Hcap.
  rewrite bool_decide_eq_false_2.
  2: { rewrite Hheld. intros [x Hx]. discriminate. }
  assert (Hp : Engine.safety_filters Engine.default_honeypot_info true true = None)
    by (apply default_info_passes; now split).
  rewrite Hp. reflexivity.
Qed.

(** C3, as the code has it.  The probe is total.  A failed liquidity or
    sellability quote counts as a failed check, and a failed check rejects
    the candidate.  A failed oracle call (unreachable, status other than
    200, undecodable body) with no fresh cached answer gives the default
    report [is_honeypot = False, taxes = {}, marketcap = 0,
    antiBot = False], which passes the honeypot, tax, market-cap and
    anti-bot rules: with the two quotes, the balance, the capital and the
    buy in order, the candidate is bought. *)
Theorem oracle_failure_is_permissive :
  (forall tok now reply dm,
      oracle_failed reply -> cache_miss tok now dm ->
      (Engine._check_token_honeypot_and_taxes tok now reply dm).1
      = Engine.default_honeypot_info)
  /\ (forall has_liquidity is_sellable,
        Engine.safety_filters Engine.default_honeypot_info has_liquidity is_sellable = None
        <-> has_liquidity = true /\ is_sellable = true)
  /\ (forall py_int, Engine._check_token_liquidity py_int Engine.QuoteRaises = false)
  /\ Engine._check_token_sellable Engine.QuoteRaises = false
  /\ (forall info is_sellable, Engine.safety_filters info false is_sellable <> None)
  /\ (forall info has_liquidity, Engine.safety_filters info has_liquidity false <> None)
  /\ (forall py_int tok price env dm,
        Engine.simulation_mode dm = false ->
        Engine.is_exploration_phase env = true ->
        oracle_failed (Engine.oracle env) ->
        cache_miss tok (Engine.clock env) dm ->
        Engine._check_token_liquidity py_int (Engine.liquidity_quote env) = true ->
        Engine._check_token_sellable (Engine.sell_quote env) = true ->
        Engine.balance_ok env = true ->
        Engine.buy_amount_sol dm + 0.001 <= Engine.balance_sol env ->
        Engine.buy_amount_sol dm <= Engine.available_capital dm ->
        Engine.held_tokens dm !! tok = None ->
        Engine.buy_success env = true ->
        (Engine.process_new_token_candidate py_int tok price env dm).2 = Engine.Bought).
Proof.
  split; [exact oracle_failure_gives_default|].
  split; [exact default_info_passes|].
  split; [reflexivity|].
  split; [reflexivity|].
  split; [exact no_liquidity_rejected|].
  split; [exact not_sellable_rejected|].
  exact oracle_failure_buys.
Qed.

(** C3 fails as stated: with the oracle unreachable the report is not a
    rejecting one, and the token is bought. *)
Lemma oracle_down_token_is_bought :
  let probe := Engine._check_token_honeypot_and_taxes "MINT" 1010
                 (Engine.oracle Examples.oracle_down) Examples.real_engine in
  let r := Engine.process_new_token_candidate Py.int_of_digits "MINT" 1
             Examples.oracle_down Examples.real_engine in
  Engine.oracle Examples.oracle_down = Engine.OracleRaises
  /\ Engine.is_honeypot probe.1 = false
  /\ Engine.antiBot probe.1 = false
  /\ Engine.safety_filters probe.1 true true = None
  /\ r.2 = Engine.Bought
  /\ is_Some (Engine.held_tokens r.1 !! "MINT").
Proof.
  cbv zeta. repeat split; try (vm_compute; reflexivity).
  vm_compute. eexists. reflexivity.
Qed.

(** ** Parameter writes *)

Definition buy_in_range (b : Q) : Prop := 0.01 <= b /\ b <= 2.0.
Definition sell_in_range (s : Q) : Prop := 1.0 <= s /\ s <= 2.5.

(** Case analysis on every float comparison in the goal. *)
Ltac split_comparisons :=
  repeat match goal with
         | |- context [Py.Qlt_bool ?a ?b] =>
             let E := fresh "E" in
             destruct (Py.Qlt_bool a b) eqn:E;
             [apply Qlt_bool_iff in E | apply Qlt_bool_false_iff in E]
         end.

Ltac bounds := unfold Py.max, Py.min; split_comparisons; cbn in *; lra.

Lemma rotation_bounds env st :
  let st' := Optimizer.profile_rotation env st in
  (0.01 <= Optimizer.buy_of st -> 0.01 <= Optimizer.buy_of st')
  /\ (sell_in_range (Optimizer.sell_of st) -> sell_in_range (Optimizer.sell_of st')).
Proof.
  cbv zeta. unfold Optimizer.profile_rotation, sell_in_range.
  destruct (Py.Qlt_bool (Optimizer.draw_profile env) 0.15); [|tauto].
  cbn -[Py.max Py.min Nat.modulo nth].
  split; intros H.
  - apply py_max_ge_l.
  - split.
    + apply py_min_ge; [lra|apply py_max_ge_l].
    + apply py_min_le_l.
Qed.

Lemma classic_bounds env st :
  buy_in_range (Optimizer.buy_of st) ->
  sell_in_range (Optimizer.sell_of st) ->
  buy_in_range (Optimizer.buy_of (Optimizer.classic_adjustment env st))
  /\ sell_in_range (Optimizer.sell_of (Optimizer.classic_adjustment env st)).
Proof.
  unfold buy_in_range, sell_in_range, Optimizer.classic_adjustment.
  unfold Optimizer.buy_of, Optimizer.sell_of.
  intros [Hb1 Hb2] [Hs1 Hs2].
  destruct (Py.Qlt_bool 0.2 _).
  { cbn -[Py.max Py.min]. bounds. }
  destruct (Py.Qlt_bool _ 0.4).
  { cbn -[Py.max Py.min]. bounds. }
  destruct (_ && _).
  { cbn -[Py.max Py.min]. bounds. }
  tauto.
Qed.

Lemma classic_lower_bounds env st :
  let st' := Optimizer.classic_adjustment env st in
  (0.01 <= Optimizer.buy_of st -> 0.01 <= Optimizer.buy_of st')
  /\ (sell_in_range (Optimizer.sell_of st) -> sell_in_range (Optimizer.sell_of st')).
Proof.
  cbv zeta. unfold sell_in_range, Optimizer.classic_adjustment.
  unfold Optimizer.buy_of, Optimizer.sell_of.
  destruct (Py.Qlt_bool 0.2 _).
  { cbn -[Py.max Py.min]. split; intros H; bounds. }
  destruct (Py.Qlt_bool _ 0.4).
  { cbn -[Py.max Py.min]. split; intros H; bounds. }
  destruct (_ && _).
  { cbn -[Py.max Py.min]. split; intros H; bounds. }
  tauto.
Qed.

Lemma mutation_bounds env st :
  let st' := Optimizer.random_mutation env st in
  (0.01 <= Optimizer.buy_of st -> 0.01 <= Optimizer.buy_of st')
  /\ Optimizer.sell_of st' = Optimizer.sell_of st.
Proof.
  cbv zeta. unfold Optimizer.random_mutation.
  destruct (Py.Qlt_bool (Optimizer.draw_mutation env) 0.1); [|tauto].
  cbn -[Py.max]. split; [intros _; apply py_max_ge_l | reflexivity].
Qed.

Lemma recovery_bounds env st :
  let st' := Optimizer.recovery env st in
  (0.01 <= Optimizer.buy_of st -> 0.01 <= Optimizer.buy_of st')
  /\ (buy_in_range (Optimizer.buy_of st) -> buy_in_range (Optimizer.buy_of st'))
  /\ (sell_in_range (Optimizer.sell_of st) -> sell_in_range (Optimizer.sell_of st')).
Proof.
  cbv zeta. unfold buy_in_range, sell_in_range, Optimizer.recovery.
  unfold Optimizer.buy_of, Optimizer.sell_of.
  destruct (_ && _); [|tauto].
  cbn -[Py.max Py.min]. repeat split; intros; bounds.
Qed.

Lemma set_param_unknown_is_inert key value dm dm' :
  Engine.set_param key value dm = Engine.UnknownParam dm' -> dm' = dm.
Proof.
  unfold Engine.set_param.
  repeat match goal with
         | |- context [if ?c then _ else _] => destruct c; try discriminate
         | |- context [match ?c with Some _ => _ | None => _ end] =>
             destruct c; try discriminate
         end.
  all: intros H; now inversion H.
Qed.

(** C4, as the code has it.  [set_param] checks no range: any value given
    for [buy_amount_sol] or [sell_multiplier] is written, and only a key
    that names no attribute is refused, without side effect.  In the
    controller, every mutation keeps [buy_amount_sol >= 0.01] and
    [sell_multiplier] in [1.0, 2.5] when they hold before it; the drawdown
    guard, the winrate adjustment and the recovery also keep
    [buy_amount_sol <= 2.0]. *)
Theorem parameter_writes :
  (forall value dm,
      Engine.set_param "buy_amount_sol" value dm
      = Engine.Updated (Engine.with_params value (Engine.sell_multiplier dm) dm))
  /\ (forall value dm,
        Engine.set_param "sell_multiplier" value dm
        = Engine.Updated (Engine.with_params (Engine.buy_amount_sol dm) value dm))
  /\ (forall key value dm dm',
        Engine.set_param key value dm = Engine.UnknownParam dm' -> dm' = dm)
  /\ (forall env st,
        let st' := Optimizer.profile_rotation env st in
        (0.01 <= Optimizer.buy_of st -> 0.01 <= Optimizer.buy_of st')
        /\ (sell_in_range (Optimizer.sell_of st) -> sell_in_range (Optimizer.sell_of st')))
  /\ (forall env st,
        let st' := Optimizer.classic_adjustment env st in
        (0.01 <= Optimizer.buy_of st -> 0.01 <= Optimizer.buy_of st')
        /\ (sell_in_range (Optimizer.sell_of st) -> sell_in_range (Optimizer.sell_of st'))
        /\ (buy_in_range (Optimizer.buy_of st) -> sell_in_range (Optimizer.sell_of st) ->
            buy_in_range (Optimizer.buy_of st')))
  /\ (forall env st,
        let st' := Optimizer.random_mutation env st in
        (0.01 <= Optimizer.buy_of st -> 0.01 <= Optimizer.buy_of st')
        /\ Optimizer.sell_of st' = Optimizer.sell_of st)
  /\ (forall env st,
        let st' := Optimizer.recovery env st in
        (0.01 <= Optimizer.buy_of st -> 0.01 <= Optimizer.buy_of st')
        /\ (buy_in_range (Optimizer.buy_of st) -> buy_in_range (Optimizer.buy_of st'))
        /\ (sell_in_range (Optimizer.sell_of st) -> sell_in_range (Optimizer.sell_of st'))).
Proof.
  split; [reflexivity|].
  split; [reflexivity|].
  split; [exact set_param_unknown_is_inert|].
  split; [exact rotation_bounds|].
  split.
  { intros env st st'. subst st'.
    destruct (classic_lower_bounds env st) as [H1 H2].
    split; [exact H1|]. split; [exact H2|].
    intros Hb Hs. exact (proj1 (classic_bounds env st Hb Hs)). }
  split; [exact mutation_bounds|].
  exact recovery_bounds.
Qed.

(** C4 fails as stated: [set_param] accepts 100 for [buy_amount_sol] and
    writes it; and a profile rotation to the aggressive profile takes a buy
    amount of 2.0 to 2.4. *)
Lemma out_of_range_writes_accepted :
  (exists dm',
      Engine.set_param "buy_amount_sol" 100 Examples.real_engine = Engine.Updated dm'
      /\ Engine.buy_amount_sol dm' == 100
      /\ ~ buy_in_range (Engine.buy_amount_sol dm'))
  /\ (let st := Optimizer.TickState Examples.engine_at_two
                  Examples.rotated_optimizer [] in
      let st' := Optimizer.profile_rotation Examples.lucky_draws st in
      buy_in_range (Optimizer.buy_of st)
      /\ Optimizer.buy_of st' == 2.4
      /\ ~ buy_in_range (Optimizer.buy_of st')).
Proof.
  split.
  - eexists. split; [reflexivity|]. split; [reflexivity|].
    unfold buy_in_range. cbn. lra.
  - cbv zeta. split; [unfold buy_in_range; cbn; lra|].
    split; [vm_compute; reflexivity|].
    intros [_ H]. revert H. vm_compute. intros H. now apply H.
Qed.

(** ** Which mutations a tick applies *)

(** The actions journaled between two states of a tick. *)
Definition journals (st st' : Optimizer.tick_state) (actions : list string) : Prop :=
  exists added,
    Optimizer.decisions st' = Optimizer.decisions st ++ added
    /\ map Optimizer.d_action added = actions.

Lemma journals_nothing st st' :
  Optimizer.decisions st' = Optimizer.decisions st -> journals st st' [].
Proof. intros H. exists []. now rewrite app_nil_r. Qed.

Lemma journals_one st st1 now action old new :
  Optimizer.decisions st1 = Optimizer.decisions st ->
  journals st (Optimizer._log_decision now action old new st1) [action].
Proof. intros H. eexists. cbn. rewrite H. split; reflexivity. Qed.

Lemma journals_trans st1 st2 st3 l1 l2 :
  journals st1 st2 l1 -> journals st2 st3 l2 -> journals st1 st3 (l1 ++ l2).
Proof.
  intros (a1 & H1 & <-) (a2 & H2 & <-). exists (a1 ++ a2).
  rewrite H2, H1, <- app_assoc, map_app. now split.
Qed.

Lemma rotation_journals env st :
  journals st (Optimizer.profile_rotation env st) []
  \/ journals st (Optimizer.profile_rotation env st) ["switch_profile"%string].
Proof.
  unfold Optimizer.profile_rotation.
  destruct (Py.Qlt_bool _ _); [right|left; now apply journals_nothing].
  now apply journals_one.
Qed.

Lemma classic_journals env st :
  journals st (Optimizer.classic_adjustment env st) []
  \/ journals st (Optimizer.classic_adjustment env st) ["reduce_risk"%string]
  \/ journals st (Optimizer.classic_adjustment env st) ["adjust_buy_amount"%string]
  \/ journals st (Optimizer.classic_adjustment env st) ["increase_risk"%string].
Proof.
  unfold Optimizer.classic_adjustment.
  destruct (Py.Qlt_bool 0.2 _).
  { right. left. now apply journals_one. }
  destruct (Py.Qlt_bool _ 0.4).
  { right. right. left. now apply journals_one. }
  destruct (_ && _).
  { right. right. right. now apply journals_one. }
  left. now apply journals_nothing.
Qed.

Lemma mutation_journals env st :
  journals st (Optimizer.random_mutation env st) []
  \/ journals st (Optimizer.random_mutation env st) ["auto_tune"%string].
Proof.
  unfold Optimizer.random_mutation.
  destruct (Py.Qlt_bool _ _); [right|left; now apply journals_nothing].
  now apply journals_one.
Qed.

Lemma rollback_journals env st :
  journals st (Optimizer.rollback env st) []
  \/ journals st (Optimizer.rollback env st) ["rollback_to_best"%string].
Proof.
  unfold Optimizer.rollback.
  destruct (Optimizer.best_params _); [|left; now apply journals_nothing].
  destruct (_ && _); [right|left; now apply journals_nothing].
  now apply journals_one.
Qed.

Lemma recovery_journals env st :
  journals st (Optimizer.recovery env st) []
  \/ journals st (Optimizer.recovery env st) ["recovery_mode"%string].
Proof.
  unfold Optimizer.recovery.
  destruct (_ && _); [right|left; now apply journals_nothing].
  now apply journals_one.
Qed.

(** How often an action occurs among the journaled ones. *)
Definition applied (action : string) (actions : list string) : nat :=
  length (List.filter (String.eqb action) actions).

(** C7, as the code has it.  In one tick the drawdown guard and the two
    winrate adjustments exclude one another (at most one of them is
    applied), and the profile rotation is applied at most once; the
    rotation is an independent test and may come with any of them. *)
Theorem classic_adjustments_exclusive pow_half env st :
  exists actions,
    journals st (Optimizer.analyze_and_adjust pow_half env st) actions
    /\ (applied "reduce_risk" actions + applied "adjust_buy_amount" actions
        + applied "increase_risk" actions <= 1)%nat
    /\ (applied "switch_profile" actions <= 1)%nat.
Proof.
  unfold Optimizer.analyze_and_adjust, Optimizer._check_and_apply_rollback.
  set (st0 := Optimizer.update_freeze (Optimizer.observe pow_half env st)).
  assert (H0 : journals st st0 []).
  { apply journals_nothing. subst st0. unfold Optimizer.update_freeze, Optimizer.observe.
    now destruct (Optimizer._compute_stats pow_half _) as [[w a] v]. }
  set (stm := Optimizer.mutations env st0).
  assert (Hm : exists l, journals st0 stm l
                         /\ (applied "reduce_risk" l + applied "adjust_buy_amount" l
                             + applied "increase_risk" l <= 1)%nat
                         /\ (applied "switch_profile" l <= 1)%nat).
  { subst stm. unfold Optimizer.mutations.
    destruct (Optimizer.freeze _).
    { exists []. split; [now apply journals_nothing|]. cbn. repeat split; lia. }
    set (sa := Optimizer.profile_rotation env st0).
    set (sb := Optimizer.classic_adjustment env sa).
    destruct (rotation_journals env st0) as [Ha|Ha];
      destruct (classic_journals env sa) as [Hb|[Hb|[Hb|Hb]]];
      destruct (mutation_journals env sb) as [Hc|Hc];
      eexists; (split; [exact (journals_trans _ _ _ _ _ (journals_trans _ _ _ _ _ Ha Hb) Hc)|]);
      cbn; repeat split; lia. }
  destruct Hm as (l & Hl & Hc1 & Hc2).
  unfold applied in Hc1, Hc2.
  remember (length (List.filter (String.eqb "reduce_risk") l)) as n1 eqn:Hn1.
  remember (length (List.filter (String.eqb "adjust_buy_amount") l)) as n2 eqn:Hn2.
  remember (length (List.filter (String.eqb "increase_risk") l)) as n3 eqn:Hn3.
  remember (length (List.filter (String.eqb "switch_profile") l)) as n4 eqn:Hn4.
  set (sr := Optimizer.rollback env stm).
  set (ss := Optimizer.TickState (Optimizer.engine sr)
               (Optimizer.update_streaks (Optimizer.optimizer sr))
               (Optimizer.decisions sr)).
  set (sv := Optimizer.recovery env ss).
  assert (Hss : journals sr ss []) by now apply journals_nothing.
  assert (Hend : journals sv
                   (Optimizer.TickState (Optimizer.engine sv)
                      (Optimizer.set_last_profit (Optimizer.optimizer sv))
                      (Optimizer.decisions sv)) []) by now apply journals_nothing.
  destruct (rollback_journals env stm) as [Hr|Hr];
    destruct (recovery_journals env ss) as [Hv|Hv];
    eexists;
    (split;
     [exact (journals_trans _ _ _ _ _
               (journals_trans _ _ _ _ _
                  (journals_trans _ _ _ _ _
                     (journals_trans _ _ _ _ _
                        (journals_trans _ _ _ _ _ H0 Hl) Hr) Hss) Hv) Hend)|]).
  all: cbn [app]; rewrite ?app_nil_r; unfold applied;
    rewrite ?List.filter_app, ?length_app, <- ?Hn1, <- ?Hn2, <- ?Hn3, <- ?Hn4;
    cbn; split; lia.
Qed.

(** C7 fails as stated: on a journal whose drawdown is one half, a tick
    that is not frozen and draws 0.1 for the rotation applies the profile
    rotation and the drawdown guard, one after the other. *)
Lemma rotation_and_drawdown_guard_together :
  let st := Optimizer.TickState Examples.engine_with_journal
              Examples.fresh_optimizer [] in
  let st' := Optimizer.analyze_and_adjust Examples.pow_half Examples.lucky_draws st in
  Optimizer.freeze (Optimizer.optimizer st) = false
  /\ Optimizer.freeze (Optimizer.optimizer st') = false
  /\ Optimizer.drawdown (Optimizer.optimizer st') == 0.5
  /\ map Optimizer.d_action (Optimizer.decisions st')
     = ["switch_profile"; "reduce_risk"]%string
  /\ Optimizer.buy_of st == 0.1 /\ Optimizer.sell_of st == 2.0
  /\ Optimizer.buy_of st' == 0.064 /\ Optimizer.sell_of st' == 2.2.
Proof.
  cbv zeta. repeat split; vm_compute; reflexivity.
Qed.

(** ** Pair discovery *)

Lemma string_prefix_spec (p s : string) :
  String.prefix p s = true <-> exists rest, s = String.append p rest.
Proof.
  revert s. induction p as [|c p IH]; intros s.
  - split; [intros _; now exists s | now destruct s].
  - destruct s as [|d s]; cbn.
    + split; [discriminate | intros [rest H]; discriminate].
    + destruct (Ascii.ascii_dec c d) as [->|Hne].
      * rewrite IH. split; intros [rest H]; exists rest.
        -- now rewrite H.
        -- now inversion H.
      * split; [discriminate | intros [rest H]]. inversion H. congruence.
Qed.

(** [contains needle hay] is the substring test. *)
Lemma contains_spec (needle hay : string) :
  Scanner.contains needle hay = true
  <-> exists before after, hay = String.append before (String.append needle after).
Proof.
  induction hay as [|c hay IH]; cbn [Scanner.contains]; rewrite orb_true_iff.
  - rewrite string_prefix_spec. split.
    + intros [[rest H]|H]; [|discriminate]. now exists ""%string, rest.
    + intros (before & after & H). left.
      destruct before; [now exists after | discriminate].
  - rewrite string_prefix_spec, IH. split.
    + intros [[rest H]|(before & after & H)].
      * now exists ""%string, rest.
      * exists (String c before), after. now rewrite H.
    + intros (before & after & H). destruct before as [|d before].
      * left. now exists after.
      * right. exists before, after. now inversion H.
Qed.

Lemma startswith_spec (data prefix : list byte) :
  Scanner.startswith data prefix = true <-> exists rest, data = prefix ++ rest.
Proof.
  revert data. induction prefix as [|p prefix IH]; intros data.
  - split; [intros _; now exists data | now destruct data].
  - destruct data as [|d data]; cbn.
    + split; [discriminate | intros [rest H]; discriminate].
    + rewrite andb_true_iff, IH. split.
      * intros [Hb [rest ->]]. apply Byte.byte_dec_bl in Hb. subst. now exists rest.
      * intros [rest H]. inversion H; subst.
        split; [now apply Byte.byte_dec_lb | now exists rest].
Qed.

Definition mentions (needle line : string) : Prop :=
  exists before after, line = String.append before (String.append needle after).

Lemma on_message_spec splitlines msg sig :
  Scanner.on_message splitlines msg = Some sig
  <-> exists v,
        Scanner.value msg = Some v
        /\ Scanner.method msg = Some "logsNotification"%string
        /\ (exists line, In line (Scanner.log_lines splitlines (Scanner.logs v))
                         /\ mentions "Instruction: InitializeAccount" line)
        /\ Scanner.signature v = Some sig
        /\ sig <> ""%string.
Proof.
  unfold Scanner.on_message, Scanner.mentions_initialize_account, mentions.
  split.
  - destruct (Scanner.value msg) as [v|]; [|discriminate].
    destruct (Scanner.method msg) as [m|]; [|discriminate].
    destruct (String.eqb_spec m "logsNotification") as [->|]; [|discriminate].
    destruct (existsb _ _) eqn:Hlogs; [|discriminate].
    destruct (Scanner.signature v) as [s|] eqn:Hsig; [|discriminate].
    destruct s as [|c s]; [discriminate|]. cbn. intros H. inversion H; subst.
    exists v. split; [reflexivity|]. split; [reflexivity|].
    split; [|split; [exact Hsig|discriminate]].
    apply existsb_exists in Hlogs as (line & Hin & Hc).
    exists line. split; [exact Hin|]. now apply contains_spec.
  - intros (v & -> & -> & (line & Hin & Hc) & Hsig & Hne).
    rewrite String.eqb_refl.
    assert (Hlogs : existsb (Scanner.contains "Instruction: InitializeAccount")
                      (Scanner.log_lines splitlines (Scanner.logs v)) = true).
    { apply existsb_exists. exists line. split; [exact Hin|]. now apply contains_spec. }
    rewrite Hlogs, Hsig. destruct sig; [contradiction|reflexivity].
Qed.

Lemma scan_forward_spec b58decode ixs mint :
  Scanner.scan_instructions b58decode ixs = Scanner.Forward mint ->
  exists ix encoded bytes token0 token1,
    In ix ixs
    /\ Scanner.program_id ix = Scanner.RAYDIUM_LP_V4
    /\ Scanner.data ix = Some encoded
    /\ b58decode encoded = Some bytes
    /\ (exists rest, bytes = Scanner.initialize2_discriminant ++ rest)
    /\ Scanner.accounts ix !! 8%nat = Some token0
    /\ Scanner.accounts ix !! 9%nat = Some token1
    /\ ((token0 = Scanner.SOL_MINT /\ mint = token1)
        \/ (token0 <> Scanner.SOL_MINT /\ token1 = Scanner.SOL_MINT /\ mint = token0)).
Proof.
  induction ixs as [|ix rest IH]; cbn [Scanner.scan_instructions]; [discriminate|].
  destruct (Scanner.data ix) as [encoded|] eqn:Hdata; [|discriminate].
  destruct (b58decode encoded) as [bytes|] eqn:Hdec; [|discriminate].
  destruct (String.eqb_spec (Scanner.program_id ix) Scanner.RAYDIUM_LP_V4) as [Hprog|].
  2: { cbn [andb]. intros H. destruct (IH H) as (ix' & H').
       exists ix'. destruct H' as (e & b & t0 & t1 & Hin & H').
       exists e, b, t0, t1. split; [now right|exact H']. }
  destruct (Scanner.startswith bytes Scanner.initialize2_discriminant) eqn:Hstart.
  2: { cbn [andb]. intros H. destruct (IH H) as (ix' & H').
       exists ix'. destruct H' as (e & b & t0 & t1 & Hin & H').
       exists e, b, t0, t1. split; [now right|exact H']. }
  cbn [andb].
  destruct (Scanner.accounts ix !! 8%nat) as [token0|] eqn:H8; [|discriminate].
  destruct (Scanner.accounts ix !! 9%nat) as [token1|] eqn:H9; [|discriminate].
  intros H. exists ix, encoded, bytes, token0, token1.
  split; [now left|]. split; [exact Hprog|]. split; [exact Hdata|].
  split; [exact Hdec|]. split; [now apply startswith_spec|].
  split; [exact H8|]. split; [exact H9|].
  destruct (String.eqb_spec token0 Scanner.SOL_MINT) as [H0|H0].
  - left. split; [exact H0|]. now inversion H.
  - destruct (String.eqb_spec token1 Scanner.SOL_MINT) as [H1|H1]; [|discriminate].
    right. repeat split; [exact H0|exact H1|now inversion H].
Qed.

(** C8.  For a log notification that carries a signature, the signature
    is handed to mint extraction exactly when one of the log lines
    contains [Instruction: InitializeAccount], and nothing is handed over
    otherwise; what is handed over is always the signature of a log
    notification, so that a message of another method, or one without a
    signature, is dropped.  A mint is forwarded to the decision engine only
    when the fetched transaction lists the liquidity-pool program among its
    account keys and has a top-level instruction of that program whose
    decoded data starts with the [initialize2] discriminant; the forwarded
    mint is then one of the two mints at offsets 8 and 9 of that
    instruction, the other one being the base mint, and it is not the base
    mint itself when the pool pairs two different mints. *)
Theorem pair_discovery_filter :
  (forall splitlines v sig,
      Scanner.signature v = Some sig ->
      sig <> ""%string ->
      let msg := Scanner.Message (Some "logsNotification"%string) (Some v) in
      let mentioned :=
        exists line, In line (Scanner.log_lines splitlines (Scanner.logs v))
                     /\ mentions "Instruction: InitializeAccount" line in
      (Scanner.on_message splitlines msg = Some sig <-> mentioned)
      /\ (~ mentioned -> Scanner.on_message splitlines msg = None))
  /\ (forall splitlines msg sig,
        Scanner.on_message splitlines msg = Some sig ->
        Scanner.method msg = Some "logsNotification"%string
        /\ exists v, Scanner.value msg = Some v /\ Scanner.signature v = Some sig)
  /\ (forall signature_ok b58decode sig reply mint price,
        Scanner.forwarded signature_ok b58decode sig reply = Some (mint, price) ->
        exists tx ix encoded bytes token0 token1,
          reply = Scanner.FetchTransaction tx
          /\ In Scanner.RAYDIUM_LP_V4 (Scanner.account_keys tx)
          /\ In ix (Scanner.instructions tx)
          /\ Scanner.program_id ix = Scanner.RAYDIUM_LP_V4
          /\ Scanner.data ix = Some encoded
          /\ b58decode encoded = Some bytes
          /\ (exists rest, bytes = Scanner.initialize2_discriminant ++ rest)
          /\ Scanner.accounts ix !! 8%nat = Some token0
          /\ Scanner.accounts ix !! 9%nat = Some token1
          /\ ((mint = token1 /\ token0 = Scanner.SOL_MINT)
              \/ (mint = token0 /\ token1 = Scanner.SOL_MINT))
          /\ (token0 <> token1 -> mint <> Scanner.SOL_MINT)).
Proof.
  split; [|split].
  - intros splitlines v sig Hsig Hne. cbv zeta.
    assert (Hiff : Scanner.on_message splitlines
                     (Scanner.Message (Some "logsNotification"%string) (Some v))
                   = Some sig
                   <-> exists line,
                         In line (Scanner.log_lines splitlines (Scanner.logs v))
                         /\ mentions "Instruction: InitializeAccount" line).
    { rewrite on_message_spec. split.
      - intros (v' & Hv & _ & Hlines & _). cbn in Hv. now inversion Hv; subst.
      - intros Hlines. exists v. repeat split; assumption. }
    split; [exact Hiff|].
    intros Hno.
    destruct (Scanner.on_message splitlines _) as [s|] eqn:Hon; [|reflexivity].
    exfalso. apply Hno.
    apply on_message_spec in Hon as (v' & Hv & _ & Hlines & _).
    cbn in Hv. now inversion Hv; subst.
  - intros splitlines msg sig Hon.
    apply on_message_spec in Hon as (v & Hv & Hm & _ & Hsig & _).
    split; [exact Hm|]. now exists v.
  - intros signature_ok b58decode sig reply mint price.
    unfold Scanner.forwarded.
    destruct (signature_ok sig); [|discriminate].
    destruct reply as [| |tx]; try discriminate.
    destruct (existsb _ _) eqn:Hkeys; [|discriminate].
    destruct (Scanner.scan_instructions _ _) as [m| | |] eqn:Hscan; try discriminate.
    intros H. inversion H; subst.
    destruct (scan_forward_spec _ _ _ Hscan)
      as (ix & encoded & bytes & t0 & t1 & Hin & Hp & Hd & Hdec & Hst & H8 & H9 & Hm).
    exists tx, ix, encoded, bytes, t0, t1.
    split; [reflexivity|]. split.
    { apply existsb_exists in Hkeys as (acc & Hacc & Heq).
      apply String.eqb_eq in Heq. now subst. }
    split; [exact Hin|]. split; [exact Hp|]. split; [exact Hd|]. split; [exact Hdec|].
    split; [exact Hst|]. split; [exact H8|]. split; [exact H9|].
    destruct Hm as [[-> ->]|(Hn & -> & ->)].
    + split; [left; split; reflexivity|]. intros Hdiff Heq. apply Hdiff. now rewrite Heq.
    + split; [right; split; reflexivity|]. intros _. exact Hn.
Qed.

(** ** The theorems at work on the worked inputs *)

Lemma exit_policy_witness :
  let r := Engine.evaluate_held_tokens_for_sale "MINT" 2.05 false Examples.quiet
             Examples.switched_engine in
  Engine.held_tokens Examples.switched_engine !! "MINT" = Some Examples.held_position
  /\ ~ Engine.buy_price Examples.held_position == 0
  /\ sale_goes_through (Engine.sell_reply Examples.quiet) Examples.switched_engine
  /\ Engine.sell_multiplier Examples.switched_engine
     <= 2.05 / Engine.buy_price Examples.held_position
  /\ Engine.trigger r = Some Engine.TakeProfit
  /\ (exists q, Engine.sale r = Some q)
  /\ Engine.held_tokens (Engine.after r) !! "MINT" = None.
Proof.
  cbv zeta.
  assert (H1 : Engine.held_tokens Examples.switched_engine !! "MINT"
               = Some Examples.held_position) by (vm_compute; reflexivity).
  assert (H2 : ~ Engine.buy_price Examples.held_position == 0)
    by (vm_compute; discriminate).
  assert (H3 : sale_goes_through (Engine.sell_reply Examples.quiet)
                 Examples.switched_engine) by (left; reflexivity).
  assert (H4 : Engine.sell_multiplier Examples.switched_engine
               <= 2.05 / Engine.buy_price Examples.held_position)
    by (vm_compute; discriminate).
  split; [exact H1|]. split; [exact H2|]. split; [exact H3|]. split; [exact H4|].
  pose proof (proj2 (exit_policy "MINT" 2.05 false Examples.quiet
                       Examples.switched_engine Examples.held_position H1) H2) as H.
  cbv zeta in H.
  destruct H as (Htake & _ & _ & Hsold & _).
  destruct (Hsold H3) as [Hsale Hgone].
  exact (conj (proj2 Htake H4)
           (conj (proj1 Hsale (or_introl H4)) (proj1 Hgone (or_introl H4)))).
Defined.

Lemma zero_buy_price_never_sold_witness :
  Engine.held_tokens Examples.engine_with_free_position !! "MINT"
  = Some Examples.free_position
  /\ Engine.buy_price Examples.free_position == 0
  /\ Engine.evaluate_held_tokens_for_sale "MINT" 5 true Examples.quiet
       Examples.engine_with_free_position
     = Engine.EvalResult Examples.engine_with_free_position None None
         (Some Py.ZeroDivisionError).
Proof.
  assert (H1 : Engine.held_tokens Examples.engine_with_free_position !! "MINT"
               = Some Examples.free_position) by (vm_compute; reflexivity).
  assert (H2 : Engine.buy_price Examples.free_position == 0)
    by (vm_compute; reflexivity).
  split; [exact H1|]. split; [exact H2|].
  exact (proj1 (proj2 (proj2 zero_buy_price_never_sold))
           "MINT" 5 true Examples.quiet Examples.engine_with_free_position
           Examples.free_position H1 H2).
Defined.

Lemma max_price_seen_monotone_witness :
  Engine.held_tokens Examples.simulated_engine = ∅
  /\ tracked
       (Engine.run Py.int_of_digits
          [Engine.Candidate "MINT" 1 Examples.oracle_down;
           Engine.Evaluation (Engine.EvalCall "MINT" 1.5 false Examples.quiet);
           Engine.Evaluation (Engine.EvalCall "MINT" 1.4 false Examples.quiet)]
          Examples.simulated_engine).
Proof.
  assert (H1 : Engine.held_tokens Examples.simulated_engine = ∅) by reflexivity.
  split; [exact H1|].
  exact (proj2 (proj2 max_price_seen_monotone) Py.int_of_digits _
           Examples.simulated_engine
           (proj1 (proj2 max_price_seen_monotone) Examples.simulated_engine H1)).
Defined.

Lemma simulated_take_profit_learns_no_creator_witness :
  Engine.simulation_mode Examples.switched_engine = true
  /\ Engine.held_tokens Examples.switched_engine !! "MINT" = Some Examples.held_position
  /\ ~ Engine.buy_price Examples.held_position == 0
  /\ Engine.sell_multiplier Examples.switched_engine
     <= 2.05 / Engine.buy_price Examples.held_position
  /\ Engine.creator_wallets Examples.held_position = ["creator"%string]
  /\ Engine.now Examples.quiet - Engine.buy_timestamp Examples.held_position < 3600
  /\ Engine.successful_creator_cache
       (Engine.after
          (Engine.evaluate_held_tokens_for_sale "MINT" 2.05 false Examples.quiet
             Examples.switched_engine))
     = Engine.successful_creator_cache Examples.switched_engine
  /\ Engine.successful_creator_cache Examples.switched_engine = Some ∅.
Proof.
  assert (H1 : Engine.simulation_mode Examples.switched_engine = true) by reflexivity.
  assert (H2 : Engine.held_tokens Examples.switched_engine !! "MINT"
               = Some Examples.held_position) by (vm_compute; reflexivity).
  assert (H3 : ~ Engine.buy_price Examples.held_position == 0)
    by (vm_compute; discriminate).
  assert (H4 : Engine.sell_multiplier Examples.switched_engine
               <= 2.05 / Engine.buy_price Examples.held_position)
    by (vm_compute; discriminate).
  split; [exact H1|]. split; [exact H2|]. split; [exact H3|]. split; [exact H4|].
  split; [reflexivity|]. split; [vm_compute; reflexivity|].
  split; [|reflexivity].
  exact (proj1 (proj2 (proj2 (proj2 (proj2
           (simulated_take_profit_learns_no_creator "MINT" 2.05 false Examples.quiet
              Examples.switched_engine Examples.held_position H1 H2 H3 H4)))))).
Defined.

Lemma simulated_sale_journaled_at_take_profit_price_witness :
  let dm := Engine.run Py.int_of_digits
              [Engine.Candidate "MINT" 1 Examples.oracle_down]
              Examples.simulated_engine in
  let pos := Engine.Position 1 0.1 [] 1010 None in
  let r := Engine.evaluate_held_tokens_for_sale "MINT" 0.8 false Examples.quiet dm in
  let journal := Engine.simulation_trades_log dm in
  let journal' := Engine.simulation_trades_log (Engine.after r) in
  let profit := 1 * Engine.sell_multiplier dm - 1 in
  Engine.simulation_mode dm = true
  /\ Engine.held_tokens dm !! "MINT" = Some pos
  /\ Engine.trigger r = Some Engine.TrailingStop
  /\ recorded_buys journal ∅ !! "MINT" = Some 1
  /\ 0 < profit
  /\ journal'
     = journal ++ [Engine.Trade "MINT" (1 * Engine.sell_multiplier dm) "sell"
                     (Engine.now Examples.quiet) false]
  /\ Optimizer.trade_profits journal' ∅ = Optimizer.trade_profits journal ∅ ++ [profit]
  /\ Optimizer.count_wins (Optimizer.trade_profits journal' ∅)
     = S (Optimizer.count_wins (Optimizer.trade_profits journal ∅)).
Proof.
  cbv zeta.
  set (dm := Engine.run Py.int_of_digits
               [Engine.Candidate "MINT" 1 Examples.oracle_down]
               Examples.simulated_engine).
  set (pos := Engine.Position 1 0.1 [] 1010 None).
  assert (H0 : Engine.simulation_mode Examples.simulated_engine = true) by reflexivity.
  assert (H0' : Engine.held_tokens Examples.simulated_engine = ∅) by reflexivity.
  assert (H1 : Engine.simulation_mode dm = true) by reflexivity.
  assert (H2 : Engine.held_tokens dm !! "MINT" = Some pos) by (vm_compute; reflexivity).
  assert (H3 : Engine.trigger
                 (Engine.evaluate_held_tokens_for_sale "MINT" 0.8 false Examples.quiet dm)
               = Some Engine.TrailingStop) by (vm_compute; reflexivity).
  assert (H4 : recorded_buys (Engine.simulation_trades_log dm) ∅ !! "MINT" = Some 1).
  { exact (proj2 (proj2 simulated_sale_journaled_at_take_profit_price
                    Py.int_of_digits
                    [Engine.Candidate "MINT" 1 Examples.oracle_down]
                    Examples.simulated_engine H0 H0') "MINT"%string pos H2). }
  assert (H5 : 0 < 1 * Engine.sell_multiplier dm - 1) by (vm_compute; reflexivity).
  split; [exact H1|]. split; [exact H2|]. split; [exact H3|]. split; [exact H4|].
  split; [exact H5|].
  pose proof (proj1 simulated_sale_journaled_at_take_profit_price "MINT"%string 0.8
                false Examples.quiet dm pos Engine.TrailingStop H1 H2 H3) as H.
  cbv zeta in H.
  destruct H as (_ & Hlog & Hstats).
  destruct (Hstats H4) as (Hprofits & Hwin & _).
  exact (conj Hlog (conj Hprofits (Hwin H5))).
Defined.

Lemma capital_is_the_configured_amount_witness :
  0 <= 1
  /\ 0 <= Engine.available_capital
            (Engine.run Py.int_of_digits
               [Engine.Candidate "MINT" 1 Examples.oracle_down;
                Engine.Evaluation (Engine.EvalCall "MINT" 2.05 false Examples.quiet)]
               (Engine.set_initial_capital 1 Examples.real_engine)).
Proof.
  assert (H : 0 <= 1) by lra.
  split; [exact H|].
  exact (proj2 (proj2 (proj2 capital_is_the_configured_amount))
           Py.int_of_digits 1 _ Examples.real_engine H).
Defined.

Lemma oracle_failure_is_permissive_witness :
  Engine.simulation_mode Examples.real_engine = false
  /\ Engine.is_exploration_phase Examples.oracle_down = true
  /\ oracle_failed (Engine.oracle Examples.oracle_down)
  /\ cache_miss "MINT" (Engine.clock Examples.oracle_down) Examples.real_engine
  /\ Engine._check_token_liquidity Py.int_of_digits
       (Engine.liquidity_quote Examples.oracle_down) = true
  /\ Engine._check_token_sellable (Engine.sell_quote Examples.oracle_down) = true
  /\ Engine.balance_ok Examples.oracle_down = true
  /\ Engine.buy_amount_sol Examples.real_engine + 0.001
     <= Engine.balance_sol Examples.oracle_down
  /\ Engine.buy_amount_sol Examples.real_engine
     <= Engine.available_capital Examples.real_engine
  /\ Engine.held_tokens Examples.real_engine !! "MINT" = None
  /\ Engine.buy_success Examples.oracle_down = true
  /\ (Engine.process_new_token_candidate Py.int_of_digits "MINT" 1
        Examples.oracle_down Examples.real_engine).2 = Engine.Bought.
Proof.
  assert (H1 : Engine.simulation_mode Examples.real_engine = false) by reflexivity.
  assert (H2 : Engine.is_exploration_phase Examples.oracle_down = true)
    by (vm_compute; reflexivity).
  assert (H3 : oracle_failed (Engine.oracle Examples.oracle_down)) by exact I.
  assert (H4 : cache_miss "MINT" (Engine.clock Examples.oracle_down) Examples.real_engine)
    by exact I.
  assert (H5 : Engine._check_token_liquidity Py.int_of_digits
                 (Engine.liquidity_quote Examples.oracle_down) = true)
    by (vm_compute; reflexivity).
  assert (H6 : Engine._check_token_sellable (Engine.sell_quote Examples.oracle_down) = true)
    by (vm_compute; reflexivity).
  assert (H7 : Engine.balance_ok Examples.oracle_down = true) by reflexivity.
  assert (H8 : Engine.buy_amount_sol Examples.real_engine + 0.001
               <= Engine.balance_sol Examples.oracle_down)
    by (vm_compute; discriminate).
  assert (H9 : Engine.buy_amount_sol Examples.real_engine
               <= Engine.available_capital Examples.real_engine)
    by (vm_compute; discriminate).
  assert (H10 : Engine.held_tokens Examples.real_engine !! "MINT" = None)
    by (vm_compute; reflexivity).
  assert (H11 : Engine.buy_success Examples.oracle_down = true) by reflexivity.
  repeat (split; [assumption|]).
  exact (proj2 (proj2 (proj2 (proj2 (proj2 (proj2 oracle_failure_is_permissive)))))
           Py.int_of_digits "MINT" 1 Examples.oracle_down Examples.real_engine
           H1 H2 H3 H4 H5 H6 H7 H8 H9 H10 H11).
Defined.

Lemma parameter_writes_witness :
  let st := Optimizer.TickState Examples.engine_at_two Examples.rotated_optimizer [] in
  buy_in_range (Optimizer.buy_of st)
  /\ buy_in_range (Optimizer.buy_of (Optimizer.recovery Examples.lucky_draws st)).
Proof.
  cbv zeta.
  assert (H : buy_in_range
                (Optimizer.buy_of
                   (Optimizer.TickState Examples.engine_at_two
                      Examples.rotated_optimizer [])))
    by (unfold buy_in_range; cbn; lra).
  split; [exact H|].
  exact (proj1 (proj2
           (proj2 (proj2 (proj2 (proj2 (proj2 (proj2 parameter_writes)))))
              Examples.lucky_draws
              (Optimizer.TickState Examples.engine_at_two
                 Examples.rotated_optimizer []))) H).
Defined.

Lemma pair_discovery_filter_witness :
  let v := Scanner.Value (Some "sig"%string)
             (Scanner.LogsList ["Program log: Instruction: InitializeAccount"%string]) in
  Scanner.signature v = Some "sig"%string
  /\ "sig"%string <> ""%string
  /\ (exists line,
        In line (Scanner.log_lines (fun text => [text]) (Scanner.logs v))
        /\ mentions "Instruction: InitializeAccount" line)
  /\ Scanner.on_message (fun text => [text])
       (Scanner.Message (Some "logsNotification"%string) (Some v)) = Some "sig"%string
  /\ Scanner.forwarded (fun _ => true) Examples.decode "sig"
       (Scanner.FetchTransaction Examples.pool_creation) = Some ("NEWMINT"%string, 0.0)
  /\ exists tx ix encoded bytes token0 token1,
       Scanner.FetchTransaction Examples.pool_creation = Scanner.FetchTransaction tx
       /\ In Scanner.RAYDIUM_LP_V4 (Scanner.account_keys tx)
       /\ In ix (Scanner.instructions tx)
       /\ Scanner.program_id ix = Scanner.RAYDIUM_LP_V4
       /\ Scanner.data ix = Some encoded
       /\ Examples.decode encoded = Some bytes
       /\ (exists rest, bytes = Scanner.initialize2_discriminant ++ rest)
       /\ Scanner.accounts ix !! 8%nat = Some token0
       /\ Scanner.accounts ix !! 9%nat = Some token1
       /\ (("NEWMINT"%string = token1 /\ token0 = Scanner.SOL_MINT)
           \/ ("NEWMINT"%string = token0 /\ token1 = Scanner.SOL_MINT))
       /\ (token0 <> token1 -> "NEWMINT"%string <> Scanner.SOL_MINT).
Proof.
  cbv zeta.
  set (v := Scanner.Value (Some "sig"%string)
              (Scanner.LogsList ["Program log: Instruction: InitializeAccount"%string])).
  assert (H1 : Scanner.signature v = Some "sig"%string) by reflexivity.
  assert (H2 : "sig"%string <> ""%string) by discriminate.
  assert (H3 : exists line,
             In line (Scanner.log_lines (fun text => [text]) (Scanner.logs v))
             /\ mentions "Instruction: InitializeAccount" line).
  { exists "Program log: Instruction: InitializeAccount"%string.
    split; [left; reflexivity|]. now exists "Program log: "%string, ""%string. }
  assert (H4 : Scanner.forwarded (fun _ => true) Examples.decode "sig"
                 (Scanner.FetchTransaction Examples.pool_creation)
               = Some ("NEWMINT"%string, 0.0)) by (vm_compute; reflexivity).
  split; [exact H1|]. split; [exact H2|]. split; [exact H3|].
  split.
  { exact (proj2 (proj1 (proj1 pair_discovery_filter (fun text => [text]) v
                           "sig"%string H1 H2)) H3). }
  split; [exact H4|].
  exact (proj2 (proj2 pair_discovery_filter) (fun _ => true) Examples.decode "sig"
           (Scanner.FetchTransaction Examples.pool_creation) "NEWMINT"%string 0.0 H4).
Defined.

(** * Further properties of the modelled code *)

(** ** The honeypot cache *)

Definition fetched (reply : Engine.oracle_reply) : Engine.honeypot_info :=
  match reply with
  | Engine.OracleStatus 200%Z (Some data) => Engine.honeypot_info_of_json data
  | _ => Engine.default_honeypot_info
  end.

Lemma check_honeypot_miss tok now reply dm :
  cache_miss tok now dm ->
  Engine._check_token_honeypot_and_taxes tok now reply dm
  = (fetched reply,
     Engine.with_honeypot_cache
       (<[tok := Engine.CacheEntry now (fetched reply)]> (Engine.honeypot_cache dm)) dm).
Proof.
  intros Hm. unfold Engine._check_token_honeypot_and_taxes, cache_miss in *.
  destruct (Engine.honeypot_cache dm !! tok) as [e|]; [|reflexivity].
  apply Qlt_bool_false_iff in Hm. now rewrite Hm.
Qed.

(** X1.  An answer of the honeypot check is served from the cache for the
    next 300 seconds: a second call for the same token within that time
    returns what the first returned, whatever the oracle would answer
    then, and changes nothing; this includes the default report stored
    after a failed oracle call.  From 300 seconds on the oracle is asked
    again. *)
Theorem honeypot_answer_cached tok t1 t2 reply1 reply2 dm :
  cache_miss tok t1 dm ->
  let first := Engine._check_token_honeypot_and_taxes tok t1 reply1 dm in
  (t2 - t1 < 300 ->
   Engine._check_token_honeypot_and_taxes tok t2 reply2 first.2 = first)
  /\ (300 <= t2 - t1 ->
      (Engine._check_token_honeypot_and_taxes tok t2 reply2 first.2).1 = fetched reply2)
  /\ (oracle_failed reply1 -> first.1 = Engine.default_honeypot_info).
Proof.
  intros Hm first. subst first. rewrite (check_honeypot_miss _ _ _ _ Hm). cbn [fst snd].
  split; [|split].
  - intros Hlt. unfold Engine._check_token_honeypot_and_taxes. cbn.
    rewrite lookup_insert_eq. cbn. apply Qlt_bool_iff in Hlt. now rewrite Hlt.
  - intros Hge. rewrite check_honeypot_miss; [reflexivity|].
    unfold cache_miss. cbn. rewrite lookup_insert_eq. exact Hge.
  - intros Hf. rewrite <- (oracle_failure_gives_default tok t1 reply1 dm Hf Hm).
    now rewrite (check_honeypot_miss _ _ _ _ Hm).
Qed.

(** ** Admission *)

(** X2.  A candidate is bought through the safety checks only if every
    gate let it through: the engine is in real mode and in its exploration
    phase, the wallet balance is reported fine and covers the buy amount
    plus 0.001, the tracked capital covers the buy amount, the token is not
    held, the report shows no honeypot, taxes of at most 0.15, a market cap
    of at most 50000 and no anti-bot flag, both quotes passed, and the buy
    order returned. *)
Theorem bought_passed_every_gate py_int tok price env dm :
  (Engine.process_new_token_candidate py_int tok price env dm).2 = Engine.Bought ->
  let info := (Engine._check_token_honeypot_and_taxes tok (Engine.clock env)
                 (Engine.oracle env) dm).1 in
  Engine.simulation_mode dm = false
  /\ Engine.is_exploration_phase env = true
  /\ Engine.balance_ok env = true
  /\ Engine.buy_amount_sol dm + 0.001 <= Engine.balance_sol env
  /\ Engine.buy_amount_sol dm <= Engine.available_capital dm
  /\ Engine.held_tokens dm !! tok = None
  /\ Engine.is_honeypot info = false
  /\ (forall q, Engine.tax_buy (Engine.taxes info) = Some q -> q <= 0.15)
  /\ (forall q, Engine.tax_sell (Engine.taxes info) = Some q -> q <= 0.15)
  /\ Engine.marketcap info <= 50000
  /\ Engine.antiBot info = false
  /\ Engine._check_token_liquidity py_int (Engine.liquidity_quote env) = true
  /\ Engine._check_token_sellable (Engine.sell_quote env) = true
  /\ Engine.buy_success env = true.
Proof.
  unfold Engine.process_new_token_candidate.
  destruct (Engine.simulation_mode dm); [discriminate|].
  destruct (Engine.is_exploration_phase env); cbn [negb].
  2: { destruct (Engine.detected_creators env) as [|c cs]; [discriminate|].
       destruct (Engine.successful_creator_cache dm) as [cache|]; [|discriminate].
       destruct (existsb _ _); [|discriminate].
       destruct (Engine.buy_success env); discriminate. }
  pose proof (check_honeypot_capital tok (Engine.clock env) (Engine.oracle env) dm)
    as [Hc Hb].
  pose proof (check_honeypot_held tok (Engine.clock env) (Engine.oracle env) dm) as Hh.
  destruct (Engine._check_token_honeypot_and_taxes _ _ _ _) as [info dm1].
  cbn [fst snd] in *. rewrite Hb, Hc, Hh.
  destruct (Engine.balance_ok env); cbn [negb orb]; [|discriminate].
  destruct (Py.Qlt_bool (Engine.balance_sol env) _) eqn:Ebal; [discriminate|].
  destruct (Py.Qlt_bool (Engine.available_capital dm) _) eqn:Ecap; [discriminate|].
  destruct (bool_decide _) eqn:Eheld; [discriminate|].
  destruct (Engine.safety_filters _ _ _) eqn:Ef; [discriminate|].
  destruct (Engine.buy_success env); [|discriminate].
  intros _.
  apply Qlt_bool_false_iff in Ebal, Ecap.
  apply bool_decide_eq_false in Eheld.
  unfold Engine.safety_filters in Ef.
  destruct (Engine.is_honeypot info); [discriminate|].
  destruct (Engine.high_taxes _) eqn:Etax; [discriminate|].
  destruct (_ && _) eqn:Ecap2; [discriminate|].
  destruct (Engine.antiBot info); [discriminate|].
  destruct (Engine._check_token_liquidity _ _); [|discriminate].
  destruct (Engine._check_token_sellable _); [|discriminate].
  unfold Engine.high_taxes in Etax. apply orb_false_iff in Etax as [Etb Ets].
  repeat split; try assumption.
  - destruct (Engine.held_tokens dm !! tok) eqn:E; [|reflexivity].
    exfalso. apply Eheld. now exists p.
  - intros q Hq. rewrite Hq in Etb. now apply Qlt_bool_false_iff in Etb.
  - intros q Hq. rewrite Hq in Ets. now apply Qlt_bool_false_iff in Ets.
  - apply andb_false_iff in Ecap2 as [Ht|Hm].
    + unfold Py.truthy in Ht. apply negb_false_iff in Ht.
      apply Qeq_bool_iff in Ht. rewrite Ht. lra.
    + now apply Qlt_bool_false_iff in Hm.
Qed.

(** X3.  A candidate that is not bought leaves no trace in the engine
    other than, possibly, a new entry of the honeypot cache: positions,
    journals, parameters and capital are exactly as before. *)
Theorem unbought_candidate_leaves_no_trace py_int tok price env dm :
  let r := Engine.process_new_token_candidate py_int tok price env dm in
  ~ position_taken r.2 ->
  exists cache, r.1 = Engine.with_honeypot_cache cache dm.
Proof.
  cbv zeta. unfold Engine.process_new_token_candidate, position_taken.
  assert (Hid : exists cache, dm = Engine.with_honeypot_cache cache dm).
  { exists (Engine.honeypot_cache dm). now destruct dm. }
  destruct (Engine.simulation_mode dm); [cbn; tauto|].
  destruct (negb (Engine.is_exploration_phase env)).
  { destruct (Engine.detected_creators env) as [|c cs]; [intros _; exact Hid|].
    destruct (Engine.successful_creator_cache dm) as [cache|]; [|intros _; exact Hid].
    destruct (existsb _ _); [|intros _; exact Hid].
    destruct (Engine.buy_success env); [cbn; tauto|intros _; exact Hid]. }
  assert (Hc : exists cache,
             (Engine._check_token_honeypot_and_taxes tok (Engine.clock env)
                (Engine.oracle env) dm).2 = Engine.with_honeypot_cache cache dm).
  { unfold Engine._check_token_honeypot_and_taxes.
    destruct (Engine.honeypot_cache dm !! tok) as [e|]; [|eexists; reflexivity].
    destruct (Py.Qlt_bool _ _); [exact Hid|eexists; reflexivity]. }
  destruct (Engine._check_token_honeypot_and_taxes _ _ _ _) as [info dm1].
  cbn [snd] in Hc.
  destruct (_ || _); [intros _; exact Hc|].
  destruct (Py.Qlt_bool _ _); [intros _; exact Hc|].
  destruct (bool_decide _); [intros _; exact Hc|].
  destruct (Engine.safety_filters _ _ _); [intros _; exact Hc|].
  destruct (Engine.buy_success env); [cbn; tauto|intros _; exact Hc].
Qed.

(** X4.  Deduplication is a property of the checked real-mode path only.
    There, a candidate for a token already held is never bought again and
    the position is untouched.  In simulation mode every candidate is
    bought: a position already held for the token is replaced by a fresh
    one at the new price, its running maximum forgotten. *)
Theorem held_token_deduplication py_int tok price env dm pos :
  Engine.held_tokens dm !! tok = Some pos ->
  let r := Engine.process_new_token_candidate py_int tok price env dm in
  (Engine.simulation_mode dm = false -> Engine.is_exploration_phase env = true ->
   ~ position_taken r.2 /\ Engine.held_tokens r.1 !! tok = Some pos)
  /\ (Engine.simulation_mode dm = true ->
      r.2 = Engine.SimulatedBuy
      /\ Engine.held_tokens r.1 !! tok
         = Some (Engine.Position price (Engine.buy_amount_sol dm) []
                   (Engine.clock env) None)).
Proof.
  intros Hheld r. subst r. split.
  - intros Hsim Hexp.
    assert (Hn : ~ position_taken
                   (Engine.process_new_token_candidate py_int tok price env dm).2).
    { unfold Engine.process_new_token_candidate, position_taken.
      rewrite Hsim, Hexp. cbn [negb].
      pose proof (check_honeypot_held tok (Engine.clock env) (Engine.oracle env) dm) as Hh.
      destruct (Engine._check_token_honeypot_and_taxes _ _ _ _) as [info dm1].
      cbn [snd] in Hh. rewrite Hh, Hheld.
      destruct (_ || _); [cbn; intros [H|[H|H]]; discriminate|].
      destruct (Py.Qlt_bool _ _); [cbn; intros [H|[H|H]]; discriminate|].
      rewrite bool_decide_eq_true_2 by (now eexists).
      cbn; intros [H|[H|H]]; discriminate. }
    split; [exact Hn|].
    destruct (candidate_held py_int tok price env dm) as [[Ht _]|[_ Hh]];
      [contradiction|]. now rewrite Hh.
  - intros Hsim. unfold Engine.process_new_token_candidate. rewrite Hsim. cbn.
    split; [reflexivity|]. rewrite start_monitoring_held. cbn.
    now rewrite lookup_insert_eq.
Qed.

(** ** Positions and journals stay in step *)

(** X5.  After an evaluation of a held token, the position map and the
    journals agree.  If the evaluation reports a sale at price [q], the
    position is gone and the journal of the engine's mode has gained
    exactly one sell line for the token at [q].  If it reports none (no rule
    fired, or the real sale failed), the position is still held with its
    purchase data and no journal has changed, so that the next price update
    evaluates it again. *)
Theorem sale_or_position_retained tok p whale env dm pos :
  Engine.held_tokens dm !! tok = Some pos ->
  let r := Engine.evaluate_held_tokens_for_sale tok p whale env dm in
  match Engine.sale r with
  | Some q =>
      Engine.held_tokens (Engine.after r) !! tok = None
      /\ journal_gained dm (Engine.after r)
           (Engine.Trade tok q "sell" (Engine.now env) false)
  | None =>
      (exists pos', Engine.held_tokens (Engine.after r) !! tok = Some pos'
                    /\ same_purchase pos pos')
      /\ journals_kept dm (Engine.after r)
  end.
Proof.
  intros Hheld. cbv zeta.
  assert (Hkeep : (exists pos', Engine.held_tokens dm !! tok = Some pos'
                                /\ same_purchase pos pos')
                  /\ journals_kept dm dm).
  { split; [exists pos; split; [exact Hheld|repeat split]|repeat split]. }
  unfold Engine.evaluate_held_tokens_for_sale. rewrite Hheld.
  destruct (Py.truediv _ _) as [ratio|]; [|exact Hkeep].
  destruct (Qle_bool _ _).
  - pose proof (execute_sale_outcome tok (Engine.now env) (Engine.sell_reply env)
                  dm pos Hheld) as Hs.
    pose proof (execute_sale_settings tok (Engine.now env) (Engine.sell_reply env) dm)
      as (_&_&_&Hmode&_).
    destruct (Engine._execute_sale _ _ _ _) as [[dm1 [q|]] err] eqn:Hex;
      cbn [fst snd] in *.
    + destruct Hs as [Hd Hj].
      assert (Hgone : Engine.held_tokens dm1 !! tok = None)
        by (rewrite Hd; apply lookup_delete_eq).
      destruct (Engine.simulation_mode dm1); cbn; [rewrite Hgone; cbn|]; now split.
    + subst dm1.
      destruct (Engine.simulation_mode dm) eqn:Hsim; [|exact Hkeep].
      exfalso.
      rewrite (execute_sale_simulated tok (Engine.now env) (Engine.sell_reply env)
                 dm pos Hsim Hheld) in Hex.
      cbv zeta in Hex. discriminate.
  - set (pos1 := Engine.with_max_price (Engine.updated_max_price pos p) pos).
    set (dm1 := Engine.with_held (<[tok := pos1]> (Engine.held_tokens dm)) dm).
    assert (Hheld1 : Engine.held_tokens dm1 !! tok = Some pos1) by apply lookup_insert_eq.
    assert (Hkeep1 : (exists pos', Engine.held_tokens dm1 !! tok = Some pos'
                                   /\ same_purchase pos pos')
                     /\ journals_kept dm dm1).
    { split; [exists pos1; split; [exact Hheld1|repeat split]|repeat split]. }
    pose proof (execute_sale_outcome tok (Engine.now env) (Engine.sell_reply env)
                  dm1 pos1 Hheld1) as Hs.
    assert (Hfinish :
              forall reason,
                match Engine.sale
                        (let '(dm2, sold, err) :=
                           Engine._execute_sale tok (Engine.now env)
                             (Engine.sell_reply env) dm1 in
                         Engine.EvalResult dm2 (Some reason) sold err) with
                | Some q =>
                    Engine.held_tokens
                      (Engine.after
                         (let '(dm2, sold, err) :=
                            Engine._execute_sale tok (Engine.now env)
                              (Engine.sell_reply env) dm1 in
                          Engine.EvalResult dm2 (Some reason) sold err)) !! tok = None
                    /\ journal_gained dm
                         (Engine.after
                            (let '(dm2, sold, err) :=
                               Engine._execute_sale tok (Engine.now env)
                                 (Engine.sell_reply env) dm1 in
                             Engine.EvalResult dm2 (Some reason) sold err))
                         (Engine.Trade tok q "sell" (Engine.now env) false)
                | None =>
                    (exists pos',
                        Engine.held_tokens
                          (Engine.after
                             (let '(dm2, sold, err) :=
                                Engine._execute_sale tok (Engine.now env)
                                  (Engine.sell_reply env) dm1 in
                              Engine.EvalResult dm2 (Some reason) sold err)) !! tok
                        = Some pos' /\ same_purchase pos pos')
                    /\ journals_kept dm
                         (Engine.after
                            (let '(dm2, sold, err) :=
                               Engine._execute_sale tok (Engine.now env)
                                 (Engine.sell_reply env) dm1 in
                             Engine.EvalResult dm2 (Some reason) sold err))
                end).
    { intros reason.
      destruct (Engine._execute_sale _ _ _ _) as [[dm2 [q|]] err]; cbn [fst snd] in *.
      - destruct Hs as [Hd Hj]. cbn. split.
        + rewrite Hd. apply lookup_delete_eq.
        + exact Hj.
      - subst dm2. exact Hkeep1. }
    destruct (Py.Qlt_bool _ _); [apply Hfinish|].
    destruct (_ || _); [apply Hfinish|exact Hkeep1].
Qed.

(** ** Simulated profit *)

Lemma fold_plus_compat (l : list Q) (a b : Q) :
  a == b -> fold_left Qplus l a == fold_left Qplus l b.
Proof.
  revert a b. induction l as [|x l IH]; intros a b H; cbn; [exact H|].
  apply IH. now rewrite H.
Qed.

Lemma profit_loop_is_fold entries profit buy_prices :
  Engine.profit_loop entries profit buy_prices
  = fold_left Qplus (Optimizer.trade_profits entries buy_prices) profit.
Proof.
  revert profit buy_prices.
  induction entries as [|entry rest IH]; intros profit buy_prices; cbn; [reflexivity|].
  destruct (String.eqb _ "buy"); [apply IH|].
  destruct (String.eqb _ "sell"); [|apply IH].
  destruct (buy_prices !! Engine.token entry); [|apply IH].
  cbn. apply IH.
Qed.

(** X6.  The engine's own profit report and the controller's profit
    aggregate are the same number on the same journal: both sum, over the
    sell lines whose token has an earlier buy line, the sell price minus the
    latest buy price, and both skip a sell line without a buy. *)
Theorem profit_report_agrees_with_controller dm :
  Engine.get_simulation_profit_loss dm
  == Optimizer._compute_profit (Engine.simulation_results dm).
Proof.
  unfold Engine.get_simulation_profit_loss, Optimizer._compute_profit, Optimizer.sum.
  rewrite profit_loop_is_fold. apply fold_plus_compat. reflexivity.
Qed.

Lemma profit_loop_round_trip entries profit buy_prices tok b q t1 t2 f1 f2 :
  Engine.profit_loop
    (entries ++ [Engine.Trade tok b "buy" t1 f1; Engine.Trade tok q "sell" t2 f2])
    profit buy_prices
  = Engine.profit_loop entries profit buy_prices + (q - b).
Proof.
  revert profit buy_prices.
  induction entries as [|entry rest IH]; intros profit buy_prices.
  - cbn. now rewrite lookup_insert_eq.
  - cbn [app Engine.profit_loop].
    destruct (String.eqb _ "buy"); [apply IH|].
    destruct (String.eqb _ "sell"); [|apply IH].
    destruct (buy_prices !! Engine.token entry); apply IH.
Qed.

(** X7.  A simulated round trip is worth [buy_price * (sell_multiplier - 1)]
    whatever the market did: from any state of a simulating engine, buying a
    token at a non-zero price [b] and then evaluating it at a price that
    reaches the take-profit multiple leaves the token unheld, appends a buy
    line at [b] and a sell line at [b * sell_multiplier] to the journal, and
    raises the reported profit by [b * sell_multiplier - b]. *)
Theorem simulated_round_trip py_int tok b p whale cenv env dm :
  Engine.simulation_mode dm = true ->
  ~ b == 0 ->
  Engine.sell_multiplier dm <= p / b ->
  let bought := (Engine.process_new_token_candidate py_int tok b cenv dm).1 in
  let sold := Engine.after
                (Engine.evaluate_held_tokens_for_sale tok p whale env bought) in
  Engine.held_tokens sold !! tok = None
  /\ Engine.simulation_results sold
     = Engine.simulation_results dm
       ++ [Engine.Trade tok b "buy" (Engine.clock cenv) false;
           Engine.Trade tok (b * Engine.sell_multiplier dm) "sell" (Engine.now env) false]
  /\ Engine.get_simulation_profit_loss sold
     = Engine.get_simulation_profit_loss dm + (b * Engine.sell_multiplier dm - b).
Proof.
  intros Hsim Hb Htp bought sold.
  assert (Hbought : bought
                    = Engine.start_monitoring_token tok
                        (Engine.with_held
                           (<[tok := Engine.Position b (Engine.buy_amount_sol dm) []
                                       (Engine.clock cenv) None]> (Engine.held_tokens dm))
                           (Engine.record_simulation_trade
                              (Engine.Trade tok b "buy" (Engine.clock cenv) false) dm))).
  { subst bought. unfold Engine.process_new_token_candidate. now rewrite Hsim. }
  set (pos := Engine.Position b (Engine.buy_amount_sol dm) [] (Engine.clock cenv) None)
    in Hbought.
  assert (Hsim1 : Engine.simulation_mode bought = true).
  { rewrite Hbought. unfold Engine.start_monitoring_token. cbn.
    now destruct (Engine.realtime_analyzer dm). }
  assert (Hheld1 : Engine.held_tokens bought !! tok = Some pos).
  { rewrite Hbought, start_monitoring_held. cbn. apply lookup_insert_eq. }
  assert (Hs1 : Engine.sell_multiplier bought = Engine.sell_multiplier dm).
  { rewrite Hbought. unfold Engine.start_monitoring_token. cbn.
    now destruct (Engine.realtime_analyzer dm). }
  assert (Hr1 : Engine.simulation_results bought
                = Engine.simulation_results dm
                  ++ [Engine.Trade tok b "buy" (Engine.clock cenv) false]).
  { rewrite Hbought. unfold Engine.start_monitoring_token. cbn.
    now destruct (Engine.realtime_analyzer dm). }
  assert (Hb1 : ~ Engine.buy_price pos == 0) by exact Hb.
  assert (Htp1 : Engine.sell_multiplier bought <= p / Engine.buy_price pos)
    by (rewrite Hs1; exact Htp).
  subst sold.
  rewrite (evaluate_simulated_take_profit tok p whale env bought pos Hsim1 Hheld1 Hb1 Htp1).
  cbn. rewrite lookup_delete_eq. split; [reflexivity|].
  assert (Hres : Engine.simulation_results bought
                 ++ [simulated_sell_entry tok pos bought (Engine.now env)]
                 = Engine.simulation_results dm
                   ++ [Engine.Trade tok b "buy" (Engine.clock cenv) false;
                       Engine.Trade tok (b * Engine.sell_multiplier dm) "sell"
                         (Engine.now env) false]).
  { rewrite Hr1, <- app_assoc. unfold simulated_sell_entry. now rewrite Hs1. }
  split; [exact Hres|].
  unfold Engine.get_simulation_profit_loss. cbn. rewrite Hres.
  apply profit_loop_round_trip.
Qed.

(** ** What an evaluation leaves alone *)

Definition params_kept (dm dm' : Engine.t) : Prop :=
  Engine.buy_amount_sol dm' = Engine.buy_amount_sol dm
  /\ Engine.sell_multiplier dm' = Engine.sell_multiplier dm
  /\ Engine.trailing_stop_percent dm' = Engine.trailing_stop_percent dm
  /\ Engine.simulation_mode dm' = Engine.simulation_mode dm
  /\ Engine.capital dm' = Engine.capital dm
  /\ Engine.available_capital dm' = Engine.available_capital dm.

Lemma params_kept_trans dm1 dm2 dm3 :
  params_kept dm1 dm2 -> params_kept dm2 dm3 -> params_kept dm1 dm3.
Proof.
  unfold params_kept. intros (?&?&?&?&?&?) (?&?&?&?&?&?). repeat split; congruence.
Qed.

Lemma settings_params dm dm' : settings_kept dm dm' -> params_kept dm dm'.
Proof. unfold settings_kept, params_kept. tauto. Qed.

Lemma learn_creators_params creators dm :
  params_kept dm (Engine.learn_creators creators dm).1.
Proof.
  revert dm. induction creators as [|c rest IH]; intros dm; [repeat split|].
  cbn. destruct (Engine.successful_creator_cache dm) as [cache|]; [|repeat split].
  destruct (decide (c ∈ cache)); [apply IH|].
  eapply params_kept_trans; [|apply IH]. repeat split.
Qed.

Lemma evaluate_params tok p whale env dm :
  params_kept dm (Engine.after (Engine.evaluate_held_tokens_for_sale tok p whale env dm)).
Proof.
  unfold Engine.evaluate_held_tokens_for_sale.
  destruct (Engine.held_tokens dm !! tok) as [pos|]; [|repeat split].
  destruct (Py.truediv _ _) as [ratio|]; [|repeat split].
  destruct (Qle_bool _ _).
  - pose proof (settings_params _ _
                  (execute_sale_settings tok (Engine.now env) (Engine.sell_reply env) dm))
      as Hs.
    destruct (Engine._execute_sale _ _ _ _) as [[dm1 sold] err]. cbn [fst] in Hs.
    destruct (Engine.simulation_mode dm1); [|exact Hs].
    destruct (Engine.held_tokens dm1 !! tok) as [pos1|]; [|exact Hs].
    destruct (Py.Qlt_bool _ _); [|exact Hs].
    pose proof (learn_creators_params (Engine.creator_wallets pos1) dm1) as Hl.
    destruct (Engine.learn_creators _ _) as [dm2 err2]. cbn [fst] in Hl. cbn.
    exact (params_kept_trans _ _ _ Hs Hl).
  - set (dm1 := Engine.with_held _ dm).
    pose proof (settings_params _ _
                  (execute_sale_settings tok (Engine.now env) (Engine.sell_reply env) dm1))
      as Hs.
    destruct (Py.Qlt_bool _ _).
    + destruct (Engine._execute_sale _ _ _ _) as [[dm2 sold] err]. exact Hs.
    + destruct (_ || _); [|repeat split].
      destruct (Engine._execute_sale _ _ _ _) as [[dm2 sold] err]. exact Hs.
Qed.

(** X8.  Exit evaluation is local: whatever sequence of price updates is
    evaluated, the engine's parameters, mode and capital are unchanged, and
    the position of a token that none of the updates is about is exactly as
    it was. *)
Theorem evaluations_are_local calls dm :
  params_kept dm (Engine.evaluations calls dm)
  /\ forall tok,
       (forall c, In c calls -> Engine.ec_token c <> tok) ->
       Engine.held_tokens (Engine.evaluations calls dm) !! tok
       = Engine.held_tokens dm !! tok.
Proof.
  revert dm. induction calls as [|c calls IH]; intros dm.
  - split; [repeat split|reflexivity].
  - cbn [Engine.evaluations fold_left].
    destruct (IH (Engine.evaluate_call dm c)) as [Hp Hh]. split.
    + eapply params_kept_trans; [|exact Hp]. apply evaluate_params.
    + intros tok Hne. unfold Engine.evaluations in Hh. rewrite Hh.
      * unfold Engine.evaluate_call. apply evaluate_other_token.
        intros ->. now apply (Hne c); [left|].
      * intros c' Hin. apply Hne. now right.
Qed.

(** ** Forced liquidation *)

Lemma forced_sell_simulated tok now loop_time reply dm :
  Engine.simulation_mode dm = true ->
  let dm' := Engine.forced_sell tok now loop_time reply dm in
  Engine.simulation_mode dm' = true
  /\ Engine.held_tokens dm' = delete tok (Engine.held_tokens dm).
Proof.
  intros Hsim. cbv zeta. unfold Engine.forced_sell, Engine._execute_sale. rewrite Hsim.
  destruct (Engine.held_tokens dm !! tok) as [pos|] eqn:Hheld; cbn.
  - now split.
  - split; [exact Hsim|]. symmetry. now apply delete_id.
Qed.

Lemma forced_sell_simulated_journal tok now loop_time reply dm :
  Engine.simulation_mode dm = true ->
  exists line,
    Engine.real_trades_log (Engine.forced_sell tok now loop_time reply dm)
    = Engine.real_trades_log dm ++ [line]
    /\ Engine.token line = tok /\ Engine.forced line = true.
Proof.
  intros Hsim. unfold Engine.forced_sell, Engine._execute_sale. rewrite Hsim.
  destruct (Engine.held_tokens dm !! tok) as [pos|] eqn:Hheld;
    eexists; cbn; repeat split.
Qed.

(** X9.  In simulation mode [sell_all_tokens] liquidates: every token of
    the key list is unheld afterwards and no other position is touched, so
    that nothing is held when the list is that of the held tokens.  Each
    turn of the loop also appends one line marked [forced] to the journal
    of real trades, although the engine is simulating. *)
Theorem simulated_liquidation keys answers dm :
  Engine.simulation_mode dm = true ->
  let dm' := Engine.sell_all_tokens keys answers dm in
  (forall tok, In tok keys -> Engine.held_tokens dm' !! tok = None)
  /\ (forall tok, ~ In tok keys ->
      Engine.held_tokens dm' !! tok = Engine.held_tokens dm !! tok)
  /\ ((forall tok, is_Some (Engine.held_tokens dm !! tok) -> In tok keys) ->
      Engine.held_tokens dm' = ∅)
  /\ length (Engine.real_trades_log dm')
     = (length (Engine.real_trades_log dm) + length keys)%nat.
Proof.
  intros Hsim. cbv zeta.
  assert (H : Engine.simulation_mode (Engine.sell_all_tokens keys answers dm) = true
              /\ (forall tok, In tok keys ->
                  Engine.held_tokens (Engine.sell_all_tokens keys answers dm) !! tok = None)
              /\ (forall tok, ~ In tok keys ->
                  Engine.held_tokens (Engine.sell_all_tokens keys answers dm) !! tok
                  = Engine.held_tokens dm !! tok)
              /\ length (Engine.real_trades_log (Engine.sell_all_tokens keys answers dm))
                 = (length (Engine.real_trades_log dm) + length keys)%nat).
  { revert dm Hsim. unfold Engine.sell_all_tokens.
    induction keys as [|k keys IH]; intros dm Hsim.
    - cbn. repeat split; [exact Hsim|intros tok []|lia].
    - cbn [fold_left].
      set (dm1 := Engine.forced_sell k _ _ _ dm).
      destruct (forced_sell_simulated k (Engine.fe_now (answers k))
                  (Engine.fe_loop_time (answers k)) (Engine.fe_reply (answers k))
                  dm Hsim) as [Hsim1 Hheld1].
      destruct (forced_sell_simulated_journal k (Engine.fe_now (answers k))
                  (Engine.fe_loop_time (answers k)) (Engine.fe_reply (answers k))
                  dm Hsim) as (line & Hlog & _).
      fold dm1 in Hsim1, Hheld1, Hlog.
      destruct (IH dm1 Hsim1) as (Hs & Hin & Hout & Hlen).
      split; [exact Hs|]. split; [|split].
      + intros tok [->|Hk]; [|now apply Hin].
        destruct (in_dec String.string_dec tok keys) as [Hk|Hk]; [now apply Hin|].
        rewrite (Hout _ Hk), Hheld1. apply lookup_delete_eq.
      + intros tok Hn. rewrite Hout by (intros Hk; apply Hn; now right).
        rewrite Hheld1. apply lookup_delete_ne. intros ->. apply Hn. now left.
      + rewrite Hlen, Hlog, length_app. cbn. lia. }
  destruct H as (_ & Hin & Hout & Hlen).
  split; [exact Hin|]. split; [exact Hout|]. split; [|exact Hlen].
  intros Hcover. apply map_eq. intros tok. rewrite lookup_empty.
  destruct (in_dec String.string_dec tok keys) as [Hk|Hk]; [now apply Hin|].
  rewrite (Hout _ Hk).
  destruct (Engine.held_tokens dm !! tok) eqn:E; [|reflexivity].
  exfalso. apply Hk, Hcover. rewrite E. now eexists.
Qed.

(** X10.  In real mode the forced sale of a held token always writes a
    line marked [forced], whether the sale went through or not.  When
    [execute_sell] reports a non-zero price, the journal of real trades gets
    two sell lines for the one sale, the ordinary one and the forced one,
    and the position is removed.  When the sale is refused, the position
    stays held and the journal still gets a forced sell line, at the buy
    price. *)
Theorem forced_sale_always_journaled tok now loop_time reply dm pos :
  Engine.simulation_mode dm = false ->
  Engine.held_tokens dm !! tok = Some pos ->
  let dm' := Engine.forced_sell tok now loop_time reply dm in
  (forall q, reply = Some (Engine.SellData true (Some q)) -> ~ q == 0 ->
     Engine.held_tokens dm' !! tok = None
     /\ Engine.real_trades_log dm'
        = Engine.real_trades_log dm
          ++ [Engine.Trade tok q "sell" now false;
              Engine.Trade tok q "sell" loop_time true])
  /\ (sale_refused reply ->
      Engine.held_tokens dm' !! tok = Some pos
      /\ Engine.real_trades_log dm'
         = Engine.real_trades_log dm
           ++ [Engine.Trade tok (Engine.buy_price pos) "sell" loop_time true]).
Proof.
  intros Hsim Hheld. cbv zeta. unfold Engine.forced_sell, Engine._execute_sale.
  rewrite Hsim, Hheld. split.
  - intros q -> Hq. cbn. unfold Engine._log_completed_trade. rewrite Hheld.
    unfold Engine.stop_monitoring_token, Py.truthy. cbn.
    assert (Hz : Qeq_bool q 0 = false).
    { destruct (Qeq_bool q 0) eqn:E; [|reflexivity].
      apply Qeq_bool_iff in E. contradiction. }
    destruct (Engine.realtime_analyzer dm); cbn; rewrite lookup_delete_eq, Hz; cbn;
      rewrite <- app_assoc; now split.
  - intros Hr. destruct reply as [[[] reported]|]; try contradiction;
      cbn; rewrite Hheld; now split.
Qed.

(** ** The controller's tick *)

(** What the parameter mutations and the rollback step never write in the
    controller: the aggregates of the tick, the best parameters and the
    freeze flag. *)
Definition observation_kept (o o' : Optimizer.t) : Prop :=
  Optimizer.best_params o' = Optimizer.best_params o
  /\ Optimizer.best_profit o' = Optimizer.best_profit o
  /\ Optimizer.freeze o' = Optimizer.freeze o
  /\ Optimizer.sim_profit o' = Optimizer.sim_profit o
  /\ Optimizer.winrate o' = Optimizer.winrate o
  /\ Optimizer.drawdown o' = Optimizer.drawdown o.

Lemma observation_kept_refl o : observation_kept o o.
Proof. repeat split. Qed.

Lemma observation_kept_trans o1 o2 o3 :
  observation_kept o1 o2 -> observation_kept o2 o3 -> observation_kept o1 o3.
Proof.
  unfold observation_kept. intros (?&?&?&?&?&?) (?&?&?&?&?&?). repeat split; congruence.
Qed.

Lemma mutations_observation env st :
  observation_kept (Optimizer.optimizer st)
    (Optimizer.optimizer (Optimizer.mutations env st)).
Proof.
  unfold Optimizer.mutations, Optimizer.random_mutation, Optimizer.classic_adjustment,
    Optimizer.profile_rotation.
  destruct (Optimizer.freeze _); [apply observation_kept_refl|].
  destruct (Py.Qlt_bool (Optimizer.draw_profile env) 0.15); cbn -[Py.max Py.min].
  all: destruct (Py.Qlt_bool 0.2 _); cbn -[Py.max Py.min];
    [|destruct (Py.Qlt_bool _ 0.4); cbn -[Py.max Py.min];
      [|destruct (_ && _); cbn -[Py.max Py.min]]].
  all: destruct (Py.Qlt_bool (Optimizer.draw_mutation env) 0.1); cbn -[Py.max Py.min];
    repeat split.
Qed.

Lemma rollback_observation env st :
  observation_kept (Optimizer.optimizer st)
    (Optimizer.optimizer (Optimizer.rollback env st)).
Proof.
  unfold Optimizer.rollback.
  destruct (Optimizer.best_params (Optimizer.optimizer st)) as [best|] eqn:Hbest;
    [|apply observation_kept_refl].
  destruct (_ && _); [|apply observation_kept_refl].
  cbn. repeat split. cbn. now rewrite Hbest.
Qed.

Lemma update_streaks_observation o :
  observation_kept o (Optimizer.update_streaks o).
Proof.
  unfold Optimizer.update_streaks.
  destruct (Py.Qlt_bool (Optimizer.sim_profit o) _);
    [|destruct (Py.Qlt_bool _ (Optimizer.sim_profit o))]; cbn; repeat split.
Qed.

Lemma recovery_observation env st :
  observation_kept (Optimizer.optimizer st)
    (Optimizer.optimizer (Optimizer.recovery env st)).
Proof.
  unfold Optimizer.recovery. destruct (_ && _); cbn; repeat split.
Qed.

Lemma rollback_step_observation env st :
  observation_kept (Optimizer.optimizer st)
    (Optimizer.optimizer (Optimizer._check_and_apply_rollback env st)).
Proof.
  unfold Optimizer._check_and_apply_rollback. cbn [Optimizer.optimizer].
  eapply observation_kept_trans; [apply (rollback_observation env)|].
  eapply observation_kept_trans; [apply update_streaks_observation|].
  eapply observation_kept_trans;
    [apply (recovery_observation env
              (Optimizer.TickState (Optimizer.engine (Optimizer.rollback env st))
                 (Optimizer.update_streaks
                    (Optimizer.optimizer (Optimizer.rollback env st)))
                 (Optimizer.decisions (Optimizer.rollback env st))))|].
  repeat split.
Qed.

Lemma observe_spec pow_half env st :
  let st1 := Optimizer.observe pow_half env st in
  let o := Optimizer.optimizer st in
  let o1 := Optimizer.optimizer st1 in
  let profit := Optimizer._compute_profit (Engine.simulation_trades_log (Optimizer.engine st)) in
  Optimizer.engine st1 = Optimizer.engine st
  /\ Optimizer.decisions st1 = Optimizer.decisions st
  /\ Optimizer.sim_profit o1 = profit
  /\ Optimizer.best_profit o1
     = (if Optimizer.gt_ext profit (Optimizer.best_profit o) then Some profit
        else Optimizer.best_profit o)
  /\ Optimizer.freeze o1 = Optimizer.freeze o
  /\ Optimizer.loss_streak o1 = Optimizer.loss_streak o
  /\ Optimizer.win_streak o1 = Optimizer.win_streak o
  /\ Optimizer.rollback_count o1 = Optimizer.rollback_count o.
Proof.
  cbv zeta. unfold Optimizer.observe.
  destruct (Optimizer._compute_stats pow_half _) as [[w a] v]. cbn. repeat split.
Qed.

Lemma update_freeze_spec st :
  let st1 := Optimizer.update_freeze st in
  let o := Optimizer.optimizer st in
  let o1 := Optimizer.optimizer st1 in
  Optimizer.engine st1 = Optimizer.engine st
  /\ Optimizer.decisions st1 = Optimizer.decisions st
  /\ Optimizer.sim_profit o1 = Optimizer.sim_profit o
  /\ Optimizer.best_profit o1 = Optimizer.best_profit o
  /\ Optimizer.winrate o1 = Optimizer.winrate o
  /\ Optimizer.drawdown o1 = Optimizer.drawdown o
  /\ Optimizer.loss_streak o1 = Optimizer.loss_streak o
  /\ Optimizer.win_streak o1 = Optimizer.win_streak o
  /\ Optimizer.rollback_count o1 = Optimizer.rollback_count o
  /\ (Optimizer.freeze o1 = true ->
      0.6 <= Optimizer.winrate o1
      /\ Optimizer.drawdown o1 <= 0.15
      /\ forall best, Optimizer.best_profit o1 = Some best ->
                      best * 0.8 <= Optimizer.sim_profit o1).
Proof.
  cbv zeta. unfold Optimizer.update_freeze. cbn [Optimizer.engine Optimizer.decisions
    Optimizer.optimizer].
  set (o := Optimizer.optimizer st).
  set (o1 := if negb (Optimizer.freeze o) && Py.Qlt_bool 0.7 (Optimizer.winrate o)
                && Py.Qlt_bool (Optimizer.drawdown o) 0.1
                && Py.Qlt_bool 0.5 (Optimizer.sim_profit o)
             then Optimizer.with_freeze true o else o).
  assert (H1 : Optimizer.sim_profit o1 = Optimizer.sim_profit o
               /\ Optimizer.best_profit o1 = Optimizer.best_profit o
               /\ Optimizer.winrate o1 = Optimizer.winrate o
               /\ Optimizer.drawdown o1 = Optimizer.drawdown o
               /\ Optimizer.loss_streak o1 = Optimizer.loss_streak o
               /\ Optimizer.win_streak o1 = Optimizer.win_streak o
               /\ Optimizer.rollback_count o1 = Optimizer.rollback_count o).
  { subst o1. destruct (_ && _); cbn; repeat split. }
  destruct H1 as (Hp & Hb & Hw & Hd & Hl & Hwn & Hr).
  assert (Hthaw : Optimizer.engine st = Optimizer.engine st
                  /\ Optimizer.decisions st = Optimizer.decisions st
                  /\ Optimizer.sim_profit (Optimizer.with_freeze false o1)
                     = Optimizer.sim_profit o
                  /\ Optimizer.best_profit (Optimizer.with_freeze false o1)
                     = Optimizer.best_profit o
                  /\ Optimizer.winrate (Optimizer.with_freeze false o1)
                     = Optimizer.winrate o
                  /\ Optimizer.drawdown (Optimizer.with_freeze false o1)
                     = Optimizer.drawdown o
                  /\ Optimizer.loss_streak (Optimizer.with_freeze false o1)
                     = Optimizer.loss_streak o
                  /\ Optimizer.win_streak (Optimizer.with_freeze false o1)
                     = Optimizer.win_streak o
                  /\ Optimizer.rollback_count (Optimizer.with_freeze false o1)
                     = Optimizer.rollback_count o
                  /\ (Optimizer.freeze (Optimizer.with_freeze false o1) = true ->
                      0.6 <= Optimizer.winrate (Optimizer.with_freeze false o1)
                      /\ Optimizer.drawdown (Optimizer.with_freeze false o1) <= 0.15
                      /\ forall best,
                           Optimizer.best_profit (Optimizer.with_freeze false o1)
                           = Some best ->
                           best * 0.8
                           <= Optimizer.sim_profit (Optimizer.with_freeze false o1))).
  { cbn. repeat (split; [first [reflexivity|assumption]|]). intros H. discriminate H. }
  destruct (Optimizer.freeze o1) eqn:Hf1; cbn [andb].
  - destruct (Py.Qlt_bool (Optimizer.winrate o1) 0.6) eqn:E1; cbn [orb];
      [exact Hthaw|].
    destruct (Py.Qlt_bool 0.15 (Optimizer.drawdown o1)) eqn:E2; cbn [orb];
      [exact Hthaw|].
    destruct (Optimizer.lt_scaled _ _ _) eqn:E3; [exact Hthaw|].
    repeat (split; [first [reflexivity|assumption]|]). intros _.
    split; [now apply Qlt_bool_false_iff in E1|].
    split; [now apply Qlt_bool_false_iff in E2|].
    intros best Hbest. unfold Optimizer.lt_scaled in E3. rewrite Hbest in E3.
    now apply Qlt_bool_false_iff in E3.
  - repeat (split; [first [reflexivity|assumption]|]).
    rewrite Hf1. intros H. discriminate H.
Qed.

(** The order on [best_profit], which starts at minus infinity. *)
Definition ext_le (a b : option Q) : Prop :=
  match a, b with
  | None, _ => True
  | Some x, Some y => x <= y
  | Some _, None => False
  end.

(** X11.  [best_profit] never decreases over a tick, and after a tick it
    is a number at least as large as the profit the tick computed from the
    simulation journal. *)
Theorem best_profit_never_decreases pow_half env st :
  let o := Optimizer.optimizer st in
  let o' := Optimizer.optimizer (Optimizer.analyze_and_adjust pow_half env st) in
  ext_le (Optimizer.best_profit o) (Optimizer.best_profit o')
  /\ exists best,
       Optimizer.best_profit o' = Some best
       /\ Optimizer._compute_profit
            (Engine.simulation_trades_log (Optimizer.engine st)) <= best.
Proof.
  cbv zeta. unfold Optimizer.analyze_and_adjust.
  set (st1 := Optimizer.observe pow_half env st).
  set (st2 := Optimizer.update_freeze st1).
  destruct (rollback_step_observation env (Optimizer.mutations env st2))
    as (_ & Hb3 & _).
  destruct (mutations_observation env st2) as (_ & Hb2 & _).
  destruct (update_freeze_spec st1) as (_ & _ & _ & Hb1 & _).
  destruct (observe_spec pow_half env st) as (_ & _ & _ & Hb0 & _).
  fold st1 in Hb0. fold st2 in Hb1.
  rewrite Hb3, Hb2, Hb1, Hb0.
  set (profit := Optimizer._compute_profit _).
  unfold Optimizer.gt_ext, ext_le.
  destruct (Optimizer.best_profit (Optimizer.optimizer st)) as [b|].
  - destruct (Py.Qlt_bool b profit) eqn:E.
    + apply Qlt_bool_iff in E. split; [lra|]. exists profit. split; [reflexivity|lra].
    + apply Qlt_bool_false_iff in E. split; [lra|]. exists b. now split.
  - split; [exact I|]. exists profit. split; [reflexivity|lra].
Qed.

(** X12.  While the controller is frozen it keeps its hands off: if the
    freeze flag is set once the tick has updated it, the tick changes
    nothing in the engine, journals no decision and counts no rollback. *)
Theorem frozen_tick_changes_nothing pow_half env st :
  Optimizer.freeze
    (Optimizer.optimizer (Optimizer.update_freeze (Optimizer.observe pow_half env st)))
  = true ->
  let st' := Optimizer.analyze_and_adjust pow_half env st in
  Optimizer.engine st' = Optimizer.engine st
  /\ Optimizer.decisions st' = Optimizer.decisions st
  /\ Optimizer.rollback_count (Optimizer.optimizer st')
     = Optimizer.rollback_count (Optimizer.optimizer st)
  /\ Optimizer.freeze (Optimizer.optimizer st') = true.
Proof.
  intros Hf. cbv zeta. unfold Optimizer.analyze_and_adjust.
  set (st1 := Optimizer.observe pow_half env st) in *.
  set (st2 := Optimizer.update_freeze st1) in *.
  destruct (update_freeze_spec st1) as (He1 & Hd1 & _ & _ & _ & _ & _ & _ & Hr1 & _).
  destruct (observe_spec pow_half env st) as (He0 & Hd0 & _ & _ & _ & _ & _ & Hr0).
  fold st1 in He0, Hd0, Hr0. fold st2 in He1, Hd1, Hr1.
  clearbody st2. clearbody st1.
  assert (Hm : Optimizer.mutations env st2 = st2).
  { unfold Optimizer.mutations. now rewrite Hf. }
  rewrite Hm.
  unfold Optimizer._check_and_apply_rollback.
  assert (Hrb : Optimizer.rollback env st2 = st2).
  { unfold Optimizer.rollback. rewrite Hf.
    destruct (Optimizer.best_params _); [|reflexivity].
    now rewrite andb_false_r. }
  rewrite Hrb.
  set (st3 := Optimizer.TickState (Optimizer.engine st2)
                (Optimizer.update_streaks (Optimizer.optimizer st2))
                (Optimizer.decisions st2)).
  assert (Hf3 : Optimizer.freeze (Optimizer.optimizer st3) = true).
  { destruct (update_streaks_observation (Optimizer.optimizer st2)) as (_ & _ & H & _).
    subst st3. cbn [Optimizer.optimizer]. now rewrite H. }
  assert (Hrc : Optimizer.recovery env st3 = st3).
  { unfold Optimizer.recovery. rewrite Hf3. now rewrite andb_false_r. }
  rewrite Hrc. subst st3. cbn.
  split; [congruence|]. split; [congruence|]. split.
  - unfold Optimizer.update_streaks.
    destruct (Py.Qlt_bool (Optimizer.sim_profit _) _);
      [|destruct (Py.Qlt_bool _ (Optimizer.sim_profit _))]; cbn; congruence.
  - unfold Optimizer.update_streaks.
    destruct (Py.Qlt_bool (Optimizer.sim_profit _) _);
      [|destruct (Py.Qlt_bool _ (Optimizer.sim_profit _))]; cbn; exact Hf.
Qed.

(** X13.  Whenever the controller is frozen at the end of a tick, none of
    the conditions that end a freeze holds: the win rate is at least 0.6,
    the drawdown at most 0.15, and the profit at least 0.8 times the best
    profit. *)
Theorem frozen_means_healthy pow_half env st :
  let o' := Optimizer.optimizer (Optimizer.analyze_and_adjust pow_half env st) in
  Optimizer.freeze o' = true ->
  0.6 <= Optimizer.winrate o'
  /\ Optimizer.drawdown o' <= 0.15
  /\ forall best, Optimizer.best_profit o' = Some best ->
                  best * 0.8 <= Optimizer.sim_profit o'.
Proof.
  cbv zeta. unfold Optimizer.analyze_and_adjust.
  set (st2 := Optimizer.update_freeze (Optimizer.observe pow_half env st)).
  pose proof (observation_kept_trans _ _ _ (mutations_observation env st2)
                (rollback_step_observation env (Optimizer.mutations env st2)))
    as (_ & Hb & Hf & Hp & Hw & Hd).
  rewrite Hb, Hf, Hp, Hw, Hd.
  subst st2.
  destruct (update_freeze_spec (Optimizer.observe pow_half env st))
    as (_ & _ & _ & _ & _ & _ & _ & _ & _ & H).
  exact H.
Qed.

(** The engine [e'] is [e] with other values for the two tuned
    parameters. *)
Definition retuned (e e' : Engine.t) : Prop :=
  exists buy sell, e' = Engine.with_params buy sell e.

Lemma retuned_refl e : retuned e e.
Proof. exists (Engine.buy_amount_sol e), (Engine.sell_multiplier e). now destruct e. Qed.

Lemma retuned_trans e1 e2 e3 : retuned e1 e2 -> retuned e2 e3 -> retuned e1 e3.
Proof. intros (b & s & ->) (b' & s' & ->). now exists b', s'. Qed.

Lemma assign_retuned buy sell st :
  retuned (Optimizer.engine st) (Optimizer.engine (Optimizer.assign buy sell st)).
Proof. now exists buy, sell. Qed.

Lemma mutations_retuned env st :
  retuned (Optimizer.engine st) (Optimizer.engine (Optimizer.mutations env st)).
Proof.
  unfold Optimizer.mutations.
  destruct (Optimizer.freeze _); [apply retuned_refl|].
  assert (Ha : retuned (Optimizer.engine st)
                 (Optimizer.engine (Optimizer.profile_rotation env st))).
  { unfold Optimizer.profile_rotation.
    destruct (Py.Qlt_bool _ _); [|apply retuned_refl]. eexists _, _. reflexivity. }
  set (sa := Optimizer.profile_rotation env st) in *.
  assert (Hb : retuned (Optimizer.engine sa)
                 (Optimizer.engine (Optimizer.classic_adjustment env sa))).
  { unfold Optimizer.classic_adjustment.
    destruct (Py.Qlt_bool 0.2 _); [eexists _, _; reflexivity|].
    destruct (Py.Qlt_bool _ 0.4); [eexists _, _; reflexivity|].
    destruct (_ && _); [eexists _, _; reflexivity|apply retuned_refl]. }
  set (sb := Optimizer.classic_adjustment env sa) in *.
  assert (Hc : retuned (Optimizer.engine sb)
                 (Optimizer.engine (Optimizer.random_mutation env sb))).
  { unfold Optimizer.random_mutation.
    destruct (Py.Qlt_bool _ _); [eexists _, _; reflexivity|apply retuned_refl]. }
  exact (retuned_trans _ _ _ (retuned_trans _ _ _ Ha Hb) Hc).
Qed.

Lemma rollback_step_retuned env st :
  retuned (Optimizer.engine st)
    (Optimizer.engine (Optimizer._check_and_apply_rollback env st)).
Proof.
  unfold Optimizer._check_and_apply_rollback. cbn [Optimizer.engine].
  assert (Ha : retuned (Optimizer.engine st) (Optimizer.engine (Optimizer.rollback env st))).
  { unfold Optimizer.rollback.
    destruct (Optimizer.best_params _); [|apply retuned_refl].
    destruct (_ && _); [eexists _, _; reflexivity|apply retuned_refl]. }
  set (sr := Optimizer.rollback env st) in *.
  set (ss := Optimizer.TickState (Optimizer.engine sr)
               (Optimizer.update_streaks (Optimizer.optimizer sr))
               (Optimizer.decisions sr)).
  assert (Hb : retuned (Optimizer.engine ss) (Optimizer.engine (Optimizer.recovery env ss))).
  { unfold Optimizer.recovery.
    destruct (_ && _); [eexists _, _; reflexivity|apply retuned_refl]. }
  exact (retuned_trans _ _ _ Ha Hb).
Qed.

(** X14.  A tick of the controller writes nothing in the engine but
    [buy_amount_sol] and [sell_multiplier]: the trailing stop, the mode,
    the positions, the capital, the caches and the journals are as they
    were. *)
Theorem tick_only_retunes pow_half env st :
  exists buy sell,
    Optimizer.engine (Optimizer.analyze_and_adjust pow_half env st)
    = Engine.with_params buy sell (Optimizer.engine st).
Proof.
  unfold Optimizer.analyze_and_adjust.
  set (st2 := Optimizer.update_freeze (Optimizer.observe pow_half env st)).
  assert (H2 : Optimizer.engine st2 = Optimizer.engine st).
  { subst st2.
    destruct (update_freeze_spec (Optimizer.observe pow_half env st)) as (He1 & _).
    destruct (observe_spec pow_half env st) as (He0 & _). congruence. }
  rewrite <- H2.
  exact (retuned_trans _ _ _ (mutations_retuned env st2)
           (rollback_step_retuned env (Optimizer.mutations env st2))).
Qed.

(** ** The aggregates *)

Lemma count_wins_le profits :
  (Optimizer.count_wins profits <= length profits)%nat.
Proof. unfold Optimizer.count_wins. apply length_filter. Qed.

Lemma of_nat_le (n m : nat) : (n <= m)%nat -> Optimizer.of_nat n <= Optimizer.of_nat m.
Proof.
  intros H. unfold Optimizer.of_nat. rewrite <- Zle_Qle. lia.
Qed.

Lemma of_nat_pos (n : nat) : (0 < n)%nat -> 0 < Optimizer.of_nat n.
Proof.
  intros H. unfold Optimizer.of_nat.
  change 0 with (inject_Z 0). rewrite <- Zlt_Qlt. lia.
Qed.

(** X15.  The win rate computed from a journal is a fraction: it lies
    between 0 and 1, and is 0 for a journal without a completed trade. *)
Theorem winrate_is_a_fraction pow_half trades :
  let winrate := (Optimizer._compute_stats pow_half trades).1.1 in
  0 <= winrate /\ winrate <= 1
  /\ (Optimizer.trade_profits trades ∅ = [] -> winrate = 0).
Proof.
  cbv zeta. unfold Optimizer._compute_stats. cbn [fst].
  set (profits := Optimizer.trade_profits trades ∅).
  pose proof (count_wins_le profits) as Hle.
  set (wins := Optimizer.count_wins profits) in *.
  replace (wins + (length profits - wins))%nat with (length profits) by lia.
  destruct (0 <? length profits)%nat eqn:Epos.
  - apply Nat.ltb_lt in Epos.
    pose proof (of_nat_pos _ Epos) as Hpos.
    pose proof (of_nat_le _ _ Hle) as Hw.
    assert (H0 : 0 <= Optimizer.of_nat wins).
    { change 0 with (Optimizer.of_nat 0). apply of_nat_le. lia. }
    split; [|split].
    + apply Qle_shift_div_l; [exact Hpos|lra].
    + apply Qle_shift_div_r; [exact Hpos|lra].
    + intros He. rewrite He in Epos. cbn in Epos. lia.
  - split; [lra|]. split; [lra|]. reflexivity.
Qed.

Lemma drawdown_loop_ge profits equity peak max_dd :
  max_dd <= Optimizer.drawdown_loop profits equity peak max_dd.
Proof.
  revert equity peak max_dd.
  induction profits as [|x rest IH]; intros equity peak max_dd; cbn -[Py.max]; [lra|].
  eapply Qle_trans; [apply py_max_ge_l|apply IH].
Qed.

Lemma drawdown_loop_no_loss profits equity peak max_dd :
  Forall (fun x => 0 <= x) profits ->
  peak == equity -> 0 <= equity -> max_dd == 0 ->
  Optimizer.drawdown_loop profits equity peak max_dd == 0.
Proof.
  intros Hall. revert equity peak max_dd.
  induction Hall as [|x rest Hx Hrest IH]; intros equity peak max_dd Hpe He Hm;
    cbn -[Py.max]; [exact Hm|].
  assert (Hpeak : Py.max peak (equity + x) == equity + x).
  { unfold Py.max. destruct (Py.Qlt_bool peak (equity + x)) eqn:E; [reflexivity|].
    apply Qlt_bool_false_iff in E. lra. }
  apply IH.
  - exact Hpeak.
  - lra.
  - assert (Hdd : (if Py.Qlt_bool 0 (Py.max peak (equity + x))
                   then (Py.max peak (equity + x) - (equity + x))
                        / Py.max peak (equity + x)
                   else 0) == 0).
    { destruct (Py.Qlt_bool 0 _) eqn:E; [|reflexivity].
      apply Qlt_bool_iff in E.
      assert (Hz : Py.max peak (equity + x) - (equity + x) == 0) by lra.
      unfold Qdiv. rewrite Hz. ring. }
    unfold Py.max at 1. destruct (Py.Qlt_bool max_dd _); [exact Hdd|exact Hm].
Qed.

(** X16.  The drawdown computed from a journal is never negative, and it
    is zero for a journal in which no completed trade lost money. *)
Theorem drawdown_is_nonnegative trades :
  0 <= Optimizer._compute_drawdown trades
  /\ (Forall (fun profit => 0 <= profit) (Optimizer.trade_profits trades ∅) ->
      Optimizer._compute_drawdown trades == 0).
Proof.
  unfold Optimizer._compute_drawdown. split.
  - apply drawdown_loop_ge.
  - intros H. apply drawdown_loop_no_loss; [exact H|reflexivity|lra|reflexivity].
Qed.

(** X17.  The two streak counters are never both positive: a tick that
    starts with one of them at zero ends with one of them at zero, and a
    tick on which the profit fell ends with the win streak at zero. *)
Theorem streaks_exclude_each_other pow_half env st :
  let o := Optimizer.optimizer st in
  let o' := Optimizer.optimizer (Optimizer.analyze_and_adjust pow_half env st) in
  (Optimizer.loss_streak o = O \/ Optimizer.win_streak o = O ->
   Optimizer.loss_streak o' = O \/ Optimizer.win_streak o' = O)
  /\ (Optimizer._compute_profit (Engine.simulation_trades_log (Optimizer.engine st))
      < Optimizer.last_profit o ->
      Optimizer.win_streak o' = O
      /\ Optimizer.loss_streak o' = S (Optimizer.loss_streak o)).
Proof.
  cbv zeta. unfold Optimizer.analyze_and_adjust.
  set (st2 := Optimizer.update_freeze (Optimizer.observe pow_half env st)).
  assert (H2 : Optimizer.loss_streak (Optimizer.optimizer st2)
               = Optimizer.loss_streak (Optimizer.optimizer st)
               /\ Optimizer.win_streak (Optimizer.optimizer st2)
                  = Optimizer.win_streak (Optimizer.optimizer st)
               /\ Optimizer.last_profit (Optimizer.optimizer st2)
                  = Optimizer.last_profit (Optimizer.optimizer st)
               /\ Optimizer.sim_profit (Optimizer.optimizer st2)
                  = Optimizer._compute_profit
                      (Engine.simulation_trades_log (Optimizer.engine st))).
  { subst st2. unfold Optimizer.update_freeze, Optimizer.observe.
    destruct (Optimizer._compute_stats pow_half _) as [[w a] v].
    cbn -[Optimizer._compute_profit Optimizer._compute_drawdown Py.max].
    repeat match goal with
           | |- context [if ?c then _ else _] =>
               destruct c; cbn -[Optimizer._compute_profit Optimizer._compute_drawdown Py.max]
           end; repeat split. }
  clearbody st2.
  set (st3 := Optimizer.mutations env st2).
  assert (H3 : Optimizer.loss_streak (Optimizer.optimizer st3)
               = Optimizer.loss_streak (Optimizer.optimizer st2)
               /\ Optimizer.win_streak (Optimizer.optimizer st3)
                  = Optimizer.win_streak (Optimizer.optimizer st2)
               /\ Optimizer.last_profit (Optimizer.optimizer st3)
                  = Optimizer.last_profit (Optimizer.optimizer st2)
               /\ Optimizer.sim_profit (Optimizer.optimizer st3)
                  = Optimizer.sim_profit (Optimizer.optimizer st2)).
  { subst st3. unfold Optimizer.mutations, Optimizer.random_mutation,
      Optimizer.classic_adjustment, Optimizer.profile_rotation.
    destruct (Optimizer.freeze _); [repeat split|].
    destruct (Py.Qlt_bool (Optimizer.draw_profile env) 0.15); cbn -[Py.max Py.min].
    all: destruct (Py.Qlt_bool 0.2 _); cbn -[Py.max Py.min];
      [|destruct (Py.Qlt_bool _ 0.4); cbn -[Py.max Py.min];
        [|destruct (_ && _); cbn -[Py.max Py.min]]].
    all: destruct (Py.Qlt_bool (Optimizer.draw_mutation env) 0.1); cbn -[Py.max Py.min];
      repeat split. }
  clearbody st3.
  unfold Optimizer._check_and_apply_rollback.
  set (sr := Optimizer.rollback env st3).
  assert (Hr : Optimizer.loss_streak (Optimizer.optimizer sr)
               = Optimizer.loss_streak (Optimizer.optimizer st3)
               /\ Optimizer.win_streak (Optimizer.optimizer sr)
                  = Optimizer.win_streak (Optimizer.optimizer st3)
               /\ Optimizer.last_profit (Optimizer.optimizer sr)
                  = Optimizer.last_profit (Optimizer.optimizer st3)
               /\ Optimizer.sim_profit (Optimizer.optimizer sr)
                  = Optimizer.sim_profit (Optimizer.optimizer st3)).
  { subst sr. unfold Optimizer.rollback.
    destruct (Optimizer.best_params _); [|repeat split].
    destruct (_ && _); cbn; repeat split. }
  clearbody sr.
  set (os := Optimizer.update_streaks (Optimizer.optimizer sr)).
  set (ss := Optimizer.TickState (Optimizer.engine sr) os (Optimizer.decisions sr)).
  assert (Hv : Optimizer.loss_streak (Optimizer.optimizer (Optimizer.recovery env ss))
               = Optimizer.loss_streak os
               /\ Optimizer.win_streak (Optimizer.optimizer (Optimizer.recovery env ss))
                  = Optimizer.win_streak os).
  { unfold Optimizer.recovery. destruct (_ && _); cbn; now split. }
  cbn [Optimizer.optimizer].
  assert (Hl : Optimizer.loss_streak
                 (Optimizer.set_last_profit
                    (Optimizer.optimizer (Optimizer.recovery env ss)))
               = Optimizer.loss_streak os
               /\ Optimizer.win_streak
                    (Optimizer.set_last_profit
                       (Optimizer.optimizer (Optimizer.recovery env ss)))
                  = Optimizer.win_streak os).
  { cbn. exact Hv. }
  destruct Hl as [-> ->].
  destruct H2 as (Hl2 & Hw2 & Hp2 & Hs2), H3 as (Hl3 & Hw3 & Hp3 & Hs3),
    Hr as (Hlr & Hwr & Hpr & Hsr).
  subst os. unfold Optimizer.update_streaks.
  rewrite Hsr, Hs3, Hs2, Hpr, Hp3, Hp2, Hlr, Hl3, Hl2, Hwr, Hw3, Hw2.
  set (profit := Optimizer._compute_profit _).
  destruct (Py.Qlt_bool profit _) eqn:E1.
  - cbn. split; [now right|]. intros _. now split.
  - apply Qlt_bool_false_iff in E1.
    destruct (Py.Qlt_bool _ profit) eqn:E2; cbn.
    + split; [now left|]. intros H. lra.
    + split; [tauto|]. intros H. lra.
Qed.

(** ** Mint extraction *)

(** The scan steps over [ix]: its data decodes and it is not a pool
    creation of the liquidity-pool program. *)
Definition stepped_over (b58decode : string -> option (list byte))
    (ix : Scanner.instruction) : Prop :=
  exists encoded bytes,
    Scanner.data ix = Some encoded
    /\ b58decode encoded = Some bytes
    /\ String.eqb (Scanner.program_id ix) Scanner.RAYDIUM_LP_V4
       && Scanner.startswith bytes Scanner.initialize2_discriminant = false.

(** [ix] is a pool creation: an instruction of the liquidity-pool program
    whose decoded data starts with the discriminant. *)
Definition creates_pool (b58decode : string -> option (list byte))
    (ix : Scanner.instruction) : Prop :=
  exists encoded bytes tail,
    Scanner.data ix = Some encoded
    /\ b58decode encoded = Some bytes
    /\ Scanner.program_id ix = Scanner.RAYDIUM_LP_V4
    /\ bytes = Scanner.initialize2_discriminant ++ tail.

(** What the scan answers on a pool creation. *)
Definition decide_pool (ix : Scanner.instruction) : Scanner.scan_result :=
  match Scanner.accounts ix !! 8%nat, Scanner.accounts ix !! 9%nat with
  | Some token0, Some token1 =>
      if String.eqb token0 Scanner.SOL_MINT then Scanner.Forward token1
      else if String.eqb token1 Scanner.SOL_MINT then Scanner.Forward token0
      else Scanner.SkippedNonSol
  | _, _ => Scanner.ScanRaised Py.IndexError
  end.

Lemma scan_steps_over b58decode before rest :
  Forall (stepped_over b58decode) before ->
  Scanner.scan_instructions b58decode (before ++ rest)
  = Scanner.scan_instructions b58decode rest.
Proof.
  intros H. induction H as [|ix before (encoded & bytes & Hd & Hdec & Hno) _ IH];
    [reflexivity|].
  cbn [app Scanner.scan_instructions]. now rewrite Hd, Hdec, Hno.
Qed.

Lemma scan_first_pool b58decode before ix rest :
  Forall (stepped_over b58decode) before ->
  creates_pool b58decode ix ->
  Scanner.scan_instructions b58decode (before ++ ix :: rest) = decide_pool ix.
Proof.
  intros Hbefore (encoded & bytes & tail & Hd & Hdec & Hprog & Hbytes).
  rewrite (scan_steps_over _ _ _ Hbefore). cbn [Scanner.scan_instructions].
  rewrite Hd, Hdec, Hprog, String.eqb_refl.
  assert (Hs : Scanner.startswith bytes Scanner.initialize2_discriminant = true)
    by (apply startswith_spec; now exists tail).
  rewrite Hs. reflexivity.
Qed.

(** X18.  The first pool creation among the top-level instructions
    decides, whatever follows it.  For a valid signature and a transaction
    that lists the liquidity-pool program, if the instructions before the
    first pool creation all decode, then: with the base mint at offset 8
    the mint at offset 9 is forwarded, at price 0.0; and with neither offset
    holding the base mint nothing is forwarded, even when a later
    instruction creates a SOL pool. *)
Theorem first_pool_creation_decides signature_ok b58decode sig tx before ix rest :
  signature_ok sig = true ->
  In Scanner.RAYDIUM_LP_V4 (Scanner.account_keys tx) ->
  Scanner.instructions tx = before ++ ix :: rest ->
  Forall (stepped_over b58decode) before ->
  creates_pool b58decode ix ->
  (forall new_mint,
      Scanner.accounts ix !! 8%nat = Some Scanner.SOL_MINT ->
      Scanner.accounts ix !! 9%nat = Some new_mint ->
      Scanner.forwarded signature_ok b58decode sig (Scanner.FetchTransaction tx)
      = Some (new_mint, 0.0))
  /\ (forall token0 token1,
        Scanner.accounts ix !! 8%nat = Some token0 ->
        Scanner.accounts ix !! 9%nat = Some token1 ->
        token0 <> Scanner.SOL_MINT -> token1 <> Scanner.SOL_MINT ->
        Scanner.forwarded signature_ok b58decode sig (Scanner.FetchTransaction tx)
        = None).
Proof.
  intros Hsig Hkey Hixs Hbefore Hpool.
  assert (Hkeys : existsb (fun acc => String.eqb acc Scanner.RAYDIUM_LP_V4)
                    (Scanner.account_keys tx) = true).
  { apply existsb_exists. exists Scanner.RAYDIUM_LP_V4. split; [exact Hkey|].
    apply String.eqb_refl. }
  unfold Scanner.forwarded. rewrite Hsig, Hkeys, Hixs.
  rewrite (scan_first_pool _ _ _ _ Hbefore Hpool). unfold decide_pool.
  split.
  - intros new_mint -> ->. now rewrite String.eqb_refl.
  - intros token0 token1 -> -> H0 H1.
    apply String.eqb_neq in H0, H1. now rewrite H0, H1.
Qed.

(** The data of [ix] cannot be read: the attribute is missing, or it is
    not base58. *)
Definition unreadable (b58decode : string -> option (list byte))
    (ix : Scanner.instruction) : Prop :=
  Scanner.data ix = None
  \/ exists encoded, Scanner.data ix = Some encoded /\ b58decode encoded = None.

(** X19.  Nothing is forwarded from a transaction in which an instruction
    whose data cannot be read comes before the first pool creation: the
    scan stops there with an exception, whatever the instructions after it
    are.  Nor is anything forwarded for a signature that does not parse, a
    fetch that fails or comes back empty, or a transaction that does not
    list the liquidity-pool program. *)
Theorem unreadable_instruction_aborts signature_ok b58decode sig :
  (forall tx before ix rest,
      Scanner.instructions tx = before ++ ix :: rest ->
      Forall (stepped_over b58decode) before ->
      unreadable b58decode ix ->
      Scanner.forwarded signature_ok b58decode sig (Scanner.FetchTransaction tx) = None)
  /\ (forall reply,
        signature_ok sig = false -> Scanner.forwarded signature_ok b58decode sig reply = None)
  /\ Scanner.forwarded signature_ok b58decode sig Scanner.FetchRaises = None
  /\ Scanner.forwarded signature_ok b58decode sig Scanner.FetchEmpty = None
  /\ (forall tx,
        ~ In Scanner.RAYDIUM_LP_V4 (Scanner.account_keys tx) ->
        Scanner.forwarded signature_ok b58decode sig (Scanner.FetchTransaction tx) = None).
Proof.
  split; [|split; [|split; [|split]]].
  - intros tx before ix rest Hixs Hbefore Hbad. unfold Scanner.forwarded.
    destruct (signature_ok sig); [|reflexivity].
    destruct (existsb _ _); [|reflexivity].
    rewrite Hixs, (scan_steps_over _ _ _ Hbefore). cbn [Scanner.scan_instructions].
    destruct Hbad as [->|(encoded & -> & ->)]; reflexivity.
  - intros reply H. unfold Scanner.forwarded. now rewrite H.
  - unfold Scanner.forwarded. now destruct (signature_ok sig).
  - unfold Scanner.forwarded. now destruct (signature_ok sig).
  - intros tx Hn. unfold Scanner.forwarded.
    destruct (signature_ok sig); [|reflexivity].
    destruct (existsb _ _) eqn:E; [|reflexivity].
    exfalso. apply Hn. apply existsb_exists in E as (acc & Hin & Heq).
    apply String.eqb_eq in Heq. now subst.
Qed.

(** ** The engine on top of the execution gateway *)

Lemma candidate_outcome_with_truthy_buy py_int tok price env dm :
  Engine.buy_success env = true ->
  let outcome := (Engine.process_new_token_candidate py_int tok price env dm).2 in
  outcome <> Engine.BuyFailed /\ outcome <> Engine.TrustedBuy false.
Proof.
  intros Hbuy. cbv zeta. unfold Engine.process_new_token_candidate. rewrite Hbuy.
  destruct (Engine.simulation_mode dm); [split; discriminate|].
  destruct (negb (Engine.is_exploration_phase env)).
  { destruct (Engine.detected_creators env) as [|c cs]; [split; discriminate|].
    destruct (Engine.successful_creator_cache dm) as [cache|]; [|split; discriminate].
    destruct (existsb _ _); split; discriminate. }
  destruct (Engine._check_token_honeypot_and_taxes _ _ _ _) as [info dm1].
  destruct (_ || _); [split; discriminate|].
  destruct (Py.Qlt_bool _ _); [split; discriminate|].
  destruct (bool_decide _); [split; discriminate|].
  destruct (Engine.safety_filters _ _ _); split; discriminate.
Qed.

(** X20.  The engine never notices a failed buy order.  [execute_buy]
    always returns a dict, which the engine tests for truth rather than
    reading its ["success"] entry: whatever the gateway's state and however
    the Jupiter call ends, no candidate comes out as a failed buy.  In
    particular a trusted creator's token is recorded as held although
    [execute_buy] reported [success: False]. *)
Theorem failed_buy_goes_unnoticed ex latency jupiter balance clock start creators
    oracle liquidity_quote sell_quote py_int tok price dm :
  let env := Executor.candidate_env ex latency jupiter balance clock start creators
               oracle liquidity_quote sell_quote in
  let r := Engine.process_new_token_candidate py_int tok price env dm in
  r.2 <> Engine.BuyFailed
  /\ r.2 <> Engine.TrustedBuy false
  /\ (forall message cache creator others,
        jupiter = Executor.BuyRaises message ->
        Executor.simulate ex = false ->
        Engine.simulation_mode dm = false ->
        Engine.is_exploration_phase env = false ->
        creators = creator :: others ->
        Engine.successful_creator_cache dm = Some cache ->
        creator ∈ cache ->
        Executor.br_success (Executor.execute_buy ex latency jupiter) = false
        /\ r.2 = Engine.TrustedBuy true
        /\ exists pos, Engine.held_tokens r.1 !! tok = Some pos
                       /\ Engine.buy_price pos = price).
Proof.
  cbv zeta.
  destruct (candidate_outcome_with_truthy_buy py_int tok price
              (Executor.candidate_env ex latency jupiter balance clock start creators
                 oracle liquidity_quote sell_quote) dm eq_refl) as [H1 H2].
  split; [exact H1|]. split; [exact H2|].
  intros message cache creator others -> Hex Hsim Hexp -> Hcache Hin.
  split.
  { unfold Executor.execute_buy. rewrite Hex. now destruct (_ || _). }
  unfold Engine.process_new_token_candidate. rewrite Hsim, Hexp. cbn [negb].
  cbn [Executor.candidate_env Engine.detected_creators Engine.buy_success
       Executor.buy_result_truthy].
  rewrite Hcache. cbn [existsb].
  rewrite (bool_decide_eq_true_2 _ Hin). cbn [orb].
  split; [reflexivity|].
  cbn [fst]. rewrite start_monitoring_held. cbn. rewrite lookup_insert_eq.
  eexists. split; reflexivity.
Qed.

(** X21.  A real-mode engine whose gateway cannot trade buys nothing
    through the safety checks: if the gateway fell back to simulation, or
    lacks its payer or its client, [get_wallet_status] reports the balance
    as not fine and every candidate of the exploration phase is rejected
    for insufficient balance; the same holds for a working gateway whose
    wallet holds at most 0.01. *)
Theorem idle_gateway_rejects_for_balance ex latency jupiter balance clock start
    creators oracle liquidity_quote sell_quote py_int tok price dm :
  let env := Executor.candidate_env ex latency jupiter balance clock start creators
               oracle liquidity_quote sell_quote in
  Engine.simulation_mode dm = false ->
  Engine.is_exploration_phase env = true ->
  Executor.simulate ex = true \/ Executor.has_payer ex = false
  \/ Executor.has_async_client ex = false \/ balance <= 0.01 ->
  (Engine.process_new_token_candidate py_int tok price env dm).2
  = Engine.Rejected Engine.InsufficientBalance.
Proof.
  cbv zeta. intros Hsim Hexp Hidle.
  unfold Engine.process_new_token_candidate. rewrite Hsim, Hexp. cbn [negb].
  destruct (Engine._check_token_honeypot_and_taxes _ _ _ _) as [info dm1].
  assert (Hok : Executor.ws_balance_ok (Executor.get_wallet_status ex balance) = false).
  { unfold Executor.get_wallet_status.
    destruct Hidle as [->|[->|[->|Hb]]]; cbn; rewrite ?orb_true_r; try reflexivity.
    destruct (_ || _); [reflexivity|]. cbn. now apply Qlt_bool_false_iff. }
  cbn [Executor.candidate_env Engine.balance_ok]. now rewrite Hok.
Qed.

(** X22.  What a real-mode sale is journaled at depends on how the gateway
    answered.  A confirmed Jupiter sale is journaled at the price Jupiter
    quoted; the [NotImplementedError] fall-back at the buy price; a gateway
    that fell back to simulation at price 0; and when the gateway is not
    configured or the Jupiter call raises, nothing is sold and the state is
    unchanged. *)
Theorem real_sale_price_by_gateway ex jupiter tok now dm pos :
  Engine.simulation_mode dm = false ->
  Engine.held_tokens dm !! tok = Some pos ->
  let r := Engine._execute_sale tok now (Some (Executor.execute_sell ex jupiter)) dm in
  let sold_at q :=
    r.1.2 = Some q
    /\ Engine.held_tokens r.1.1 !! tok = None
    /\ Engine.real_trades_log r.1.1
       = Engine.real_trades_log dm ++ [Engine.Trade tok q "sell" now false] in
  (Executor.simulate ex = true -> sold_at 0)
  /\ (Executor.simulate ex = false -> Executor.has_payer ex = true ->
      Executor.has_async_client ex = true ->
      match jupiter with
      | Executor.SellConfirmed _ q => sold_at q
      | Executor.SellNotImplemented => sold_at (Engine.buy_price pos)
      | Executor.SellRaises _ => r = (dm, None, None)
      end)
  /\ (Executor.simulate ex = false ->
      Executor.has_payer ex = false \/ Executor.has_async_client ex = false ->
      r = (dm, None, None)).
Proof.
  intros Hsim Hheld. cbv zeta.
  assert (Hsold : forall reported q,
             (match reported with Some x => x | None => Engine.buy_price pos end) = q ->
             let r := Engine._execute_sale tok now
                        (Some (Engine.SellData true reported)) dm in
             r.1.2 = Some q
             /\ Engine.held_tokens r.1.1 !! tok = None
             /\ Engine.real_trades_log r.1.1
                = Engine.real_trades_log dm ++ [Engine.Trade tok q "sell" now false]).
  { intros reported q Hq. cbv zeta. unfold Engine._execute_sale.
    rewrite Hsim, Hheld. cbn [fst snd]. rewrite Hq.
    unfold Engine._log_completed_trade. rewrite Hheld.
    unfold Engine.stop_monitoring_token. cbn.
    destruct (Engine.realtime_analyzer dm); cbn; rewrite lookup_delete_eq; repeat split. }
  assert (Hrefused : Engine._execute_sale tok now (Some (Engine.SellData false None)) dm
                     = (dm, None, None)).
  { unfold Engine._execute_sale. now rewrite Hsim, Hheld. }
  split; [|split].
  - intros Hex. unfold Executor.execute_sell. rewrite Hex. now apply Hsold.
  - intros Hex Hp Hc. unfold Executor.execute_sell. rewrite Hex, Hp, Hc. cbn [negb orb].
    destruct jupiter as [txid q| |message]; [now apply Hsold|now apply Hsold|exact Hrefused].
  - intros Hex Hmissing. unfold Executor.execute_sell. rewrite Hex.
    destruct Hmissing as [-> | ->]; cbn; rewrite ?orb_true_r; exact Hrefused.
Qed.

(** ** Monitoring *)

(** Every held token is watched by the real-time analyzer, when there is
    one. *)
Definition monitored (dm : Engine.t) : Prop :=
  forall watched tok,
    Engine.realtime_analyzer dm = Some watched ->
    is_Some (Engine.held_tokens dm !! tok) ->
    tok ∈ watched.

Lemma monitored_ext dm dm' :
  Engine.realtime_analyzer dm' = Engine.realtime_analyzer dm ->
  (forall tok, is_Some (Engine.held_tokens dm' !! tok) ->
               is_Some (Engine.held_tokens dm !! tok)) ->
  monitored dm -> monitored dm'.
Proof.
  intros Ha Hh Hm watched tok Hw Hheld. rewrite Ha in Hw. exact (Hm _ _ Hw (Hh _ Hheld)).
Qed.

Lemma monitored_bought tok pos dm dm1 :
  Engine.realtime_analyzer dm1 = Engine.realtime_analyzer dm ->
  Engine.held_tokens dm1 = <[tok := pos]> (Engine.held_tokens dm) ->
  monitored dm ->
  monitored (Engine.start_monitoring_token tok dm1).
Proof.
  intros Ha Hh Hm watched tok' Hw Hheld.
  rewrite start_monitoring_held, Hh in Hheld.
  unfold Engine.start_monitoring_token in Hw.
  destruct (Engine.realtime_analyzer dm1) as [w|] eqn:Hdm1.
  - cbn in Hw. inversion Hw; subst. symmetry in Ha.
    destruct (decide (tok = tok')) as [->|Hne]; [set_solver|].
    rewrite lookup_insert_ne in Hheld by exact Hne.
    pose proof (Hm _ _ Ha Hheld). set_solver.
  - rewrite Hdm1 in Hw. discriminate.
Qed.

Lemma monitored_sold tok dm dm1 :
  Engine.realtime_analyzer dm1 = Engine.realtime_analyzer dm ->
  Engine.held_tokens dm1 = Engine.held_tokens dm ->
  monitored dm ->
  monitored
    (Engine.with_held
       (delete tok (Engine.held_tokens (Engine.stop_monitoring_token tok dm1)))
       (Engine.stop_monitoring_token tok dm1)).
Proof.
  intros Ha Hh Hm watched tok' Hw Hheld.
  unfold Engine.stop_monitoring_token in Hw, Hheld.
  destruct (Engine.realtime_analyzer dm1) as [w|] eqn:Hdm1; cbn in Hw, Hheld.
  - inversion Hw; subst. symmetry in Ha.
    rewrite Hh in Hheld. apply lookup_delete_is_Some in Hheld as [Hne Hheld].
    pose proof (Hm _ _ Ha Hheld). set_solver.
  - rewrite Hdm1 in Hw. discriminate.
Qed.

Lemma execute_sale_monitored tok now reply dm :
  monitored dm -> monitored (Engine._execute_sale tok now reply dm).1.1.
Proof.
  intros Hm. unfold Engine._execute_sale.
  destruct (Engine.simulation_mode dm);
    destruct (Engine.held_tokens dm !! tok) as [pos|] eqn:Hheld; try exact Hm.
  - cbn. apply (monitored_ext dm); [reflexivity| |exact Hm].
    intros tok'. cbn. rewrite lookup_delete_is_Some. tauto.
  - destruct reply as [[[] reported]|]; try exact Hm.
    cbn [fst]. apply (monitored_sold tok dm); [| |exact Hm];
      unfold Engine._log_completed_trade; now rewrite Hheld.
Qed.

Lemma learn_creators_monitored creators dm :
  monitored dm -> monitored (Engine.learn_creators creators dm).1.
Proof.
  revert dm. induction creators as [|c rest IH]; intros dm Hm; [exact Hm|].
  cbn. destruct (Engine.successful_creator_cache dm) as [cache|]; [|exact Hm].
  destruct (decide (c ∈ cache)); [now apply IH|].
  apply IH. apply (monitored_ext dm); [reflexivity|tauto|exact Hm].
Qed.

Lemma evaluate_monitored tok p whale env dm :
  monitored dm ->
  monitored (Engine.after (Engine.evaluate_held_tokens_for_sale tok p whale env dm)).
Proof.
  intros Hm. unfold Engine.evaluate_held_tokens_for_sale.
  destruct (Engine.held_tokens dm !! tok) as [pos|] eqn:Hheld; [|exact Hm].
  destruct (Py.truediv _ _) as [ratio|]; [|exact Hm].
  destruct (Qle_bool _ _).
  - pose proof (execute_sale_monitored tok (Engine.now env) (Engine.sell_reply env) dm Hm)
      as Hs.
    destruct (Engine._execute_sale _ _ _ _) as [[dm1 sold] err]. cbn [fst] in Hs.
    destruct (Engine.simulation_mode dm1); [|exact Hs].
    destruct (Engine.held_tokens dm1 !! tok) as [pos1|]; [|exact Hs].
    destruct (Py.Qlt_bool _ _); [|exact Hs].
    pose proof (learn_creators_monitored (Engine.creator_wallets pos1) dm1 Hs) as Hl.
    destruct (Engine.learn_creators _ _) as [dm2 err2]. exact Hl.
  - set (dm1 := Engine.with_held _ dm).
    assert (Hm1 : monitored dm1).
    { apply (monitored_ext dm); [reflexivity| |exact Hm].
      intros tok'. subst dm1. cbn. rewrite lookup_insert_is_Some.
      intros [<-|[_ H]]; [now rewrite Hheld|exact H]. }
    pose proof (execute_sale_monitored tok (Engine.now env) (Engine.sell_reply env) dm1 Hm1)
      as Hs.
    destruct (Py.Qlt_bool _ _).
    + destruct (Engine._execute_sale _ _ _ _) as [[dm2 sold] err]. exact Hs.
    + destruct (_ || _); [|exact Hm1].
      destruct (Engine._execute_sale _ _ _ _) as [[dm2 sold] err]. exact Hs.
Qed.

Lemma candidate_monitored py_int tok price env dm :
  monitored dm ->
  monitored (Engine.process_new_token_candidate py_int tok price env dm).1.
Proof.
  intros Hm. unfold Engine.process_new_token_candidate.
  destruct (Engine.simulation_mode dm).
  { cbn [fst]. eapply (monitored_bought tok _ dm); [| |exact Hm]; reflexivity. }
  destruct (negb (Engine.is_exploration_phase env)).
  { destruct (Engine.detected_creators env) as [|c cs]; [exact Hm|].
    destruct (Engine.successful_creator_cache dm) as [cache|]; [|exact Hm].
    destruct (existsb _ _); [|exact Hm].
    destruct (Engine.buy_success env); [|exact Hm].
    cbn [fst]. eapply (monitored_bought tok _ dm); [| |exact Hm]; reflexivity. }
  pose proof (check_honeypot_held tok (Engine.clock env) (Engine.oracle env) dm) as Hh.
  assert (Ha : Engine.realtime_analyzer
                 (Engine._check_token_honeypot_and_taxes tok (Engine.clock env)
                    (Engine.oracle env) dm).2
               = Engine.realtime_analyzer dm).
  { unfold Engine._check_token_honeypot_and_taxes.
    destruct (Engine.honeypot_cache dm !! tok) as [e|]; [|reflexivity].
    now destruct (Py.Qlt_bool _ _). }
  destruct (Engine._check_token_honeypot_and_taxes _ _ _ _) as [info dm1].
  cbn [snd] in Hh, Ha.
  assert (Hm1 : monitored dm1).
  { apply (monitored_ext dm); [exact Ha| |exact Hm]. intros tok'. now rewrite Hh. }
  destruct (_ || _); [exact Hm1|].
  destruct (Py.Qlt_bool _ _); [exact Hm1|].
  destruct (bool_decide _); [exact Hm1|].
  destruct (Engine.safety_filters _ _ _); [exact Hm1|].
  destruct (Engine.buy_success env); [|exact Hm1].
  cbn [fst].
  set (dm2 := Engine.with_held _ dm1).
  assert (Hm3 : monitored (Engine.start_monitoring_token tok dm2)).
  { eapply (monitored_bought tok _ dm1); [| |exact Hm1]; reflexivity. }
  apply (monitored_ext (Engine.start_monitoring_token tok dm2));
    [reflexivity|tauto|exact Hm3].
Qed.

Lemma forced_sell_monitored tok now loop_time reply dm :
  monitored dm -> monitored (Engine.forced_sell tok now loop_time reply dm).
Proof.
  intros Hm. unfold Engine.forced_sell.
  pose proof (execute_sale_monitored tok now reply dm Hm) as Hs.
  destruct (Engine._execute_sale _ _ _ _) as [[dm1 sold] err]. cbn [fst] in Hs.
  apply (monitored_ext dm1); [reflexivity|tauto|exact Hs].
Qed.

(** X23.  Every held token is under watch: in an engine with a real-time
    analyzer, throughout any run of candidates, evaluations and forced
    sales that starts without positions, each token that is held is in the
    analyzer's set of watched tokens.  Every path that records a position
    starts the monitoring of its token, and only a sale that removes the
    position stops it. *)
Theorem held_tokens_are_monitored py_int events dm :
  (Engine.held_tokens dm = ∅ -> monitored dm)
  /\ (monitored dm -> monitored (Engine.run py_int events dm)).
Proof.
  split.
  - intros He watched tok _ [pos Hpos]. rewrite He, lookup_empty in Hpos. discriminate.
  - unfold Engine.run. revert dm.
    induction events as [|e events IH]; intros dm Hm; [exact Hm|].
    cbn [fold_left]. apply IH.
    destruct e as [tok price env|[tok p whale env]|tok now loop_time reply]; cbn.
    + now apply candidate_monitored.
    + now apply evaluate_monitored.
    + now apply forced_sell_monitored.
Qed.

(** ** The further properties at work on the worked inputs *)

Lemma honeypot_answer_cached_witness :
  let honeypot :=
    Engine.OracleStatus 200
      (Some (Engine.OracleJson true true None None None false false)) in
  let first :=
    Engine._check_token_honeypot_and_taxes "MINT" 1000 Engine.OracleRaises
      Examples.real_engine in
  cache_miss "MINT" 1000 Examples.real_engine
  /\ 1100 - 1000 < 300
  /\ oracle_failed Engine.OracleRaises
  /\ Engine._check_token_honeypot_and_taxes "MINT" 1100 honeypot first.2 = first
  /\ first.1 = Engine.default_honeypot_info.
Proof.
  cbv zeta.
  assert (H1 : cache_miss "MINT" 1000 Examples.real_engine) by exact I.
  assert (H2 : 1100 - 1000 < 300) by (vm_compute; reflexivity).
  assert (H3 : oracle_failed Engine.OracleRaises) by exact I.
  repeat (split; [assumption|]).
  pose proof (honeypot_answer_cached "MINT" 1000 1100 Engine.OracleRaises
                (Engine.OracleStatus 200
                   (Some (Engine.OracleJson true true None None None false false)))
                Examples.real_engine H1) as H.
  exact (conj (proj1 H H2) (proj2 (proj2 H) H3)).
Defined.

Lemma bought_passed_every_gate_witness :
  (Engine.process_new_token_candidate Py.int_of_digits "MINT" 1
     Examples.oracle_down Examples.real_engine).2 = Engine.Bought
  /\ Engine.simulation_mode Examples.real_engine = false
  /\ Engine.is_exploration_phase Examples.oracle_down = true
  /\ Engine.balance_ok Examples.oracle_down = true
  /\ Engine.buy_amount_sol Examples.real_engine + 0.001
     <= Engine.balance_sol Examples.oracle_down
  /\ Engine.buy_amount_sol Examples.real_engine
     <= Engine.available_capital Examples.real_engine
  /\ Engine.held_tokens Examples.real_engine !! "MINT" = None.
Proof.
  assert (H : (Engine.process_new_token_candidate Py.int_of_digits "MINT" 1
                 Examples.oracle_down Examples.real_engine).2 = Engine.Bought)
    by (vm_compute; reflexivity).
  split; [exact H|].
  pose proof (bought_passed_every_gate Py.int_of_digits "MINT" 1
                Examples.oracle_down Examples.real_engine H) as G.
  cbv zeta in G.
  destruct G as (G1 & G2 & G3 & G4 & G5 & G6 & _).
  exact (conj G1 (conj G2 (conj G3 (conj G4 (conj G5 G6))))).
Defined.

Lemma unbought_candidate_leaves_no_trace_witness :
  let r := Engine.process_new_token_candidate Py.int_of_digits "MINT" 1
             Examples.honeypot_candidate Examples.real_engine in
  r.2 = Engine.Rejected Engine.Honeypot
  /\ ~ position_taken r.2
  /\ exists cache, r.1 = Engine.with_honeypot_cache cache Examples.real_engine.
Proof.
  cbv zeta.
  assert (H0 : (Engine.process_new_token_candidate Py.int_of_digits "MINT" 1
                  Examples.honeypot_candidate Examples.real_engine).2
               = Engine.Rejected Engine.Honeypot) by (vm_compute; reflexivity).
  assert (H : ~ position_taken
                (Engine.process_new_token_candidate Py.int_of_digits "MINT" 1
                   Examples.honeypot_candidate Examples.real_engine).2).
  { rewrite H0. intros [G|[G|G]]; discriminate G. }
  split; [exact H0|]. split; [exact H|].
  exact (unbought_candidate_leaves_no_trace Py.int_of_digits "MINT" 1
           Examples.honeypot_candidate Examples.real_engine H).
Defined.

Lemma held_token_deduplication_witness :
  let again := Engine.process_new_token_candidate Py.int_of_digits "MINT" 3
                 Examples.oracle_down in
  Engine.held_tokens Examples.holding_engine !! "MINT" = Some Examples.held_position
  /\ Engine.held_tokens Examples.switched_engine !! "MINT" = Some Examples.held_position
  /\ (~ position_taken (again Examples.holding_engine).2
      /\ Engine.held_tokens (again Examples.holding_engine).1 !! "MINT"
         = Some Examples.held_position)
  /\ ((again Examples.switched_engine).2 = Engine.SimulatedBuy
      /\ Engine.held_tokens (again Examples.switched_engine).1 !! "MINT"
         = Some (Engine.Position 3 (Engine.buy_amount_sol Examples.switched_engine) []
                   (Engine.clock Examples.oracle_down) None)).
Proof.
  cbv zeta.
  assert (H1 : Engine.held_tokens Examples.holding_engine !! "MINT"
               = Some Examples.held_position) by (vm_compute; reflexivity).
  assert (H2 : Engine.held_tokens Examples.switched_engine !! "MINT"
               = Some Examples.held_position) by (vm_compute; reflexivity).
  assert (H3 : Engine.simulation_mode Examples.holding_engine = false) by reflexivity.
  assert (H4 : Engine.is_exploration_phase Examples.oracle_down = true)
    by (vm_compute; reflexivity).
  assert (H5 : Engine.simulation_mode Examples.switched_engine = true) by reflexivity.
  split; [exact H1|]. split; [exact H2|].
  exact (conj
           (proj1 (held_token_deduplication Py.int_of_digits "MINT" 3
                     Examples.oracle_down Examples.holding_engine
                     Examples.held_position H1) H3 H4)
           (proj2 (held_token_deduplication Py.int_of_digits "MINT" 3
                     Examples.oracle_down Examples.switched_engine
                     Examples.held_position H2) H5)).
Defined.

Lemma sale_or_position_retained_witness :
  let r := Engine.evaluate_held_tokens_for_sale "MINT" 1.5 false Examples.quiet
             Examples.switched_engine in
  Engine.held_tokens Examples.switched_engine !! "MINT" = Some Examples.held_position
  /\ match Engine.sale r with
     | Some q =>
         Engine.held_tokens (Engine.after r) !! "MINT" = None
         /\ journal_gained Examples.switched_engine (Engine.after r)
              (Engine.Trade "MINT" q "sell" (Engine.now Examples.quiet) false)
     | None =>
         (exists pos', Engine.held_tokens (Engine.after r) !! "MINT" = Some pos'
                       /\ same_purchase Examples.held_position pos')
         /\ journals_kept Examples.switched_engine (Engine.after r)
     end.
Proof.
  cbv zeta.
  assert (H1 : Engine.held_tokens Examples.switched_engine !! "MINT"
               = Some Examples.held_position) by (vm_compute; reflexivity).
  split; [exact H1|].
  exact (sale_or_position_retained "MINT" 1.5 false Examples.quiet
           Examples.switched_engine Examples.held_position H1).
Defined.

Lemma simulated_round_trip_witness :
  let bought := (Engine.process_new_token_candidate Py.int_of_digits "MINT" 1
                   Examples.oracle_down Examples.simulated_engine).1 in
  let sold := Engine.after
                (Engine.evaluate_held_tokens_for_sale "MINT" 2.05 false Examples.quiet
                   bought) in
  Engine.simulation_mode Examples.simulated_engine = true
  /\ ~ 1 == 0
  /\ Engine.sell_multiplier Examples.simulated_engine <= 2.05 / 1
  /\ Engine.held_tokens sold !! "MINT" = None
  /\ Engine.simulation_results sold
     = Engine.simulation_results Examples.simulated_engine
       ++ [Engine.Trade "MINT" 1 "buy" (Engine.clock Examples.oracle_down) false;
           Engine.Trade "MINT" (1 * Engine.sell_multiplier Examples.simulated_engine)
             "sell" (Engine.now Examples.quiet) false]
  /\ Engine.get_simulation_profit_loss sold
     = Engine.get_simulation_profit_loss Examples.simulated_engine
       + (1 * Engine.sell_multiplier Examples.simulated_engine - 1).
Proof.
  cbv zeta.
  assert (H1 : Engine.simulation_mode Examples.simulated_engine = true) by reflexivity.
  assert (H2 : ~ 1 == 0) by (vm_compute; discriminate).
  assert (H3 : Engine.sell_multiplier Examples.simulated_engine <= 2.05 / 1)
    by (vm_compute; discriminate).
  repeat (split; [assumption|]).
  exact (simulated_round_trip Py.int_of_digits "MINT" 1 2.05 false
           Examples.oracle_down Examples.quiet Examples.simulated_engine H1 H2 H3).
Defined.

Lemma evaluations_are_local_witness :
  let calls := [Engine.EvalCall "MINT" 2.05 false Examples.quiet] in
  (forall c, In c calls -> Engine.ec_token c <> "OTHER"%string)
  /\ Engine.held_tokens (Engine.evaluations calls Examples.peaked_engine) !! "OTHER"
     = Engine.held_tokens Examples.peaked_engine !! "OTHER".
Proof.
  cbv zeta.
  assert (H : forall c, In c [Engine.EvalCall "MINT" 2.05 false Examples.quiet] ->
                        Engine.ec_token c <> "OTHER"%string).
  { intros c [<-|[]]. cbn. discriminate. }
  split; [exact H|].
  exact (proj2 (evaluations_are_local
                  [Engine.EvalCall "MINT" 2.05 false Examples.quiet]
                  Examples.peaked_engine) "OTHER"%string H).
Defined.

Lemma simulated_liquidation_witness :
  let dm' := Engine.sell_all_tokens ["MINT"%string]
               (fun _ => Engine.ForcedEnv 1100 1101 None) Examples.peaked_engine in
  Engine.simulation_mode Examples.peaked_engine = true
  /\ In "MINT"%string ["MINT"%string]
  /\ Engine.held_tokens dm' !! "MINT" = None
  /\ length (Engine.real_trades_log dm')
     = (length (Engine.real_trades_log Examples.peaked_engine) + 1)%nat.
Proof.
  cbv zeta.
  assert (H1 : Engine.simulation_mode Examples.peaked_engine = true) by reflexivity.
  assert (H2 : In "MINT"%string ["MINT"%string]) by (left; reflexivity).
  split; [exact H1|]. split; [exact H2|].
  pose proof (simulated_liquidation ["MINT"%string]
                (fun _ => Engine.ForcedEnv 1100 1101 None)
                Examples.peaked_engine H1) as H.
  cbv zeta in H.
  exact (conj (proj1 H "MINT"%string H2) (proj2 (proj2 (proj2 H)))).
Defined.

Lemma forced_sale_always_journaled_witness :
  let refused := Some (Engine.SellData false None) in
  let dm' := Engine.forced_sell "MINT" 1100 1101 refused Examples.holding_engine in
  Engine.simulation_mode Examples.holding_engine = false
  /\ Engine.held_tokens Examples.holding_engine !! "MINT" = Some Examples.held_position
  /\ sale_refused refused
  /\ Engine.held_tokens dm' !! "MINT" = Some Examples.held_position
  /\ Engine.real_trades_log dm'
     = Engine.real_trades_log Examples.holding_engine
       ++ [Engine.Trade "MINT" (Engine.buy_price Examples.held_position) "sell"
             1101 true].
Proof.
  cbv zeta.
  assert (H1 : Engine.simulation_mode Examples.holding_engine = false) by reflexivity.
  assert (H2 : Engine.held_tokens Examples.holding_engine !! "MINT"
               = Some Examples.held_position) by (vm_compute; reflexivity).
  assert (H3 : sale_refused (Some (Engine.SellData false None))) by exact I.
  split; [exact H1|]. split; [exact H2|]. split; [exact H3|].
  exact (proj2 (forced_sale_always_journaled "MINT" 1100 1101
                  (Some (Engine.SellData false None)) Examples.holding_engine
                  Examples.held_position H1 H2) H3).
Defined.

Lemma frozen_tick_changes_nothing_witness :
  let st := Optimizer.TickState Examples.winning_engine Examples.fresh_optimizer [] in
  let st' := Optimizer.analyze_and_adjust Examples.pow_half Examples.lucky_draws st in
  Optimizer.freeze
    (Optimizer.optimizer
       (Optimizer.update_freeze
          (Optimizer.observe Examples.pow_half Examples.lucky_draws st))) = true
  /\ Optimizer.engine st' = Optimizer.engine st
  /\ Optimizer.decisions st' = Optimizer.decisions st
  /\ Optimizer.rollback_count (Optimizer.optimizer st')
     = Optimizer.rollback_count (Optimizer.optimizer st)
  /\ Optimizer.freeze (Optimizer.optimizer st') = true.
Proof.
  cbv zeta.
  assert (H : Optimizer.freeze
                (Optimizer.optimizer
                   (Optimizer.update_freeze
                      (Optimizer.observe Examples.pow_half Examples.lucky_draws
                         (Optimizer.TickState Examples.winning_engine
                            Examples.fresh_optimizer [])))) = true)
    by (vm_compute; reflexivity).
  split; [exact H|].
  exact (frozen_tick_changes_nothing Examples.pow_half Examples.lucky_draws
           (Optimizer.TickState Examples.winning_engine Examples.fresh_optimizer [])
           H).
Defined.

Lemma frozen_means_healthy_witness :
  let o' := Optimizer.optimizer
              (Optimizer.analyze_and_adjust Examples.pow_half Examples.lucky_draws
                 (Optimizer.TickState Examples.winning_engine
                    Examples.fresh_optimizer [])) in
  Optimizer.freeze o' = true
  /\ 0.6 <= Optimizer.winrate o'
  /\ Optimizer.drawdown o' <= 0.15
  /\ forall best, Optimizer.best_profit o' = Some best ->
                  best * 0.8 <= Optimizer.sim_profit o'.
Proof.
  cbv zeta.
  assert (H : Optimizer.freeze
                (Optimizer.optimizer
                   (Optimizer.analyze_and_adjust Examples.pow_half
                      Examples.lucky_draws
                      (Optimizer.TickState Examples.winning_engine
                         Examples.fresh_optimizer []))) = true)
    by (vm_compute; reflexivity).
  split; [exact H|].
  exact (frozen_means_healthy Examples.pow_half Examples.lucky_draws
           (Optimizer.TickState Examples.winning_engine Examples.fresh_optimizer [])
           H).
Defined.

Lemma winrate_is_a_fraction_witness :
  let open_position := [Engine.Trade "A" 1 "buy" 10 false] in
  Optimizer.trade_profits open_position ∅ = []
  /\ (Optimizer._compute_stats Examples.pow_half open_position).1.1 = 0.
Proof.
  cbv zeta.
  assert (H : Optimizer.trade_profits [Engine.Trade "A" 1 "buy" 10 false] ∅ = [])
    by (vm_compute; reflexivity).
  split; [exact H|].
  exact (proj2 (proj2 (winrate_is_a_fraction Examples.pow_half
                         [Engine.Trade "A" 1 "buy" 10 false])) H).
Defined.

Lemma drawdown_is_nonnegative_witness :
  Forall (fun profit => 0 <= profit)
    (Optimizer.trade_profits Examples.winning_journal ∅)
  /\ Optimizer._compute_drawdown Examples.winning_journal == 0.
Proof.
  assert (H : Forall (fun profit => 0 <= profit)
                (Optimizer.trade_profits Examples.winning_journal ∅)).
  { replace (Optimizer.trade_profits Examples.winning_journal ∅) with [2 - 1]
      by (vm_compute; reflexivity).
    apply List.Forall_cons; [vm_compute; discriminate|apply List.Forall_nil]. }
  split; [exact H|].
  exact (proj2 (drawdown_is_nonnegative Examples.winning_journal) H).
Defined.

Lemma streaks_exclude_each_other_witness :
  let st := Optimizer.TickState Examples.engine_with_journal
              Examples.fresh_optimizer [] in
  let o' := Optimizer.optimizer
              (Optimizer.analyze_and_adjust Examples.pow_half Examples.lucky_draws st) in
  (Optimizer.loss_streak Examples.fresh_optimizer = O
   \/ Optimizer.win_streak Examples.fresh_optimizer = O)
  /\ (Optimizer.loss_streak o' = O \/ Optimizer.win_streak o' = O).
Proof.
  cbv zeta.
  assert (H : Optimizer.loss_streak Examples.fresh_optimizer = O
              \/ Optimizer.win_streak Examples.fresh_optimizer = O)
    by (left; reflexivity).
  split; [exact H|].
  exact (proj1 (streaks_exclude_each_other Examples.pow_half Examples.lucky_draws
                  (Optimizer.TickState Examples.engine_with_journal
                     Examples.fresh_optimizer [])) H).
Defined.

Lemma first_pool_creation_decides_witness :
  let ix := Scanner.Instruction Scanner.RAYDIUM_LP_V4 (Some "payload"%string)
              ["a0"; "a1"; "a2"; "a3"; "a4"; "a5"; "a6"; "a7";
               Scanner.SOL_MINT; "NEWMINT"; "a10"]%string in
  Scanner.instructions Examples.pool_creation = [] ++ ix :: []
  /\ creates_pool Examples.decode ix
  /\ Scanner.accounts ix !! 8%nat = Some Scanner.SOL_MINT
  /\ Scanner.accounts ix !! 9%nat = Some "NEWMINT"%string
  /\ Scanner.forwarded (fun _ => true) Examples.decode "sig"
       (Scanner.FetchTransaction Examples.pool_creation)
     = Some ("NEWMINT"%string, 0.0).
Proof.
  cbv zeta.
  set (ix := Scanner.Instruction Scanner.RAYDIUM_LP_V4 (Some "payload"%string)
               ["a0"; "a1"; "a2"; "a3"; "a4"; "a5"; "a6"; "a7";
                Scanner.SOL_MINT; "NEWMINT"; "a10"]%string).
  assert (H1 : (fun _ : string => true) "sig"%string = true) by reflexivity.
  assert (H2 : In Scanner.RAYDIUM_LP_V4 (Scanner.account_keys Examples.pool_creation))
    by (right; left; reflexivity).
  assert (H3 : Scanner.instructions Examples.pool_creation = [] ++ ix :: [])
    by reflexivity.
  assert (H4 : Forall (stepped_over Examples.decode) []) by apply List.Forall_nil.
  assert (H5 : creates_pool Examples.decode ix).
  { exists "payload"%string, (Scanner.initialize2_discriminant ++ [x01; x02]),
      [x01; x02].
    repeat split; vm_compute; reflexivity. }
  assert (H6 : Scanner.accounts ix !! 8%nat = Some Scanner.SOL_MINT) by reflexivity.
  assert (H7 : Scanner.accounts ix !! 9%nat = Some "NEWMINT"%string) by reflexivity.
  split; [exact H3|]. split; [exact H5|]. split; [exact H6|]. split; [exact H7|].
  exact (proj1 (first_pool_creation_decides (fun _ => true) Examples.decode "sig"
                  Examples.pool_creation [] ix [] H1 H2 H3 H4 H5)
           "NEWMINT"%string H6 H7).
Defined.

Lemma unreadable_instruction_aborts_witness :
  let ix := Scanner.Instruction "other"%string None [] in
  Scanner.instructions Examples.garbled_transaction
  = [] ++ ix :: Scanner.instructions Examples.pool_creation
  /\ unreadable Examples.decode ix
  /\ Scanner.forwarded (fun _ => true) Examples.decode "sig"
       (Scanner.FetchTransaction Examples.garbled_transaction) = None.
Proof.
  cbv zeta.
  assert (H1 : Scanner.instructions Examples.garbled_transaction
               = [] ++ Scanner.Instruction "other"%string None []
                       :: Scanner.instructions Examples.pool_creation)
    by reflexivity.
  assert (H2 : Forall (stepped_over Examples.decode) []) by apply List.Forall_nil.
  assert (H3 : unreadable Examples.decode (Scanner.Instruction "other"%string None []))
    by (left; reflexivity).
  split; [exact H1|]. split; [exact H3|].
  exact (proj1 (unreadable_instruction_aborts (fun _ => true) Examples.decode "sig")
           Examples.garbled_transaction [] _ _ H1 H2 H3).
Defined.

Lemma failed_buy_goes_unnoticed_witness :
  let jupiter := Executor.BuyRaises "timeout" in
  let env := Executor.candidate_env Examples.working_gateway 12 jupiter 5 1010 None
               ["creator"%string] Engine.OracleRaises Engine.QuoteRaises
               Engine.QuoteRaises in
  let r := Engine.process_new_token_candidate Py.int_of_digits "MINT" 1 env
             Examples.trusting_engine in
  Executor.simulate Examples.working_gateway = false
  /\ Engine.simulation_mode Examples.trusting_engine = false
  /\ Engine.is_exploration_phase env = false
  /\ Engine.successful_creator_cache Examples.trusting_engine
     = Some {["creator"%string]}
  /\ "creator"%string ∈ ({["creator"%string]} : gset string)
  /\ Executor.br_success (Executor.execute_buy Examples.working_gateway 12 jupiter)
     = false
  /\ r.2 = Engine.TrustedBuy true
  /\ exists pos, Engine.held_tokens r.1 !! "MINT" = Some pos
                 /\ Engine.buy_price pos = 1.
Proof.
  cbv zeta.
  assert (H1 : Executor.simulate Examples.working_gateway = false) by reflexivity.
  assert (H2 : Engine.simulation_mode Examples.trusting_engine = false) by reflexivity.
  assert (H3 : Engine.is_exploration_phase
                 (Executor.candidate_env Examples.working_gateway 12
                    (Executor.BuyRaises "timeout") 5 1010 None ["creator"%string]
                    Engine.OracleRaises Engine.QuoteRaises Engine.QuoteRaises)
               = false) by reflexivity.
  assert (H4 : Engine.successful_creator_cache Examples.trusting_engine
               = Some {["creator"%string]}) by reflexivity.
  assert (H5 : "creator"%string ∈ ({["creator"%string]} : gset string))
    by (apply elem_of_singleton; reflexivity).
  split; [exact H1|]. split; [exact H2|]. split; [exact H3|]. split; [exact H4|].
  split; [exact H5|].
  exact (proj2 (proj2 (failed_buy_goes_unnoticed Examples.working_gateway 12
                         (Executor.BuyRaises "timeout") 5 1010 None
                         ["creator"%string] Engine.OracleRaises Engine.QuoteRaises
                         Engine.QuoteRaises Py.int_of_digits "MINT" 1
                         Examples.trusting_engine))
           "timeout"%string {["creator"%string]} "creator"%string []
           eq_refl H1 H2 H3 eq_refl H4 H5).
Defined.

Lemma idle_gateway_rejects_for_balance_witness :
  let env := Executor.candidate_env Examples.idle_gateway 12
               (Executor.BuyConfirmed "txid") 5 1010 (Some 1000) []
               Engine.OracleRaises (Engine.QuoteJson (Some "123456"%string))
               (Engine.QuoteJson (Some "98765"%string)) in
  Engine.simulation_mode Examples.real_engine = false
  /\ Engine.is_exploration_phase env = true
  /\ Executor.has_payer Examples.idle_gateway = false
  /\ (Engine.process_new_token_candidate Py.int_of_digits "MINT" 1 env
        Examples.real_engine).2
     = Engine.Rejected Engine.InsufficientBalance.
Proof.
  cbv zeta.
  assert (H1 : Engine.simulation_mode Examples.real_engine = false) by reflexivity.
  assert (H2 : Engine.is_exploration_phase
                 (Executor.candidate_env Examples.idle_gateway 12
                    (Executor.BuyConfirmed "txid") 5 1010 (Some 1000) []
                    Engine.OracleRaises (Engine.QuoteJson (Some "123456"%string))
                    (Engine.QuoteJson (Some "98765"%string))) = true)
    by (vm_compute; reflexivity).
  assert (H3 : Executor.has_payer Examples.idle_gateway = false) by reflexivity.
  split; [exact H1|]. split; [exact H2|]. split; [exact H3|].
  exact (idle_gateway_rejects_for_balance Examples.idle_gateway 12
           (Executor.BuyConfirmed "txid") 5 1010 (Some 1000) []
           Engine.OracleRaises (Engine.QuoteJson (Some "123456"%string))
           (Engine.QuoteJson (Some "98765"%string)) Py.int_of_digits "MINT" 1
           Examples.real_engine H1 H2 (or_intror (or_introl H3))).
Defined.

Lemma real_sale_price_by_gateway_witness :
  let r := Engine._execute_sale "MINT" 1100
             (Some (Executor.execute_sell Examples.working_gateway
                      (Executor.SellConfirmed "txid" 3)))
             Examples.holding_engine in
  Engine.simulation_mode Examples.holding_engine = false
  /\ Engine.held_tokens Examples.holding_engine !! "MINT" = Some Examples.held_position
  /\ r.1.2 = Some 3
  /\ Engine.held_tokens r.1.1 !! "MINT" = None
  /\ Engine.real_trades_log r.1.1
     = Engine.real_trades_log Examples.holding_engine
       ++ [Engine.Trade "MINT" 3 "sell" 1100 false].
Proof.
  cbv zeta.
  assert (H1 : Engine.simulation_mode Examples.holding_engine = false) by reflexivity.
  assert (H2 : Engine.held_tokens Examples.holding_engine !! "MINT"
               = Some Examples.held_position) by (vm_compute; reflexivity).
  split; [exact H1|]. split; [exact H2|].
  exact (proj1 (proj2 (real_sale_price_by_gateway Examples.working_gateway
                         (Executor.SellConfirmed "txid" 3) "MINT" 1100
                         Examples.holding_engine Examples.held_position H1 H2))
           eq_refl eq_refl eq_refl).
Defined.

Lemma held_tokens_are_monitored_witness :
  Engine.held_tokens Examples.watched_engine = ∅
  /\ monitored
       (Engine.run Py.int_of_digits
          [Engine.Candidate "MINT" 1 Examples.oracle_down;
           Engine.Candidate "OTHER" 2 Examples.oracle_down;
           Engine.Evaluation (Engine.EvalCall "MINT" 2.05 false Examples.quiet)]
          Examples.watched_engine).
Proof.
  assert (H1 : Engine.held_tokens Examples.watched_engine = ∅) by reflexivity.
  split; [exact H1|].
  exact (proj2 (held_tokens_are_monitored Py.int_of_digits _ Examples.watched_engine)
           (proj1 (held_tokens_are_monitored Py.int_of_digits [] Examples.watched_engine)
              H1)).
Defined.
